(** * The notes-processing front end: selection state, preview rendering,
      confirm-and-execute, and the recent-contacts cache

    A shallow embedding of the newest front-end script (the variant with
    deals, master toggles and future tasks).  The module-level variables
    of the script and the parts of the DOM that the handlers read back
    (form inputs, the to-do rows, a few visibility flags) are gathered in
    one [State] record; every handler is a function on that record.
    Network round trips are modelled by passing the response as an
    argument of the handler that awaits it.

    What is not tracked: texts and styles that are only written and never
    read back by the script (status lines, the execution summary list,
    the success panel), focus, and which top-level section is shown. *)

From Stdlib Require Import String Ascii List Bool Arith ZArith Lia.
From stdpp Require Import base option list.
From coqutil Require Import Datatypes.RecordSetters.
Import ListNotations.
Import RecordSetters.TriangleBracketNotations.
Local Open Scope string_scope.

(** ** JavaScript values used by the script

    A value that is either [null]/[undefined] or a string is an
    [option string]; [null] and [undefined] are not told apart (the script
    tests such values for truthiness, with [||] or with [??]; the one use
    of [===] is commented where it is modelled). *)
Module JS.

(** [if (v)]: a string is truthy unless it is empty. *)
Definition truthy (v : option string) : bool :=
  match v with
  | Some s => negb (String.eqb s "")
  | None => false
  end.

(** [a || b] on two nullable strings. *)
Definition or_val (a b : option string) : option string :=
  if truthy a then a else b.

(** [a || 'literal']. *)
Definition or_str (a : option string) (d : string) : string :=
  match a with
  | Some s => if String.eqb s "" then d else s
  | None => d
  end.

(** [a ?? b]. *)
Definition nullish_or (a b : option string) : option string :=
  match a with
  | Some _ => a
  | None => b
  end.

(** Strings hold the UTF-8 bytes of the JavaScript string, as the string
    literals of this file do.

    The white space of ECMAScript, which [trim] strips and the class [\s]
    matches, is U+0009 to U+000D, U+0020, U+00A0, U+1680, U+2000 to
    U+200A, U+2028, U+2029, U+202F, U+205F, U+3000 and U+FEFF: one byte
    below U+0080, two bytes for U+00A0, three bytes for the others. *)
Definition space1 (c : ascii) : bool :=
  let n := nat_of_ascii c in
  (((9 <=? n) && (n <=? 13)) || (n =? 32))%nat.

Definition space2 (c d : ascii) : bool :=
  ((nat_of_ascii c =? 194) && (nat_of_ascii d =? 160))%nat.

Definition space3 (c d e : ascii) : bool :=
  let n := nat_of_ascii c in
  let m := nat_of_ascii d in
  let k := nat_of_ascii e in
  (((n =? 225) && ((m =? 154) && (k =? 128)))
   || ((n =? 226)
       && (((m =? 128)
            && (((128 <=? k) && (k <=? 138)) || (k =? 168) || (k =? 169) || (k =? 175)))
           || ((m =? 129) && (k =? 159))))
   || ((n =? 227) && ((m =? 128) && (k =? 128)))
   || ((n =? 239) && ((m =? 187) && (k =? 191))))%nat.

(** The number of bytes of the white-space character that [s] starts
    with, 0 when it starts with none. *)
Definition spaceWidth (s : string) : nat :=
  match s with
  | String c r =>
      if space1 c then 1
      else
        match r with
        | String d r' =>
            if space2 c d then 2
            else
              match r' with
              | String e _ => if space3 c d e then 3 else 0
              | EmptyString => 0
              end
        | EmptyString => 0
        end
  | EmptyString => 0
  end.

(** A string cut into its white-space characters and its other bytes. *)
Inductive Token :=
| white (bytes : string)
| other (c : ascii).

(** [pending] bytes of a white-space character are still to be passed
    over. *)
Fixpoint tokensAfter (pending : nat) (s : string) : list Token :=
  match s with
  | EmptyString => []
  | String c r =>
      match pending with
      | S k => tokensAfter k r
      | 0 =>
          match spaceWidth s with
          | 0 => other c :: tokensAfter 0 r
          | S k => white (String.substring 0 (S k) s) :: tokensAfter k r
          end
      end
  end.

Definition tokens (s : string) : list Token := tokensAfter 0 s.

Definition isWhite (t : Token) : bool :=
  match t with
  | white _ => true
  | other _ => false
  end.

Definition tokenText (t : Token) : string :=
  match t with
  | white bytes => bytes
  | other c => String c EmptyString
  end.

Fixpoint text (l : list Token) : string :=
  match l with
  | [] => EmptyString
  | t :: rest => tokenText t ++ text rest
  end.

Fixpoint dropWhite (l : list Token) : list Token :=
  match l with
  | white _ :: rest => dropWhite rest
  | _ => l
  end.

Fixpoint dropWhiteEnd (l : list Token) : list Token :=
  match l with
  | [] => []
  | t :: rest =>
      match dropWhiteEnd rest with
      | [] => if isWhite t then [] else [t]
      | kept => t :: kept
      end
  end.

(** [s.trim()]. *)
Definition trim (s : string) : string := text (dropWhiteEnd (dropWhite (tokens s))).

(** The white-space characters, each in UTF-8. *)
Definition bytes (codes : list nat) : string :=
  fold_right (fun n rest => String (ascii_of_nat n) rest) EmptyString codes.

Definition whiteSpaceCharacters : list string :=
  map bytes
      ([[9]; [10]; [11]; [12]; [13]; [32]; [194; 160]; [225; 154; 128]]
       ++ map (fun k => [226; 128; k]) (seq 128 11)
       ++ [[226; 128; 168]; [226; 128; 169]; [226; 128; 175]; [226; 129; 159];
           [227; 128; 128]; [239; 187; 191]])%list.

(** U+00A0, the no-break space. *)
Definition nbsp : string := bytes [194; 160].

(** [str.split(sep)[0]]: the part of [str] before the first occurrence
    of [sep] ([sep] not empty), or all of [str]. *)
Fixpoint before (sep s : string) : string :=
  match s with
  | EmptyString => EmptyString
  | String c r => if String.prefix sep s then EmptyString else String c (before sep r)
  end.

End JS.

(** ** Server data *)

(** Record ids are strings as HubSpot delivers them. *)
Module Contact.
Record t := mk
  { id : string;
    firstname : option string;
    lastname : option string;
    email : option string;
    company : option string }.
End Contact.

Module Deal.
Record t := mk
  { id : string;
    name : option string;
    amount : option string;
    stage : option string;
    next_step : option string;
    next_step_date : option string }.
End Deal.

Module Todo.
Record t := mk
  { task_name : option string;
    due_date : option string;
    next_step : option string }.
End Todo.

Module ParsedContact.
Record t := mk
  { person_name : option string;
    email : option string;
    company_name : option string }.
End ParsedContact.

Module ParsedDeal.
Record t := mk
  { deal_name : option string;
    suggested_stage : option string;
    suggested_next_step : option string;
    search_keywords : option string }.
End ParsedDeal.

Module NotionInvestor.
Record t := mk
  { found : bool;
    page_id : option string;
    name : option string }.
End NotionInvestor.

(** A value of the [preferences] object: [null], a string, or an array of
    strings. *)
Inductive PrefValue :=
| PNull
| PText (s : string)
| PList (l : list string).

(** The [preferences] object, as its entries in [Object.keys] order. *)
Definition Preferences := list (string * PrefValue).

Module Preview.
Record t := mk
  { raw_notes : option string;
    summary : list string;
    parsed_contact : option ParsedContact.t;
    parsed_deal : option ParsedDeal.t;
    hubspot_contacts : list Contact.t;
    hubspot_deals : list Deal.t;
    deal_status : option string;
    preferences : Preferences;
    notion_investor : option NotionInvestor.t;
    todos : list Todo.t }.
End Preview.

(** The three values of the [hubspot-action] radio group. *)
Inductive HubspotAction := log_only | log_with_deal | skip.

Definition HubspotAction_eqb (a b : HubspotAction) : bool :=
  match a, b with
  | log_only, log_only | log_with_deal, log_with_deal | skip, skip => true
  | _, _ => false
  end.

(** ** The confirm-and-execute request *)

Module FutureTask.
Record t := mk
  { create_task : bool;
    task_title : option string;
    due_days : option Z }.
End FutureTask.

Module DealUpdates.
Record t := mk
  { dealstage : option string;
    hs_next_step : option string;
    next_steps_date : option string }.
End DealUpdates.

Module HubspotPayload.
Record t := mk
  { action : HubspotAction;
    contact_id : option string;
    contact_name : string;
    deal_id : option string;
    deal_updates : DealUpdates.t;
    summary : list string;
    raw_notes : string;
    future_task : FutureTask.t }.
End HubspotPayload.

Module NotionPayload.
Record t := mk
  { update_investor_prefs : bool;
    create_todos : bool;
    company_name : string;
    preferences : Preferences;
    todos : list Todo.t }.
End NotionPayload.

Module Payload.
Record t := mk
  { hubspot : HubspotPayload.t;
    notion : NotionPayload.t;
    contact_name : string }.
End Payload.

(** ** Messages of the preview error banner

    [showPreviewError] is called with one of four fixed texts by the
    pre-flight validation of confirm-and-execute (each text starts with
    a warning or cross sign, left out here), or with a text from
    elsewhere. *)
Inductive PreviewMessage :=
| msg_select_at_least_one_action
| msg_select_contact_or_deal
| msg_select_deal
| msg_no_data
| msg_other (text : string).

Definition quote_mark : string := String (ascii_of_nat 34) EmptyString.

Definition message_text (m : PreviewMessage) : string :=
  match m with
  | msg_select_at_least_one_action =>
      "Please select at least one action to perform. You cannot skip all actions."
  | msg_select_contact_or_deal =>
      "Please select a HubSpot contact or deal, or choose " ++ quote_mark
        ++ "Skip HubSpot" ++ quote_mark ++ " option."
  | msg_select_deal =>
      "Please select a deal from the dropdown, or choose " ++ quote_mark
        ++ "Log call note only" ++ quote_mark ++ " instead."
  | msg_no_data => "No data to process. Please try again."
  | msg_other text => text
  end.

(** ** The state of the page *)

Module SubmissionPageActions.
Record t := mk
  { enable_hubspot_note : bool;
    enable_investor_prefs : bool;
    enable_todos : bool }.
End SubmissionPageActions.

(** One [.todo-checkbox] input with its [data-index] attribute. *)
Module TodoCheckbox.
Record t := mk { data_index : nat; checked : bool }.
End TodoCheckbox.

(** One [.todo-date-selector] select with its [data-index] attribute, the
    values of its options, and its current value. *)
Module DateSelector.
Record t := mk { data_index : nat; options : list string; value : string }.
End DateSelector.

Inductive StepId := step_hubspot | step_investor | step_todos.
Inductive StepStatus := pending | in_progress | completed | error.

(** How a handler ends: normally, or by an uncaught exception. *)
Inductive Completion := Normal | Thrown.

Record State := mkState
  { (* module-level variables *)
    processedData : option Preview.t;
    selectedContactId : option string;
    selectedContactName : option string;
    skipHubspot : bool;
    skipInvestorPrefs : bool;
    investorPageId : option string;
    selectedInvestorId : option string;
    selectedInvestorName : option string;
    selectedDealId : option string;
    selectedDealData : option Deal.t;
    hubspotAction : HubspotAction;
    submissionPageActions : SubmissionPageActions.t;
    (* form inputs; a master checkbox that is missing from the page is None
       (the script allows for that), the other inputs are there, the script
       attaching listeners to them when it is loaded *)
    hubspotActionRadio : option HubspotAction;
    enableHubspotNoteCheckbox : option bool;
    enableInvestorPrefsCheckbox : option bool;
    enableTodosCheckbox : option bool;
    updateInvestorPrefsCheckbox : bool;
    createTodosCheckbox : bool;
    createFutureTaskCheckbox : bool;
    taskTitleInput : string;
    taskDueDaysSelect : option Z;        (* parseInt of its value; NaN is None *)
    dealNameInput : string;
    dealStageInput : string;
    dealNextStepInput : string;
    dealNextStepDateInput : string;
    contactSelect : list (string * string);   (* options: value, text *)
    dealDropdown : list Deal.t;               (* options after the placeholder *)
    dealSearchDropdown : list Deal.t;         (* likewise *)
    todoCheckboxes : list TodoCheckbox.t;
    todoDateSelectors : list DateSelector.t;
    (* visibility: true when the element carries the class named *)
    hubspotActionsCard_hidden : bool;
    dealSelection_hidden : bool;
    dealDetails_hidden : bool;
    dealSearchResults_hidden : bool;
    singleContactDiv_hidden : bool;
    multipleContactsDiv_hidden : bool;
    noContactDiv_hidden : bool;
    investorFound_hidden : bool;
    multipleInvestorsDiv_hidden : bool;
    investorNotFound_hidden : bool;
    investorPreviewContainer_disabled : bool;
    investorSkipWarning_hidden : bool;
    todosPreviewContainer_disabled : bool;
    todosSkipWarning_hidden : bool;
    previewErrorMessage : option PreviewMessage;   (* None when hidden *)
    confirmBtn_disabled : bool;
    cancelBtn_disabled : bool;
    progressSteps : list (StepId * StepStatus) }.

(** The date API: [getDateDaysFromNow days] is the [YYYY-MM-DD] text that
    [new Date()], moved [days] days ahead, gives through [toISOString]. *)
Definition DateApi := nat -> string.

(** ** Small display helpers *)

Definition showPreviewError (m : PreviewMessage) (s : State) : State :=
  s <| previewErrorMessage := Some m |>.

Definition hidePreviewError (s : State) : State :=
  s <| previewErrorMessage := None |>.

Definition showResults (s : State) : State :=
  s <| confirmBtn_disabled := false |> <| cancelBtn_disabled := false |>.

(** [updateExecutionSummary] rebuilds the summary list from the state and
    changes nothing that is tracked here. *)
Definition updateExecutionSummary (s : State) : State := s.

Definition updateTaskTitle (s : State) : State :=
  match selectedContactName s with
  | Some name =>
      if String.eqb name "" then s
      else if String.eqb (taskTitleInput s) ""
           then s <| taskTitleInput := "Check in with " ++ name |>
           else s
  | None => s
  end.

Definition showHubSpotActionsCard (s : State) : State :=
  if negb (JS.truthy (selectedContactId s)) || negb (JS.truthy (selectedContactName s))
  then s <| hubspotActionsCard_hidden := true |>
  else
    let s := s <| hubspotActionsCard_hidden := false |>
               <| hubspotAction := log_only |>
               <| hubspotActionRadio := Some log_only |>
               <| dealSelection_hidden := true |>
               <| selectedDealId := None |> in
    let s := updateTaskTitle s in
    updateExecutionSummary (s <| skipHubspot := false |>).

(** ** Rendering a preview *)

Definition contactFullName (c : Contact.t) : string :=
  JS.trim (JS.or_str (Contact.firstname c) "" ++ " " ++ JS.or_str (Contact.lastname c) "").

Definition contactOption (c : Contact.t) : string * string :=
  (Contact.id c,
   JS.or_str (Contact.firstname c) "" ++ " " ++ JS.or_str (Contact.lastname c) ""
     ++ " - " ++ JS.or_str (Contact.email c) ""
     ++ " (" ++ JS.or_str (Contact.company c) "No company" ++ ")").

Definition contactSelectPlaceholder : string * string := ("", "Select a contact...").

Definition displayContactSection (preview : Preview.t) (s : State) : State :=
  let s := s <| singleContactDiv_hidden := true |>
             <| multipleContactsDiv_hidden := true |>
             <| noContactDiv_hidden := true |> in
  match Preview.hubspot_contacts preview with
  | [contact] =>
      let fullName := JS.or_str (Some (contactFullName contact)) "N/A" in
      let s := s <| selectedContactId := Some (Contact.id contact) |>
                 <| selectedContactName := Some fullName |>
                 <| singleContactDiv_hidden := false |> in
      showHubSpotActionsCard s
  | [] => s <| noContactDiv_hidden := false |>
  | contacts =>
      s <| contactSelect := contactSelectPlaceholder :: map contactOption contacts |>
        <| multipleContactsDiv_hidden := false |>
  end.

Definition showDealCreationMode (getDateDaysFromNow : DateApi)
    (deal_name suggested_stage suggested_next_step : option string) (s : State) : State :=
  let s := s <| dealNameInput := JS.or_str deal_name "" |>
             <| dealStageInput := JS.or_str suggested_stage "appointmentscheduled" |>
             <| dealNextStepInput := JS.or_str suggested_next_step "" |> in
  let s := if String.eqb (dealNextStepDateInput s) ""
           then s <| dealNextStepDateInput := getDateDaysFromNow 1 |>
           else s in
  s <| dealDetails_hidden := false |>.

Definition displayParsedDeals (getDateDaysFromNow : DateApi)
    (preview : Preview.t) (s : State) : State :=
  let deals := Preview.hubspot_deals preview in
  let dealStatus := Preview.deal_status preview in
  let s := s <| dealSearchResults_hidden := true |> <| dealSearchDropdown := [] |> in
  match dealStatus, deals with
  | Some status, _ =>
      if String.eqb status "found" && (0 <? length deals)%nat then
        s <| dealSearchDropdown := deals |> <| dealSearchResults_hidden := false |>
      else if String.eqb status "not_found" then
        let parsedDeal :=
          match Preview.parsed_deal preview with
          | Some d => d
          | None => ParsedDeal.mk None None None None
          end in
        let dealName :=
          JS.or_val (ParsedDeal.deal_name parsedDeal) (ParsedDeal.search_keywords parsedDeal) in
        if JS.truthy dealName then
          showDealCreationMode getDateDaysFromNow dealName
            (Some (JS.or_str (ParsedDeal.suggested_stage parsedDeal) "appointmentscheduled"))
            (Some (JS.or_str (ParsedDeal.suggested_next_step parsedDeal) ""))
            s
        else s
      else s
  | None, _ => s
  end.

(** The callback given to [Object.keys(preferences).some]: under the key
    'Preference Notes' it evaluates [value && value.trim().length > 0],
    which throws on an array (arrays have no [trim]); under any other key
    it evaluates [Array.isArray(value) && value.length > 0]. *)
Definition preferenceTest (key : string) (value : PrefValue) : option bool :=
  if String.eqb key "Preference Notes" then
    match value with
    | PNull => Some false
    | PText v => Some (negb (String.eqb v "") && (0 <? String.length (JS.trim v))%nat)
    | PList _ => None
    end
  else
    match value with
    | PList l => Some (0 <? length l)%nat
    | _ => Some false
    end.

(** [hasPreferences]; [None] when the callback throws before any key has
    tested true. *)
Fixpoint hasPreferences (preferences : Preferences) : option bool :=
  match preferences with
  | [] => Some false
  | (key, value) :: rest =>
      match preferenceTest key value with
      | None => None
      | Some true => Some true
      | Some false => hasPreferences rest
      end
  end.

Definition displayPreferences (preview : Preview.t) (s : State) : State * Completion :=
  match hasPreferences (Preview.preferences preview) with
  | None => (s, Thrown)
  | Some hasPrefs =>
      let s := s <| investorFound_hidden := true |>
                 <| multipleInvestorsDiv_hidden := true |>
                 <| investorNotFound_hidden := true |> in
      if negb hasPrefs then
        (s <| updateInvestorPrefsCheckbox := false |>
           <| investorPreviewContainer_disabled := true |>
           <| investorSkipWarning_hidden := false |>
           <| skipInvestorPrefs := true |>, Normal)
      else
        match Preview.notion_investor preview with
        | Some notionInvestor =>
            if NotionInvestor.found notionInvestor then
              (s <| investorPageId := NotionInvestor.page_id notionInvestor |>
                 <| investorFound_hidden := false |>, Normal)
            else (s <| investorNotFound_hidden := false |>, Normal)
        | None => (s <| investorNotFound_hidden := false |>, Normal)
        end
  end.

(** The four date options of a to-do row. *)
Definition todoDateOptions (getDateDaysFromNow : DateApi) : list string :=
  [getDateDaysFromNow 1; getDateDaysFromNow 7; getDateDaysFromNow 30; getDateDaysFromNow 90].

Definition displayTodos (getDateDaysFromNow : DateApi) (todos : list Todo.t) (s : State) : State :=
  let tomorrowStr := getDateDaysFromNow 1 in
  s <| todoCheckboxes := imap (fun index _ => TodoCheckbox.mk index true) todos |>
    <| todoDateSelectors :=
         imap (fun index _ =>
                 DateSelector.mk index (todoDateOptions getDateDaysFromNow) tomorrowStr)
              todos |>.

Definition displayPreview (getDateDaysFromNow : DateApi)
    (preview : Preview.t) (s : State) : State * Completion :=
  let s := s <| selectedContactId := None |>
             <| selectedContactName := None |>
             <| skipHubspot := false |>
             <| skipInvestorPrefs := false |>
             <| investorPageId := None |>
             <| selectedDealId := None |>
             <| hubspotAction := log_only |> in
  let s := s <| hubspotActionsCard_hidden := true |>
             <| dealSelection_hidden := true |>
             <| hubspotActionRadio := Some log_only |> in
  let actions := submissionPageActions s in
  let s := s <| updateInvestorPrefsCheckbox := SubmissionPageActions.enable_investor_prefs actions |>
             <| investorPreviewContainer_disabled :=
                  negb (SubmissionPageActions.enable_investor_prefs actions) |>
             <| investorSkipWarning_hidden := SubmissionPageActions.enable_investor_prefs actions |> in
  let s := s <| createTodosCheckbox := SubmissionPageActions.enable_todos actions |>
             <| todosPreviewContainer_disabled := negb (SubmissionPageActions.enable_todos actions) |>
             <| todosSkipWarning_hidden := SubmissionPageActions.enable_todos actions |> in
  let s := displayContactSection preview s in
  let s := displayParsedDeals getDateDaysFromNow preview s in
  match displayPreferences preview s with
  | (s, Thrown) => (s, Thrown)
  | (s, Normal) =>
      let s := displayTodos getDateDaysFromNow (Preview.todos preview) s in
      let s := updateExecutionSummary s in
      (showResults s, Normal)
  end.

(** [handleProcessNotes], with the answer of the parsing endpoint as an
    argument ([None]: the request failed or was refused).  Whatever goes
    wrong ends in [showError] and [showInput], which change nothing that
    is tracked here; an exception thrown while rendering leaves the
    assignments made before it in place. *)
Definition handleProcessNotes (getDateDaysFromNow : DateApi)
    (notes : string) (response : option Preview.t) (s : State) : State :=
  if String.eqb (JS.trim notes) "" then s
  else
    match enableHubspotNoteCheckbox s, enableInvestorPrefsCheckbox s, enableTodosCheckbox s with
    | Some enableHubspotNote, Some enableInvestorPrefs, Some enableTodos =>
        let s := s <| submissionPageActions :=
                        SubmissionPageActions.mk enableHubspotNote enableInvestorPrefs enableTodos |> in
        match response with
        | None => s
        | Some preview =>
            let s := s <| processedData := Some preview |> in
            fst (displayPreview getDateDaysFromNow preview s)
        end
    | _, _, _ => s
    end.

(** ** Contact handlers *)

(** A change event of the contact dropdown: the browser has selected the
    option at [selectedIndex]. *)
Definition handleContactSelection (selectedIndex : nat) (s : State) : State :=
  let selectedOption := contactSelect s !! selectedIndex in
  let value := match selectedOption with Some (v, _) => v | None => "" end in
  let s := s <| selectedContactId := Some value |> in
  let s :=
    match selectedOption with
    | Some (_, textContent) =>
        if String.eqb textContent "" then s
        else s <| selectedContactName := Some (JS.before " - " textContent) |>
    | None => s
    end in
  if JS.truthy (selectedContactId s) then showHubSpotActionsCard s else s.

Definition handleSkipHubspot (s : State) : State :=
  updateExecutionSummary (s <| skipHubspot := true |> <| selectedContactId := None |>).

Module SearchContactResponse.
Record t := mk { count : nat; contacts : list Contact.t }.
End SearchContactResponse.

(** [handleSearchAgain] with the text of the search box and the answer of
    the search endpoint ([None]: failure, reported in the status line). *)
Definition handleSearchAgain (query : string)
    (response : option SearchContactResponse.t) (s : State) : State :=
  if String.eqb (JS.trim query) "" then s
  else
    match response with
    | None => s
    | Some data =>
        match SearchContactResponse.count data with
        | 0 => s
        | 1 =>
            match SearchContactResponse.contacts data with
            | [] => s      (* contacts[0].id throws; caught, status line only *)
            | contact :: _ =>
                let s := s <| selectedContactId := Some (Contact.id contact) |>
                           <| selectedContactName := Some (contactFullName contact) |>
                           <| skipHubspot := false |> in
                let s := s <| singleContactDiv_hidden := true |>
                           <| multipleContactsDiv_hidden := true |>
                           <| noContactDiv_hidden := true |> in
                let s := s <| singleContactDiv_hidden := false |> in
                showHubSpotActionsCard (updateExecutionSummary s)
            end
        | _ =>
            s <| singleContactDiv_hidden := true |>
              <| multipleContactsDiv_hidden := true |>
              <| noContactDiv_hidden := true |>
              <| selectedContactId := None |>
              <| selectedContactName := None |>
              <| contactSelect :=
                   contactSelectPlaceholder
                     :: map contactOption (SearchContactResponse.contacts data) |>
              <| multipleContactsDiv_hidden := false |>
        end
    end.

(** ** HubSpot action and deal handlers *)

(** [fetchDealsForContact]: only the options of the deal dropdown are
    tracked; a failed request and an empty answer both leave none. *)
Definition fetchDealsForContact (response : option (list Deal.t)) (s : State) : State :=
  match response with
  | Some deals => s <| dealDropdown := deals |>
  | None => s <| dealDropdown := [] |>
  end.

(** A change event of the radio group: the browser has checked the radio
    with the given value.  [dealsResponse] is the answer to the request
    made in the 'log_with_deal' branch. *)
Definition handleHubSpotActionChange (value : HubspotAction)
    (dealsResponse : option (list Deal.t)) (s : State) : State :=
  let s := s <| hubspotActionRadio := Some value |> in
  let s := s <| hubspotAction := value |> in
  let s :=
    match value with
    | log_with_deal =>
        let s := s <| dealSelection_hidden := false |> <| dealDropdown := [] |> in
        let s := fetchDealsForContact dealsResponse s in
        s <| skipHubspot := false |>
    | skip =>
        s <| dealSelection_hidden := true |> <| selectedDealId := None |> <| skipHubspot := true |>
    | log_only =>
        s <| dealSelection_hidden := true |> <| selectedDealId := None |> <| skipHubspot := false |>
    end in
  updateExecutionSummary s.

Definition populateDealFields (dealData : Deal.t) (s : State) : State :=
  s <| dealNameInput := JS.or_str (Deal.name dealData) "" |>
    <| dealStageInput := JS.or_str (Deal.stage dealData) "" |>
    <| dealNextStepInput := JS.or_str (Deal.next_step dealData) "" |>
    <| dealNextStepDateInput := JS.or_str (Deal.next_step_date dealData) "" |>.

(** The option of a deal dropdown at [selectedIndex]: index 0 is the
    placeholder with the empty value and no deal data. *)
Definition dealOptionAt (options : list Deal.t) (selectedIndex : nat)
    : string * option Deal.t :=
  match selectedIndex with
  | 0 => ("", None)
  | S k =>
      match options !! k with
      | Some deal => (Deal.id deal, Some deal)
      | None => ("", None)
      end
  end.

(** The body shared by [handleDealSelection] and
    [handleDealSearchSelection]. *)
Definition selectDealOption (option_ : string * option Deal.t) (s : State) : State :=
  let '(value, dealData) := option_ in
  let s := s <| selectedDealId := Some value |> in
  let s :=
    if JS.truthy (selectedDealId s) then
      match dealData with
      | Some dealData =>
          (populateDealFields dealData (s <| selectedDealData := Some dealData |>))
            <| dealDetails_hidden := false |>
      | None => s
      end
    else s <| dealDetails_hidden := true |> <| selectedDealData := None |> in
  updateExecutionSummary s.

Definition handleDealSelection (selectedIndex : nat) (s : State) : State :=
  selectDealOption (dealOptionAt (dealDropdown s) selectedIndex) s.

Definition handleDealSearchSelection (selectedIndex : nat) (s : State) : State :=
  selectDealOption (dealOptionAt (dealSearchDropdown s) selectedIndex) s.

(** ** Investor handlers *)

(** A change event of the investor dropdown: [value] is the value of the
    option now selected (empty for the placeholder). *)
Definition handleInvestorSelection (value : string) (s : State) : State :=
  let s := s <| investorPageId := Some value |> in
  let s := s <| skipInvestorPrefs := if JS.truthy (investorPageId s) then false else true |> in
  updateExecutionSummary s.

Definition handleSkipInvestorPrefs (s : State) : State :=
  updateExecutionSummary (s <| skipInvestorPrefs := true |> <| investorPageId := None |>).

Definition handleCreateInvestor (s : State) : State :=
  let companyName :=
    match processedData s with
    | Some data =>
        match Preview.parsed_contact data with
        | Some parsed => ParsedContact.company_name parsed
        | None => None
        end
    | None => None
    end in
  if negb (JS.truthy companyName) then
    showPreviewError (msg_other "Cannot create investor: missing company name") s
  else
    updateExecutionSummary
      (s <| investorPageId := Some "CREATE_NEW" |>
         <| skipInvestorPrefs := false |>
         <| investorNotFound_hidden := true |>
         <| investorFound_hidden := false |>).

(** ** Check boxes *)

(** The change handlers of the three master check boxes only refresh the
    summary; the browser has set the box (if the page has it). *)
Definition handleEnableHubspotNoteChange (isChecked : bool) (s : State) : State :=
  updateExecutionSummary (s <| enableHubspotNoteCheckbox ::= fmap (fun _ => isChecked) |>).

Definition handleEnableInvestorPrefsChange (isChecked : bool) (s : State) : State :=
  updateExecutionSummary (s <| enableInvestorPrefsCheckbox ::= fmap (fun _ => isChecked) |>).

Definition handleEnableTodosChange (isChecked : bool) (s : State) : State :=
  updateExecutionSummary (s <| enableTodosCheckbox ::= fmap (fun _ => isChecked) |>).

Definition handleInvestorPrefsCheckboxChange (isChecked : bool) (s : State) : State :=
  let s := s <| updateInvestorPrefsCheckbox := isChecked |> in
  updateExecutionSummary
    (s <| investorPreviewContainer_disabled := negb isChecked |>
       <| investorSkipWarning_hidden := isChecked |>
       <| skipInvestorPrefs := negb isChecked |>).

Definition handleTodosCheckboxChange (isChecked : bool) (s : State) : State :=
  let s := s <| createTodosCheckbox := isChecked |> in
  updateExecutionSummary
    (s <| todosPreviewContainer_disabled := negb isChecked |>
       <| todosSkipWarning_hidden := isChecked |>).

Definition handleFutureTaskCheckboxChange (isChecked : bool) (s : State) : State :=
  updateExecutionSummary (s <| createFutureTaskCheckbox := isChecked |>).

(** The user flips the check box of the to-do row at [position] of the
    table; [handleTodoCheckboxChange] then restyles the row. *)
Definition handleTodoCheckboxChange (position : nat) (s : State) : State :=
  updateExecutionSummary
    (s <| todoCheckboxes ::=
          alter (fun cb => cb <| TodoCheckbox.checked ::= negb |>) position |>).

(** The user picks the option at [choice] in the date selector of the row
    at [position]; [handleTodoDateChange] only refreshes the summary. *)
Definition handleTodoDateChange (position choice : nat) (s : State) : State :=
  updateExecutionSummary
    (s <| todoDateSelectors ::=
          alter (fun sel =>
                   match DateSelector.options sel !! choice with
                   | Some v => sel <| DateSelector.value := v |>
                   | None => sel
                   end) position |>).

Definition handleSelectAllTodos (isChecked : bool) (s : State) : State :=
  updateExecutionSummary
    (s <| todoCheckboxes ::= map (fun cb => cb <| TodoCheckbox.checked := isChecked |>) |>).

(** ** Confirm and execute *)

(** [getSelectedTodos], where [data] is the preview held in
    [processedData] (the callers make sure it is there). *)
Definition getSelectedTodos (data : Preview.t) (s : State) : list Todo.t :=
  flat_map
    (fun checkbox =>
       if TodoCheckbox.checked checkbox then
         let index := TodoCheckbox.data_index checkbox in
         let dateSelector :=
           List.find (fun sel => Nat.eqb (DateSelector.data_index sel) index)
                     (todoDateSelectors s) in
         let selectedDate := option_map DateSelector.value dateSelector in
         match Preview.todos data !! index with
         | Some originalTodo =>
             [originalTodo <| Todo.due_date :=
                                JS.or_val selectedDate (Todo.due_date originalTodo) |>]
         | None => []
         end
       else [])
    (todoCheckboxes s).

Definition initializeProgressSteps (hubspotAction : HubspotAction)
    (updateInvestorPrefs createTodos : bool) (s : State) : State :=
  s <| progressSteps :=
         ((if HubspotAction_eqb hubspotAction skip then [] else [(step_hubspot, pending)])
          ++ (if updateInvestorPrefs then [(step_investor, pending)] else [])
          ++ (if createTodos then [(step_todos, pending)] else []))%list |>.

Definition StepId_eqb (a b : StepId) : bool :=
  match a, b with
  | step_hubspot, step_hubspot | step_investor, step_investor | step_todos, step_todos => true
  | _, _ => false
  end.

Definition updateProgressStep (stepId : StepId) (status : StepStatus) (s : State) : State :=
  s <| progressSteps ::=
         map (fun step => if StepId_eqb (fst step) stepId then (stepId, status) else step) |>.

(** The values read at the top of [handleConfirmAndExecute]. *)
Definition confirmHubspotAction (s : State) : HubspotAction :=
  let enableHubspotNote := default true (enableHubspotNoteCheckbox s) in
  let hubspotAction := default skip (hubspotActionRadio s) in
  if negb enableHubspotNote then skip else hubspotAction.

Definition shouldUpdateInvestorPrefs (s : State) : bool :=
  default true (enableInvestorPrefsCheckbox s) && updateInvestorPrefsCheckbox s.

Definition shouldCreateTodos (s : State) : bool :=
  default true (enableTodosCheckbox s) && createTodosCheckbox s.

Definition nonEmpty (v : string) : option string :=
  if String.eqb v "" then None else Some v.

(** The request body built once validation has passed. *)
Definition buildPayload (data : Preview.t) (s : State) : Payload.t :=
  let hubspotAction := confirmHubspotAction s in
  let todosToSend := if shouldCreateTodos s then getSelectedTodos data s else [] in
  let dealUpdates :=
    if JS.truthy (selectedDealId s) then
      DealUpdates.mk (nonEmpty (dealStageInput s)) (nonEmpty (dealNextStepInput s))
                     (nonEmpty (dealNextStepDateInput s))
    else DealUpdates.mk None None None in
  let futureTask :=
    if createFutureTaskCheckbox s then
      FutureTask.mk true
        (Some (JS.or_str (Some (taskTitleInput s))
                 ("Check in with " ++ default "null" (selectedContactName s))))
        (Some (match taskDueDaysSelect s with
               | Some n => if Z.eqb n 0 then 90%Z else n
               | None => 90%Z
               end))
    else FutureTask.mk false None None in
  Payload.mk
    (HubspotPayload.mk
       hubspotAction
       (JS.or_val (selectedContactId s) None)
       (JS.or_str (selectedContactName s) "")
       (JS.or_val (selectedDealId s) None)
       dealUpdates
       (Preview.summary data)
       (JS.or_str (Preview.raw_notes data) "")
       futureTask)
    (NotionPayload.mk
       (shouldUpdateInvestorPrefs s && negb (skipInvestorPrefs s))
       (shouldCreateTodos s)
       (JS.or_str
          (match Preview.parsed_contact data with
           | Some parsed => ParsedContact.company_name parsed
           | None => None
           end) "")
       (Preview.preferences data)
       todosToSend)
    (JS.or_str (selectedContactName s) "").

(** How the synchronous part of [handleConfirmAndExecute] ends: stopped by
    validation with a message, or with the request sent. *)
Inductive ConfirmResult :=
| Blocked (message : PreviewMessage)
| Dispatched (payload : Payload.t).

(** [handleConfirmAndExecute] up to the point where the request leaves. *)
Definition handleConfirmAndExecute (s : State) : State * ConfirmResult :=
  let hubspotAction := confirmHubspotAction s in
  if HubspotAction_eqb hubspotAction skip
     && negb (shouldUpdateInvestorPrefs s) && negb (shouldCreateTodos s)
  then (showPreviewError msg_select_at_least_one_action s,
        Blocked msg_select_at_least_one_action)
  else if negb (HubspotAction_eqb hubspotAction skip)
          && negb (JS.truthy (selectedContactId s))
          && negb (JS.truthy (selectedDealId s))
  then (showPreviewError msg_select_contact_or_deal s, Blocked msg_select_contact_or_deal)
  else if HubspotAction_eqb hubspotAction log_with_deal
          && negb (JS.truthy (selectedDealId s))
  then (showPreviewError msg_select_deal s, Blocked msg_select_deal)
  else
    match processedData s with
    | None => (showPreviewError msg_no_data s, Blocked msg_no_data)
    | Some data =>
        let s1 := s <| confirmBtn_disabled := true |> <| cancelBtn_disabled := true |> in
        let todosToSend := if shouldCreateTodos s then getSelectedTodos data s else [] in
        let investor := shouldUpdateInvestorPrefs s && negb (skipInvestorPrefs s) in
        let s1 := initializeProgressSteps hubspotAction investor
                    (shouldCreateTodos s && (0 <? length todosToSend)%nat) s1 in
        let payload := buildPayload data s in
        let s1 := if negb (HubspotAction_eqb hubspotAction skip)
                  then updateProgressStep step_hubspot in_progress s1 else s1 in
        let s1 := if investor then updateProgressStep step_investor in_progress s1 else s1 in
        let s1 := if shouldCreateTodos s
                  then updateProgressStep step_todos in_progress s1 else s1 in
        (s1, Dispatched payload)
    end.

(** ** Leaving the preview *)

Definition handleCancel (s : State) : State :=
  let s := s <| processedData := None |>
             <| selectedContactId := None |>
             <| selectedContactName := None |>
             <| skipHubspot := false |>
             <| skipInvestorPrefs := false |>
             <| investorPageId := None |> in
  hidePreviewError s.

Definition handleNewNotes (s : State) : State :=
  let s := s <| processedData := None |>
             <| selectedContactId := None |>
             <| selectedContactName := None |>
             <| selectedDealId := None |>
             <| selectedInvestorId := None |>
             <| selectedInvestorName := None |>
             <| investorPageId := None |>
             <| skipHubspot := false |>
             <| skipInvestorPrefs := false |> in
  let s := s <| updateInvestorPrefsCheckbox := true |> <| createTodosCheckbox := true |> in
  let s := s <| confirmBtn_disabled := false |> <| cancelBtn_disabled := false |> in
  let s := hidePreviewError s in
  s <| progressSteps := [] |>.

(** The values of the module-level variables when the script is loaded. *)
Definition initialSelection (s : State) : Prop :=
  processedData s = None /\ selectedContactId s = None /\ selectedContactName s = None
  /\ skipHubspot s = false /\ skipInvestorPrefs s = false /\ investorPageId s = None
  /\ selectedInvestorId s = None /\ selectedInvestorName s = None
  /\ selectedDealId s = None /\ selectedDealData s = None /\ hubspotAction s = log_only.

(** ** The selection model of the design, read off the state

    The script has no mode fields.  Wherever it asks whether a contact is
    selected it tests [selectedContactId] for truthiness, and a recorded
    skip is the flag [skipHubspot]; likewise for the investor record,
    where [investorPageId] holds a page id or the marker 'CREATE_NEW'. *)
Inductive ContactMode := contact_none | contact_selected | contact_skip.

Definition contactMode (s : State) : ContactMode :=
  if skipHubspot s then contact_skip
  else if JS.truthy (selectedContactId s) then contact_selected
  else contact_none.

Inductive InvestorMode :=
| investor_matched | investor_create_new | investor_skip | investor_unresolved.

Definition investorMode (s : State) : InvestorMode :=
  if skipInvestorPrefs s then investor_skip
  else match investorPageId s with
       | Some pageId =>
           if String.eqb pageId "CREATE_NEW" then investor_create_new
           else if String.eqb pageId "" then investor_unresolved
           else investor_matched
       | None => investor_unresolved
       end.

(** Meaningful preferences in the words of the design: some multi-value
    field is not empty, or the free-text notes field is not empty after
    trimming. *)
Definition spec_meaningful (preferences : Preferences) : bool :=
  existsb
    (fun entry =>
       match entry with
       | (_, PList l) => (0 <? length l)%nat
       | (key, PText v) =>
           String.eqb key "Preference Notes" && (0 <? String.length (JS.trim v))%nat
       | (_, PNull) => false
       end)
    preferences.

(** The notes field, when present, is text or null (not an array). *)
Definition notes_is_text (preferences : Preferences) : bool :=
  forallb
    (fun entry =>
       match entry with
       | (key, PList _) => negb (String.eqb key "Preference Notes")
       | _ => true
       end)
    preferences.

(** ** Recent contacts of the call-preparation tab *)
Module Recent.

(** The [contact] object of a call brief, as the server sends it. *)
Module BriefContact.
Record t := mk
  { id : option string;
    name : option string;
    email : option string;
    company : option string }.
End BriefContact.

(** An entry of [prepRecentContactsList]. *)
Module Entry.
Record t := mk
  { id : option string;
    name : option string;
    email : option string;
    company : option string }.
End Entry.

(** [a === b] on nullable strings.  Taking [null] and [undefined] for one
    value is harmless here: an entry saved by [searchContactForPrep] has
    no id only when the brief has no email, its email is then the empty
    string, and two such entries already agree on the email. *)
Definition strictEq (a b : option string) : bool :=
  match a, b with
  | Some x, Some y => String.eqb x y
  | None, None => true
  | _, _ => false
  end.

(** [self.findIndex(p)], with -1 as [None]. *)
Fixpoint findIndex {A} (p : A -> bool) (self : list A) : option nat :=
  match self with
  | [] => None
  | t :: rest => if p t then Some 0 else option_map S (findIndex p rest)
  end.

(** [list.filter((item, index) => p item index)], the first element
    having index [from]. *)
Fixpoint filterFrom {A} (p : A -> nat -> bool) (from : nat) (l : list A) : list A :=
  match l with
  | [] => []
  | item :: rest =>
      if p item from then item :: filterFrom p (S from) rest
      else filterFrom p (S from) rest
  end.

Definition sameContact (item t : Entry.t) : bool :=
  strictEq (Entry.email t) (Entry.email item) || strictEq (Entry.id t) (Entry.id item).

(** The test given to [filter]: [index === self.findIndex(...)]. *)
Definition isFirstOfItsKind (self : list Entry.t) (item : Entry.t) (index : nat) : bool :=
  match findIndex (sameContact item) self with
  | Some first => Nat.eqb index first
  | None => false
  end.

Definition removeDuplicates (self : list Entry.t) : list Entry.t :=
  filterFrom (isFirstOfItsKind self) 0 self.

(** [savePrepRecentContact]: the new list (which is also what is written
    to local storage). *)
Definition savePrepRecentContact (contact : Entry.t) (prepRecentContactsList : list Entry.t)
    : list Entry.t :=
  take 6 (removeDuplicates (contact :: prepRecentContactsList)).

(** The entry that [searchContactForPrep] saves for the contact of a
    brief; [query] is the trimmed, non-empty search text. *)
Definition entryOfBrief (query : string) (contact : BriefContact.t) : Entry.t :=
  Entry.mk
    (JS.or_val (BriefContact.id contact) (BriefContact.email contact))
    (Some (JS.or_str (BriefContact.name contact) query))
    (Some (JS.or_str (BriefContact.email contact) ""))
    (Some (JS.or_str (BriefContact.company contact) "")).

(** The cache after a run of successful call preparations, each given
    by its query and the contact of its brief, oldest first. *)
Definition afterSearches (searches : list (string * BriefContact.t))
    (prepRecentContactsList : list Entry.t) : list Entry.t :=
  fold_left (fun cache search => savePrepRecentContact (entryOfBrief (fst search) (snd search)) cache)
            searches prepRecentContactsList.

(** An entry with an email, be it the empty one. *)
Definition hasEmail (e : Entry.t) : Prop := Entry.email e <> None.

(** The deduplication key of the design: the email, or the id when
    there is no email. *)
Definition spec_key (e : Entry.t) : option string :=
  JS.nullish_or (Entry.email e) (Entry.id e).

End Recent.

(** ** What the user can do to the to-do table *)
Inductive TodoEvent :=
| ToggleTodo (position : nat)
| ChooseDate (position choice : nat)
| SelectAll (isChecked : bool).

Definition todoStep (event : TodoEvent) (s : State) : State :=
  match event with
  | ToggleTodo position => handleTodoCheckboxChange position s
  | ChooseDate position choice => handleTodoDateChange position choice s
  | SelectAll isChecked => handleSelectAllTodos isChecked s
  end.

Definition todoRun (events : list TodoEvent) (s : State) : State :=
  fold_left (fun s event => todoStep event s) events s.

(** The to-do that the row at [index] of the table contributes to the
    request, in the words of the design: nothing when its box is
    unchecked, else the parsed to-do with the date of its selector. *)
Definition spec_rowTodo (todos : list Todo.t) (checkboxes : list TodoCheckbox.t)
    (selectors : list DateSelector.t) (index : nat) : list Todo.t :=
  match todos !! index, checkboxes !! index, selectors !! index with
  | Some todo, Some checkbox, Some selector =>
      if TodoCheckbox.checked checkbox
      then [todo <| Todo.due_date := Some (DateSelector.value selector) |>]
      else []
  | _, _, _ => []
  end.

(** The to-do table as [displayTodos] builds it for [n] to-dos and as the
    user can change it: one check box and one selector per row, numbered
    from 0, every selector offering the four dates and holding one of
    them. *)
Definition todoTable (getDateDaysFromNow : DateApi) (n : nat) (s : State) : Prop :=
  map TodoCheckbox.data_index (todoCheckboxes s) = seq 0 n
  /\ map DateSelector.data_index (todoDateSelectors s) = seq 0 n
  /\ Forall (fun sel =>
               DateSelector.options sel = todoDateOptions getDateDaysFromNow
               /\ In (DateSelector.value sel) (todoDateOptions getDateDaysFromNow))
            (todoDateSelectors s).

(** A check box whose index points into the to-dos of the preview. *)
Definition inRange (data : Preview.t) (checkbox : TodoCheckbox.t) : bool :=
  (TodoCheckbox.data_index checkbox <? length (Preview.todos data))%nat.

(** The part of the state that says which contact is chosen. *)
Definition contactView (s : State) :=
  (selectedContactId s, selectedContactName s, skipHubspot s,
   hubspotActionsCard_hidden s, singleContactDiv_hidden s).

(** The part of the state that says what happens to investor
    preferences. *)
Definition investorView (s : State) :=
  (skipInvestorPrefs s, investorPageId s, updateInvestorPrefsCheckbox s,
   investorFound_hidden s, multipleInvestorsDiv_hidden s, investorNotFound_hidden s).

Ltac case_branches :=
  repeat match goal with
         | |- context [if ?b then _ else _] => destruct b
         | |- context [match ?x with _ => _ end] => destruct x
         end.

(** ** A session used in the examples

    The page as loaded (variables at their initial values, nothing of the
    preview shown, all three master boxes present and checked), a date
    API, and a preview with two contact matches and two to-dos.  The
    markup of the page is not among the sources; what the examples use of
    the loaded page is only that the master boxes are there. *)
Module Session.

Definition pageLoaded : State :=
  {| processedData := None;
     selectedContactId := None;
     selectedContactName := None;
     skipHubspot := false;
     skipInvestorPrefs := false;
     investorPageId := None;
     selectedInvestorId := None;
     selectedInvestorName := None;
     selectedDealId := None;
     selectedDealData := None;
     hubspotAction := log_only;
     submissionPageActions := SubmissionPageActions.mk true true true;
     hubspotActionRadio := Some log_only;
     enableHubspotNoteCheckbox := Some true;
     enableInvestorPrefsCheckbox := Some true;
     enableTodosCheckbox := Some true;
     updateInvestorPrefsCheckbox := true;
     createTodosCheckbox := true;
     createFutureTaskCheckbox := false;
     taskTitleInput := "";
     taskDueDaysSelect := Some 90%Z;
     dealNameInput := "";
     dealStageInput := "";
     dealNextStepInput := "";
     dealNextStepDateInput := "";
     contactSelect := [];
     dealDropdown := [];
     dealSearchDropdown := [];
     todoCheckboxes := [];
     todoDateSelectors := [];
     hubspotActionsCard_hidden := true;
     dealSelection_hidden := true;
     dealDetails_hidden := true;
     dealSearchResults_hidden := true;
     singleContactDiv_hidden := true;
     multipleContactsDiv_hidden := true;
     noContactDiv_hidden := true;
     investorFound_hidden := true;
     multipleInvestorsDiv_hidden := true;
     investorNotFound_hidden := true;
     investorPreviewContainer_disabled := false;
     investorSkipWarning_hidden := true;
     todosPreviewContainer_disabled := false;
     todosSkipWarning_hidden := true;
     previewErrorMessage := None;
     confirmBtn_disabled := false;
     cancelBtn_disabled := false;
     progressSteps := [] |}.

Definition dates : DateApi :=
  fun days =>
    "2025-" ++ match days with
               | 1 => "03-02"
               | 7 => "03-08"
               | 30 => "03-31"
               | 90 => "05-30"
               | _ => "03-01"
               end.

Definition ann : Contact.t :=
  Contact.mk "101" (Some "Ann") (Some "Lee") (Some "ann@acme.com") (Some "Acme").

Definition bob : Contact.t :=
  Contact.mk "102" (Some "Bob") (Some "Ray") (Some "bob@acme.com") (Some "Acme").

Definition seriesA : Deal.t :=
  Deal.mk "d1" (Some "Series A") (Some "1000000") (Some "qualifiedtobuy")
          (Some "Send deck") (Some "2025-03-10").

Definition sendDeck : Todo.t := Todo.mk (Some "Send deck") (Some "2025-04-01") (Some "Email").
Definition bookCall : Todo.t := Todo.mk (Some "Book call") None (Some "Calendar").

Definition preview : Preview.t :=
  {| Preview.raw_notes := Some "Call with Ann and Bob";
     Preview.summary := ["Discussed Series A"];
     Preview.parsed_contact := Some (ParsedContact.mk (Some "Ann Lee") None (Some "Acme"));
     Preview.parsed_deal := None;
     Preview.hubspot_contacts := [ann; bob];
     Preview.hubspot_deals := [];
     Preview.deal_status := Some "none";
     Preview.preferences := [("Sectors", PList ["Software"]); ("Preference Notes", PText "")];
     Preview.notion_investor := None;
     Preview.todos := [sendDeck; bookCall] |}.

(** The notes are processed and the first match is picked in the contact
    dropdown (index 0 is the placeholder). *)
Definition contactPicked : State :=
  handleContactSelection 1
    (handleProcessNotes dates "Call with Ann and Bob" (Some preview) pageLoaded).

(** Then 'log with deal' is chosen and the deal offered for the contact
    is picked. *)
Definition dealPicked : State :=
  handleDealSelection 1
    (handleHubSpotActionChange log_with_deal (Some [seriesA]) contactPicked).

(** Then the contact dropdown is set back to its placeholder. *)
Definition contactUnpicked : State := handleContactSelection 0 dealPicked.

(** The same preview with a single contact match. *)
Definition previewSingle : Preview.t :=
  {| Preview.raw_notes := Preview.raw_notes preview;
     Preview.summary := Preview.summary preview;
     Preview.parsed_contact := Preview.parsed_contact preview;
     Preview.parsed_deal := Preview.parsed_deal preview;
     Preview.hubspot_contacts := [ann];
     Preview.hubspot_deals := Preview.hubspot_deals preview;
     Preview.deal_status := Preview.deal_status preview;
     Preview.preferences := Preview.preferences preview;
     Preview.notion_investor := Preview.notion_investor preview;
     Preview.todos := Preview.todos preview |}.



End Session.

(** * The rest of the notes-processing handlers *)

(** The answer to a request whose failure message is shown to the user:
    the message of the error caught, if it has one, or the data of a
    successful answer. *)
Inductive Answer (A : Type) :=
| Failed (message : option string)
| Answered (data : A).
Arguments Failed {A} message.
Arguments Answered {A} data.

(** ** Creating a contact *)

Module ExistingContact.
Record t := mk
  { firstname : option string;
    lastname : option string;
    email : option string;
    company : option string }.
End ExistingContact.

Module CreateContactResponse.
Record t := mk
  { contact_id : option string;
    already_exists : bool;
    contact : option ExistingContact.t }.
End CreateContactResponse.

(** [handleCreateContact], given the texts of the four inputs of the
    new-contact form and the answer of the create endpoint. *)
Definition handleCreateContact (newEmail newFirstname newLastname newCompany : string)
    (response : Answer CreateContactResponse.t) (s : State) : State :=
  let email := JS.trim newEmail in
  let firstname := JS.trim newFirstname in
  let lastname := JS.trim newLastname in
  if String.eqb email "" || String.eqb firstname "" || String.eqb lastname "" then
    showPreviewError
      (msg_other "Please fill in all required fields (email, first name, last name).") s
  else
    match response with
    | Failed message =>
        showPreviewError (msg_other (JS.or_str message "Failed to create contact")) s
    | Answered data =>
        let s := s <| selectedContactId := CreateContactResponse.contact_id data |>
                   <| skipHubspot := false |> in
        if CreateContactResponse.already_exists data then
          let existingContact :=
            default (ExistingContact.mk None None None None)
                    (CreateContactResponse.contact data) in
          let s := s <| selectedContactName :=
                          Some (JS.or_str (ExistingContact.firstname existingContact) firstname
                                ++ " "
                                ++ JS.or_str (ExistingContact.lastname existingContact) lastname) |> in
          let s := s <| noContactDiv_hidden := true |> <| singleContactDiv_hidden := false |> in
          showHubSpotActionsCard (updateExecutionSummary (hidePreviewError s))
        else
          let s := s <| selectedContactName := Some (firstname ++ " " ++ lastname) |> in
          showHubSpotActionsCard (updateExecutionSummary (hidePreviewError s))
    end.

(** A click on one of the contact option cards; [option] is the
    [data-option] of the card. *)
Definition handleContactOptionClick (option : string) (s : State) : State :=
  let s := s <| singleContactDiv_hidden := true |> <| multipleContactsDiv_hidden := true |> in
  if String.eqb option "skip" then handleSkipHubspot s else s.

Definition showSearchAgainFromMultiple (s : State) : State :=
  s <| multipleContactsDiv_hidden := true |> <| noContactDiv_hidden := false |>.

(** ** Searching and creating deals *)

Definition handleSearchDeals (searchInput : string)
    (getDateDaysFromNow : DateApi) (response : option (list Deal.t)) (s : State) : State :=
  let query := JS.trim searchInput in
  if String.eqb query "" then s
  else
    match response with
    | None => s
    | Some [] =>
        let dealInfo :=
          match processedData s with
          | Some data => default (ParsedDeal.mk None None None None) (Preview.parsed_deal data)
          | None => ParsedDeal.mk None None None None
          end in
        showDealCreationMode getDateDaysFromNow (Some query)
          (ParsedDeal.suggested_stage dealInfo) (ParsedDeal.suggested_next_step dealInfo)
          (s <| dealSearchResults_hidden := true |>)
    | Some deals =>
        s <| dealSearchDropdown := deals |> <| dealSearchResults_hidden := false |>
    end.

(** [handleCreateDeal] with the answer of the create endpoint: the id of
    the new deal, or [None] when the request failed. *)
Definition handleCreateDeal (response : option string) (s : State) : State :=
  let dealName := JS.trim (dealNameInput s) in
  let stage := dealStageInput s in
  let nextStep := JS.trim (dealNextStepInput s) in
  let nextStepDate := dealNextStepDateInput s in
  if String.eqb dealName "" then s
  else if String.eqb stage "" then s
  else if String.eqb nextStep "" then s
  else
    match response with
    | None => s
    | Some deal_id =>
        updateExecutionSummary
          (s <| selectedDealId := Some deal_id |>
             <| selectedDealData :=
                  Some (Deal.mk deal_id (Some dealName) None (Some stage)
                                (Some nextStep) (Some nextStepDate)) |>)
    end.

(** ** Searching investors *)

Module InvestorHit.
Record t := mk { id : string; investor_name : option string }.
End InvestorHit.

Module SearchInvestorResponse.
Record t := mk { count : nat; investors : list InvestorHit.t }.
End SearchInvestorResponse.

Definition handleSearchInvestor (searchInput : string)
    (response : option SearchInvestorResponse.t) (s : State) : State :=
  if String.eqb (JS.trim searchInput) "" then s
  else
    match response with
    | None => s
    | Some data =>
        match SearchInvestorResponse.count data with
        | 0 => s
        | 1 =>
            match SearchInvestorResponse.investors data with
            | [] => s      (* investors[0].id throws; caught, status line only *)
            | investor :: _ =>
                let s := s <| investorPageId := Some (InvestorHit.id investor) |>
                           <| skipInvestorPrefs := false |> in
                let s := s <| investorNotFound_hidden := true |>
                           <| multipleInvestorsDiv_hidden := true |>
                           <| investorFound_hidden := true |> in
                updateExecutionSummary (s <| investorFound_hidden := false |>)
            end
        | _ =>
            s <| investorNotFound_hidden := true |>
              <| multipleInvestorsDiv_hidden := true |>
              <| investorFound_hidden := true |>
              <| investorPageId := None |>
              <| multipleInvestorsDiv_hidden := false |>
        end
    end.

(** A click on one of the investor option cards. *)
Definition handleInvestorOptionClick (option : string) (s : State) : State :=
  let s := s <| investorFound_hidden := true |> <| multipleInvestorsDiv_hidden := true |> in
  if String.eqb option "skip-investor" then handleSkipInvestorPrefs s else s.

Definition showSearchInvestorAgainFromMultiple (s : State) : State :=
  s <| multipleInvestorsDiv_hidden := true |> <| investorNotFound_hidden := false |>.

Definition showSearchDifferentInvestor (s : State) : State :=
  s <| investorFound_hidden := true |> <| investorNotFound_hidden := false |>.

(** ** The answer to confirm-and-execute *)

Module HubspotResult.
Record t := mk
  { note_id : option string;
    error : option string;
    action_taken : option string;
    deal_id : option string;
    contact_name : option string }.
End HubspotResult.

Module NotionResult.
Record t := mk
  { investor_updated : bool;
    investor_action : option string;
    investor_error : option string;
    todos_created : nat;
    todos_errors : list string }.
End NotionResult.

Module ExecuteResults.
Record t := mk
  { hubspot : option HubspotResult.t;
    notion : option NotionResult.t }.
End ExecuteResults.

(** The rest of [handleConfirmAndExecute], from the answer on.  It uses
    the values read at the top of the function; nothing that those depend
    on changes while the request is under way (the preview is hidden), so
    they are read off the state again. *)
Definition handleConfirmResponse (response : Answer ExecuteResults.t) (s : State) : State :=
  match response with
  | Failed message =>
      (showPreviewError (msg_other (JS.or_str message "Failed to execute updates")) s)
        <| confirmBtn_disabled := false |> <| cancelBtn_disabled := false |>
  | Answered results =>
      let hubspot :=
        default (HubspotResult.mk None None None None None) (ExecuteResults.hubspot results) in
      let notion :=
        default (NotionResult.mk false None None 0 []) (ExecuteResults.notion results) in
      let s :=
        if negb (HubspotAction_eqb (confirmHubspotAction s) skip) then
          updateProgressStep step_hubspot
            (if JS.truthy (HubspotResult.note_id hubspot) then completed
             else if JS.truthy (HubspotResult.error hubspot) then error else completed) s
        else s in
      let s :=
        if shouldUpdateInvestorPrefs s && negb (skipInvestorPrefs s) then
          updateProgressStep step_investor
            (if NotionResult.investor_updated notion then completed
             else if JS.truthy (NotionResult.investor_error notion) then error
                  else completed) s
        else s in
      if shouldCreateTodos s then
        updateProgressStep step_todos
          (if (0 <? NotionResult.todos_created notion)%nat
              || (0 <? length (NotionResult.todos_errors notion))%nat
           then completed else error) s
      else s
  end.

(** ** The execution summary *)

Inductive SummaryClass := success | warning.

(** The entries that [updateExecutionSummary] can put in the summary
    list, one constructor for each text. *)
Inductive SummaryItem :=
| summary_hubspot_skipped
| summary_log_with_deal (contactName dealText : string)
| summary_log_deal_pending (contactName : string)
| summary_log_only (contactName : string)
| summary_contact_not_selected
| summary_investor_named (investorName : string)
| summary_investor_generic
| summary_investor_not_updated
| summary_todos (selectedCount : nat)
| summary_todos_none_selected
| summary_todos_not_created.

Definition summaryClass (item : SummaryItem) : SummaryClass :=
  match item with
  | summary_log_with_deal _ _ | summary_log_deal_pending _ | summary_log_only _
  | summary_investor_named _ | summary_investor_generic | summary_todos _ => success
  | _ => warning
  end.

(** The list that [updateExecutionSummary] builds.  [selectedDeal] is the
    option of the deal dropdown selected at the time, as value and text. *)
Definition executionSummary (selectedDeal : option (string * string)) (s : State)
    : list SummaryItem :=
  let hubspotPart :=
    if match hubspotActionRadio s with Some skip => true | _ => false end || skipHubspot s
    then [summary_hubspot_skipped]
    else if JS.truthy (selectedContactName s) && JS.truthy (selectedContactId s) then
      let contactName := default "" (selectedContactName s) in
      match hubspotActionRadio s with
      | Some log_with_deal =>
          match selectedDeal with
          | Some (value, text) =>
              if String.eqb value "" then [summary_log_deal_pending contactName]
              else [summary_log_with_deal contactName text]
          | None => [summary_log_deal_pending contactName]
          end
      | _ => [summary_log_only contactName]
      end
    else if negb (skipHubspot s) then [summary_contact_not_selected]
    else [] in
  let investorPart :=
    if updateInvestorPrefsCheckbox s && negb (skipInvestorPrefs s) then
      if JS.truthy (selectedInvestorId s) && JS.truthy (selectedInvestorName s)
      then [summary_investor_named (default "" (selectedInvestorName s))]
      else
        match processedData s with
        | Some data =>
            if (0 <? length (Preview.preferences data))%nat
            then [summary_investor_generic] else []
        | None => []
        end
    else [summary_investor_not_updated] in
  let todosPart :=
    match processedData s with
    | Some data =>
        if createTodosCheckbox s && (0 <? length (Preview.todos data))%nat then
          let selectedCount := length (getSelectedTodos data s) in
          if (0 <? selectedCount)%nat then [summary_todos selectedCount]
          else [summary_todos_none_selected]
        else [summary_todos_not_created]
    | None => [summary_todos_not_created]
    end in
  (hubspotPart ++ investorPart ++ todosPart)%list.

(** The number that [updateSelectedTodosCount] shows beside the to-do
    heading. *)
Definition selectedTodosCount (s : State) : nat :=
  length (List.filter TodoCheckbox.checked (todoCheckboxes s)).

(** ** Everything that can happen on the notes-processing tab

    One constructor for each handler of the tab, with what the user or
    the server supplies, and one for each text box the user can type
    into.  (The handlers left out, [showContactOptions] and
    [showInvestorOptions], touch nothing that is tracked.) *)
Inductive Event :=
| ProcessNotes (notes : string) (response : option Preview.t)
| ContactSelection (selectedIndex : nat)
| ContactOptionClick (option : string)
| SkipHubspotClick
| SearchAgain (query : string) (response : option SearchContactResponse.t)
| SearchAgainFromMultiple
| CreateContact (newEmail newFirstname newLastname newCompany : string)
                (response : Answer CreateContactResponse.t)
| HubSpotActionChange (value : HubspotAction) (dealsResponse : option (list Deal.t))
| DealSelection (selectedIndex : nat)
| DealSearchSelection (selectedIndex : nat)
| SearchDeals (searchInput : string) (response : option (list Deal.t))
| CreateDeal (response : option string)
| InvestorOptionClick (option : string)
| InvestorSelection (value : string)
| SearchInvestor (searchInput : string) (response : option SearchInvestorResponse.t)
| SkipInvestorClick
| SearchInvestorAgainFromMultiple
| SearchDifferentInvestor
| CreateInvestor
| InvestorPrefsCheckboxChange (isChecked : bool)
| TodosCheckboxChange (isChecked : bool)
| FutureTaskCheckboxChange (isChecked : bool)
| EnableHubspotNoteChange (isChecked : bool)
| EnableInvestorPrefsChange (isChecked : bool)
| EnableTodosChange (isChecked : bool)
| TodoTableEvent (event : TodoEvent)
| TypeDealName (text : string)
| TypeDealStage (text : string)
| TypeDealNextStep (text : string)
| TypeDealNextStepDate (text : string)
| TypeTaskTitle (text : string)
| PickTaskDueDays (days : option Z)
| ConfirmAndExecute
| ConfirmResponse (response : Answer ExecuteResults.t)
| Cancel
| NewNotes.

Definition step (getDateDaysFromNow : DateApi) (event : Event) (s : State) : State :=
  match event with
  | ProcessNotes notes response => handleProcessNotes getDateDaysFromNow notes response s
  | ContactSelection selectedIndex => handleContactSelection selectedIndex s
  | ContactOptionClick option => handleContactOptionClick option s
  | SkipHubspotClick => handleSkipHubspot s
  | SearchAgain query response => handleSearchAgain query response s
  | SearchAgainFromMultiple => showSearchAgainFromMultiple s
  | CreateContact newEmail newFirstname newLastname newCompany response =>
      handleCreateContact newEmail newFirstname newLastname newCompany response s
  | HubSpotActionChange value dealsResponse => handleHubSpotActionChange value dealsResponse s
  | DealSelection selectedIndex => handleDealSelection selectedIndex s
  | DealSearchSelection selectedIndex => handleDealSearchSelection selectedIndex s
  | SearchDeals searchInput response =>
      handleSearchDeals searchInput getDateDaysFromNow response s
  | CreateDeal response => handleCreateDeal response s
  | InvestorOptionClick option => handleInvestorOptionClick option s
  | InvestorSelection value => handleInvestorSelection value s
  | SearchInvestor searchInput response => handleSearchInvestor searchInput response s
  | SkipInvestorClick => handleSkipInvestorPrefs s
  | SearchInvestorAgainFromMultiple => showSearchInvestorAgainFromMultiple s
  | SearchDifferentInvestor => showSearchDifferentInvestor s
  | CreateInvestor => handleCreateInvestor s
  | InvestorPrefsCheckboxChange isChecked => handleInvestorPrefsCheckboxChange isChecked s
  | TodosCheckboxChange isChecked => handleTodosCheckboxChange isChecked s
  | FutureTaskCheckboxChange isChecked => handleFutureTaskCheckboxChange isChecked s
  | EnableHubspotNoteChange isChecked => handleEnableHubspotNoteChange isChecked s
  | EnableInvestorPrefsChange isChecked => handleEnableInvestorPrefsChange isChecked s
  | EnableTodosChange isChecked => handleEnableTodosChange isChecked s
  | TodoTableEvent event => todoStep event s
  | TypeDealName text => s <| dealNameInput := text |>
  | TypeDealStage text => s <| dealStageInput := text |>
  | TypeDealNextStep text => s <| dealNextStepInput := text |>
  | TypeDealNextStepDate text => s <| dealNextStepDateInput := text |>
  | TypeTaskTitle text => s <| taskTitleInput := text |>
  | PickTaskDueDays days => s <| taskDueDaysSelect := days |>
  | ConfirmAndExecute => fst (handleConfirmAndExecute s)
  | ConfirmResponse response => handleConfirmResponse response s
  | Cancel => handleCancel s
  | NewNotes => handleNewNotes s
  end.

Definition run (getDateDaysFromNow : DateApi) (events : list Event) (s : State) : State :=
  fold_left (fun s event => step getDateDaysFromNow event s) events s.

(** The checked radio and the variable [hubspotAction] agree, and the
    deal selection is open exactly under 'log_with_deal'. *)
Definition actionInSync (s : State) : Prop :=
  hubspotActionRadio s = Some (hubspotAction s)
  /\ dealSelection_hidden s = negb (HubspotAction_eqb (hubspotAction s) log_with_deal).

(** The to-do table on the page is the one of the preview held. *)
Definition todosMatchPreview (getDateDaysFromNow : DateApi) (s : State) : Prop :=
  forall data, processedData s = Some data ->
               todoTable getDateDaysFromNow (length (Preview.todos data)) s.

(** An event whose preview, if it brings one, can be rendered to the end
    (its notes field is not an array). *)
Definition renderable (event : Event) : Prop :=
  match event with
  | ProcessNotes _ (Some preview) => notes_is_text (Preview.preferences preview) = true
  | _ => True
  end.

(** The three places where the chosen HubSpot action shows. *)
Definition actionView (s : State) :=
  (hubspotActionRadio s, hubspotAction s, dealSelection_hidden s).

(** The preview held and the to-do table. *)
Definition todoView (s : State) :=
  (processedData s, todoCheckboxes s, todoDateSelectors s).

(** ** Proof automation and views for the session properties *)

(** Case analysis on the tests of a handler, a test that is itself a case
    analysis being left for later. *)
Ltac case_atoms :=
  repeat match goal with
         | |- context [match ?x with _ => _ end] =>
             lazymatch x with
             | match _ with _ => _ end => fail
             | _ => destruct x
             end
         end.

Ltac unfold_handlers :=
  unfold step, handleContactSelection, handleContactOptionClick, handleSkipHubspot,
    handleSearchAgain, showSearchAgainFromMultiple, handleCreateContact,
    handleHubSpotActionChange, fetchDealsForContact,
    handleDealSelection, handleDealSearchSelection, selectDealOption, dealOptionAt,
    populateDealFields, handleSearchDeals, showDealCreationMode, handleCreateDeal,
    handleInvestorOptionClick, handleInvestorSelection, handleSearchInvestor,
    handleSkipInvestorPrefs, showSearchInvestorAgainFromMultiple,
    showSearchDifferentInvestor, handleCreateInvestor,
    handleInvestorPrefsCheckboxChange, handleTodosCheckboxChange,
    handleFutureTaskCheckboxChange, handleEnableHubspotNoteChange,
    handleEnableInvestorPrefsChange, handleEnableTodosChange,
    todoStep, handleTodoCheckboxChange, handleTodoDateChange, handleSelectAllTodos,
    handleConfirmAndExecute, handleConfirmResponse, handleCancel, handleNewNotes,
    initializeProgressSteps, updateProgressStep,
    showHubSpotActionsCard, updateTaskTitle, updateExecutionSummary,
    showPreviewError, hidePreviewError, showResults in *.

Ltac same_view :=
  unfold_handlers; cbv beta zeta; case_atoms;
  first [reflexivity | left; reflexivity | right; reflexivity].

(** [s'] shows the same action as [s], or the default one again. *)
Definition actionKept (s s' : State) : Prop :=
  actionView s' = actionView s \/ actionView s' = (Some log_only, log_only, true).

(** The assignments at the top of [displayPreview], before the contact
    section is rendered. *)
Definition resetForPreview (s : State) : State :=
  let s := s <| selectedContactId := None |>
             <| selectedContactName := None |>
             <| skipHubspot := false |>
             <| skipInvestorPrefs := false |>
             <| investorPageId := None |>
             <| selectedDealId := None |>
             <| hubspotAction := log_only |> in
  let s := s <| hubspotActionsCard_hidden := true |>
             <| dealSelection_hidden := true |>
             <| hubspotActionRadio := Some log_only |> in
  let actions := submissionPageActions s in
  let s := s <| updateInvestorPrefsCheckbox := SubmissionPageActions.enable_investor_prefs actions |>
             <| investorPreviewContainer_disabled :=
                  negb (SubmissionPageActions.enable_investor_prefs actions) |>
             <| investorSkipWarning_hidden := SubmissionPageActions.enable_investor_prefs actions |> in
  s <| createTodosCheckbox := SubmissionPageActions.enable_todos actions |>
    <| todosPreviewContainer_disabled := negb (SubmissionPageActions.enable_todos actions) |>
    <| todosSkipWarning_hidden := SubmissionPageActions.enable_todos actions |>.

(** What the pre-flight validation looks at besides the radios and the
    boxes. *)
Definition confirmView (s : State) :=
  (selectedContactId s, selectedDealId s, enableHubspotNoteCheckbox s).

(** A contact search that brings nothing: the request failed, or it found
    no contact. *)
Definition fruitless (response : option SearchContactResponse.t) : Prop :=
  match response with
  | None => True
  | Some data => SearchContactResponse.count data = 0
  end.

(** The state with the banner, the two buttons and the progress list set
    to those of another state. *)
Definition withDisplayOf (display s : State) : State :=
  s <| previewErrorMessage := previewErrorMessage display |>
    <| confirmBtn_disabled := confirmBtn_disabled display |>
    <| cancelBtn_disabled := cancelBtn_disabled display |>
    <| progressSteps := progressSteps display |>.

(** A cache in which no entry is taken for the same contact as an
    earlier one. *)
Definition distinctContacts (cache : list Recent.Entry.t) : Prop :=
  ForallOrdPairs (fun a b => Recent.sameContact b a = false) cache.

(** ** Escaping text for HTML *)

Definition double_quote : ascii := ascii_of_nat 34.

(** The [map] object of [escapeHtml]. *)
Definition htmlEntity (m : ascii) : option string :=
  if Ascii.eqb m "&" then Some "&amp;"
  else if Ascii.eqb m "<" then Some "&lt;"
  else if Ascii.eqb m ">" then Some "&gt;"
  else if Ascii.eqb m double_quote then Some "&quot;"
  else if Ascii.eqb m "'" then Some "&#039;"
  else None.

(** [escapeHtml], on a string: every match of the character class is
    replaced by its entry in the map. *)
Fixpoint escapeHtml (text : string) : string :=
  match text with
  | EmptyString => EmptyString
  | String c rest =>
      match htmlEntity c with
      | Some entity => entity ++ escapeHtml rest
      | None => String c (escapeHtml rest)
      end
  end.

(** A text without the characters that open or close a tag or an
    attribute value. *)
Fixpoint markupFree (text : string) : bool :=
  match text with
  | EmptyString => true
  | String c rest =>
      negb (Ascii.eqb c "<" || Ascii.eqb c ">" || Ascii.eqb c double_quote || Ascii.eqb c "'")
      && markupFree rest
  end.

(** Case analysis on the character tests of a goal. *)
Ltac ascii_cases :=
  repeat match goal with
         | |- context [Ascii.eqb ?x ?y] => destruct (Ascii.eqb_spec x y); try subst x
         | H : context [Ascii.eqb ?x ?y] |- _ => destruct (Ascii.eqb_spec x y); try subst x
         end.

(** ** Initials of a contact name *)

(** [a-zA-Z]. *)
Definition isLetter (c : ascii) : bool :=
  let n := nat_of_ascii c in
  (((65 <=? n) && (n <=? 90)) || ((97 <=? n) && (n <=? 122)))%nat.

Definition isUpperLetter (c : ascii) : bool :=
  let n := nat_of_ascii c in ((65 <=? n) && (n <=? 90))%nat.

(** [toUpperCase] on letters of the English alphabet, the only
    characters it meets in [getInitials]. *)
Definition toUpperCaseChar (c : ascii) : ascii :=
  let n := nat_of_ascii c in
  if ((97 <=? n) && (n <=? 122))%nat then ascii_of_nat (n - 32) else c.

Fixpoint toUpperCase (text : string) : string :=
  match text with
  | EmptyString => EmptyString
  | String c rest => String (toUpperCaseChar c) (toUpperCase rest)
  end.

(** [text.includes(part)]. *)
Fixpoint includes (part text : string) : bool :=
  match text with
  | EmptyString => String.prefix part EmptyString
  | String _ rest => String.prefix part text || includes part rest
  end.

(** A byte that is a letter of [a-zA-Z]. *)
Definition isLetterToken (t : JS.Token) : bool :=
  match t with
  | JS.other c => isLetter c
  | JS.white _ => false
  end.

(** [name.replace(/[^a-zA-Z\s]/g, '')]: the letters and the white-space
    characters stay. *)
Definition lettersAndSpaces (name : string) : string :=
  JS.text (List.filter (fun t => isLetterToken t || JS.isWhite t) (JS.tokens name)).

(** [split(/\s+/)] on the tokens of a text; [inRun] says that the token
    before was white space already. *)
Fixpoint splitTokens (inRun : bool) (l : list JS.Token) : list string :=
  match l with
  | [] => [EmptyString]
  | JS.white _ :: rest =>
      if inRun then splitTokens true rest else EmptyString :: splitTokens true rest
  | JS.other c :: rest =>
      match splitTokens false rest with
      | part :: parts => String c part :: parts
      | [] => [String c EmptyString]
      end
  end.

(** [text.split(/\s+/)]. *)
Definition splitSpaces (text : string) : list string :=
  splitTokens false (JS.tokens text).

(** [part[0]] as a string, for a part that is not empty. *)
Definition firstChar (part : string) : string :=
  match part with
  | EmptyString => EmptyString
  | String c _ => String c EmptyString
  end.

(** [getInitials].  Where [name.substring(0, 2)] is taken the name is made
    of letters and white space, each one UTF-16 unit and one token. *)
Definition getInitials (name : option string) : string :=
  match name with
  | None => "??"
  | Some name =>
      if String.eqb name "" then "??"
      else
        let name := if includes "@" name then JS.before "@" name else name in
        let name := JS.trim (lettersAndSpaces name) in
        if String.eqb name "" then "??"
        else
          let parts :=
            List.filter (fun p => (0 <? String.length p)%nat) (splitSpaces name) in
          if (2 <=? length parts)%nat
          then toUpperCase (firstChar (List.hd "" parts) ++ firstChar (List.last parts ""))
          else toUpperCase (JS.text (List.firstn 2 (JS.tokens name)))
  end.

(** Every character of the text passes the test. *)
Fixpoint allChars (test : ascii -> bool) (text : string) : bool :=
  match text with
  | EmptyString => true
  | String c rest => test c && allChars test rest
  end.

(** One or two capital letters. *)
Definition capitals (text : string) : bool :=
  allChars isUpperLetter text
  && ((String.length text =? 1) || (String.length text =? 2))%nat.

(** The parts that [filter(p => p.length > 0)] keeps. *)
Definition notEmpty (part : string) : bool := (0 <? String.length part)%nat.

Definition words (inRun : bool) (l : list JS.Token) : list string :=
  List.filter notEmpty (splitTokens inRun l).

(** A white-space token as [JS.tokens] cuts it: put in front of any
    text, it is found again. *)
Definition genuine (bytes : string) : Prop :=
  bytes <> ""
  /\ forall rest, JS.tokens (bytes ++ rest) = JS.white bytes :: JS.tokens rest.

(** A token of a text made of letters and white space. *)
Definition letterOrSpace (t : JS.Token) : Prop :=
  match t with
  | JS.white bytes => genuine bytes
  | JS.other c => isLetter c = true
  end.

(** The event of typing into the title of the follow-up task. *)
Definition typesTaskTitle (event : Event) : bool :=
  match event with
  | TypeTaskTitle _ => true
  | _ => false
  end.

(** A field is kept by every branch of a handler, be it by the lemma
    given for the branches that show the actions card. *)
Ltac kept_through lemma H :=
  cbv beta zeta; case_atoms;
  first [ reflexivity | rewrite lemma by exact H; reflexivity ].

(** * Properties *)

(** ** Selecting an investor in the dropdown *)

(** C9 (as the script has it).  Selecting an option of the investor
    dropdown stores the value of that option in [investorPageId] and sets
    the skip flag exactly when that value is empty: the placeholder leaves
    the empty string (not [null]) with the flag set, any other option
    leaves its value with the flag cleared. *)
Theorem handleInvestorSelection_spec (value : string) (s : State) :
  investorPageId (handleInvestorSelection value s) = Some value
  /\ skipInvestorPrefs (handleInvestorSelection value s) = String.eqb value "".
Proof.
  unfold handleInvestorSelection, updateExecutionSummary; cbn.
  split; [reflexivity|].
  destruct (String.eqb value ""); reflexivity.
Qed.

(** C9, the sentence as written fails: after the placeholder is selected
    the page id is the empty string, which is not [null]. *)
Lemma handleInvestorSelection_placeholder_not_null :
  investorPageId (handleInvestorSelection "" Session.pageLoaded) <> None
  /\ skipInvestorPrefs (handleInvestorSelection "" Session.pageLoaded) = true.
Proof. split; [discriminate | reflexivity]. Qed.

(** ** Pre-flight validation of confirm-and-execute *)

Lemma HubspotAction_eqb_eq (a b : HubspotAction) :
  HubspotAction_eqb a b = true <-> a = b.
Proof. destruct a, b; cbn; split; intros H; try reflexivity; discriminate. Qed.

Lemma HubspotAction_eqb_neq (a b : HubspotAction) :
  HubspotAction_eqb a b = false <-> a <> b.
Proof.
  destruct a, b; cbn; split; intros H; try reflexivity; try discriminate;
    try (exfalso; apply H; reflexivity).
Qed.

(** The error banner is the only thing [showPreviewError] touches. *)
Lemma showPreviewError_only_banner (m : PreviewMessage) (s : State) :
  (showPreviewError m s) <| previewErrorMessage := previewErrorMessage s |> = s.
Proof. destruct s; reflexivity. Qed.

(** Whenever the request is sent, it carries [buildPayload] of the state
    at confirm time and all three validations have passed. *)
Lemma handleConfirmAndExecute_dispatched (s s' : State) (payload : Payload.t) :
  handleConfirmAndExecute s = (s', Dispatched payload) ->
  exists data, processedData s = Some data /\ payload = buildPayload data s.
Proof.
  unfold handleConfirmAndExecute.
  repeat match goal with
         | |- context [if ?b then _ else _] => destruct b; try discriminate
         end.
  all: destruct (processedData s) as [data|]; try discriminate.
  all: intros [= _ <-]; exists data; split; reflexivity.
Qed.

(** C1, the sentence as written fails.  In the example session a contact
    is picked, a deal is picked for it, and the contact dropdown is set
    back to its placeholder: the action is not 'skip', no contact id is
    set and no skip is recorded, yet the request leaves, with a null
    contact id and the deal id. *)
Lemma confirm_dispatches_with_deal_but_no_contact :
  confirmHubspotAction Session.contactUnpicked <> skip
  /\ JS.truthy (selectedContactId Session.contactUnpicked) = false
  /\ skipHubspot Session.contactUnpicked = false
  /\ exists payload,
       snd (handleConfirmAndExecute Session.contactUnpicked) = Dispatched payload
       /\ HubspotPayload.contact_id (Payload.hubspot payload) = None
       /\ HubspotPayload.deal_id (Payload.hubspot payload) = Some "d1".
Proof.
  split; [vm_compute; discriminate|].
  split; [reflexivity|].
  split; [reflexivity|].
  eexists. split; [vm_compute; reflexivity|].
  split; reflexivity.
Qed.

(** C1 (as the script has it).  When the HubSpot action is not 'skip' and
    neither a contact id nor a deal id is set, confirm-and-execute stops
    with the message asking for a contact or a deal: nothing is sent and
    the state changes in its error banner only. *)
Theorem confirm_blocked_without_contact_and_deal (s : State) :
  confirmHubspotAction s <> skip ->
  JS.truthy (selectedContactId s) = false ->
  JS.truthy (selectedDealId s) = false ->
  handleConfirmAndExecute s
  = (showPreviewError msg_select_contact_or_deal s, Blocked msg_select_contact_or_deal).
Proof.
  intros Haction Hcontact Hdeal.
  apply HubspotAction_eqb_neq in Haction.
  unfold handleConfirmAndExecute.
  rewrite Haction, Hcontact, Hdeal. reflexivity.
Qed.

Lemma confirm_blocked_without_contact_and_deal_witness :
  handleConfirmAndExecute
    (fst (displayPreview Session.dates Session.preview Session.pageLoaded))
  = (showPreviewError msg_select_contact_or_deal
       (fst (displayPreview Session.dates Session.preview Session.pageLoaded)),
     Blocked msg_select_contact_or_deal).
Proof.
  apply confirm_blocked_without_contact_and_deal.
  - vm_compute; discriminate.
  - reflexivity.
  - reflexivity.
Defined.

(** C6.  The first validation asks for at least one action, and its
    message says that not all actions can be skipped; it counts investor
    preferences as chosen from the check boxes alone, where the request,
    the progress list and the answer all go by the boxes and the recorded
    skip.  So after the investor skip card, with HubSpot on 'skip' and
    the to-do box unchecked, nothing is left to do and yet the request
    leaves: action 'skip', no preferences to update, no to-dos to
    create. *)
Theorem confirm_sends_idle_request_after_investor_skip :
  let s := run Session.dates
             [ProcessNotes "Call with Ann and Bob" (Some Session.preview);
              ContactSelection 1;
              HubSpotActionChange skip None;
              InvestorOptionClick "skip-investor";
              TodosCheckboxChange false]
             Session.pageLoaded in
  confirmHubspotAction s = skip
  /\ investorMode s = investor_skip
  /\ createTodosCheckbox s = false
  /\ exists payload,
       snd (handleConfirmAndExecute s) = Dispatched payload
       /\ HubspotPayload.action (Payload.hubspot payload) = skip
       /\ NotionPayload.update_investor_prefs (Payload.notion payload) = false
       /\ NotionPayload.create_todos (Payload.notion payload) = false
       /\ NotionPayload.todos (Payload.notion payload) = [].
Proof.
  cbv zeta. split; [reflexivity|]. split; [reflexivity|]. split; [reflexivity|].
  eexists. split; [vm_compute; reflexivity|].
  repeat split; reflexivity.
Qed.

(** ** The payload under the master toggles *)

Lemma buildPayload_master_toggles (data : Preview.t) (s : State) :
  (enableHubspotNoteCheckbox s = Some false ->
   HubspotPayload.action (Payload.hubspot (buildPayload data s)) = skip)
  /\ (enableInvestorPrefsCheckbox s = Some false ->
      NotionPayload.update_investor_prefs (Payload.notion (buildPayload data s)) = false)
  /\ (enableTodosCheckbox s = Some false ->
      NotionPayload.create_todos (Payload.notion (buildPayload data s)) = false
      /\ NotionPayload.todos (Payload.notion (buildPayload data s)) = []).
Proof.
  unfold buildPayload, confirmHubspotAction, shouldUpdateInvestorPrefs, shouldCreateTodos.
  cbn. split; [|split].
  - intros ->. reflexivity.
  - intros ->. reflexivity.
  - intros ->. split; reflexivity.
Qed.

(** C7.  In every request that confirm-and-execute sends, a master toggle
    that is off decides its part of the payload: HubSpot off gives the
    action 'skip', investor preferences off gives
    [update_investor_prefs = false], to-dos off gives
    [create_todos = false] and no to-dos, whatever the detailed selections
    are. *)
Theorem payload_obeys_master_toggles (s s' : State) (payload : Payload.t) :
  handleConfirmAndExecute s = (s', Dispatched payload) ->
  (enableHubspotNoteCheckbox s = Some false ->
   HubspotPayload.action (Payload.hubspot payload) = skip)
  /\ (enableInvestorPrefsCheckbox s = Some false ->
      NotionPayload.update_investor_prefs (Payload.notion payload) = false)
  /\ (enableTodosCheckbox s = Some false ->
      NotionPayload.create_todos (Payload.notion payload) = false
      /\ NotionPayload.todos (Payload.notion payload) = []).
Proof.
  intros H.
  destruct (handleConfirmAndExecute_dispatched _ _ _ H) as (data & _ & ->).
  apply buildPayload_master_toggles.
Qed.

Lemma payload_obeys_master_toggles_witness :
  let s := handleEnableTodosChange false
             (handleEnableHubspotNoteChange false Session.contactPicked) in
  HubspotPayload.action (Payload.hubspot (buildPayload Session.preview s)) = skip
  /\ NotionPayload.create_todos (Payload.notion (buildPayload Session.preview s)) = false
  /\ NotionPayload.todos (Payload.notion (buildPayload Session.preview s)) = [].
Proof.
  intros s.
  destruct (payload_obeys_master_toggles s (fst (handleConfirmAndExecute s))
              (buildPayload Session.preview s))
    as (Hhubspot & _ & Htodos).
  - vm_compute. reflexivity.
  - split; [apply Hhubspot; reflexivity|].
    apply Htodos. reflexivity.
Defined.

(** ** Changing the HubSpot action *)

(** C2 (as the script has it).  The change handler of the radio group
    never refuses 'log_with_deal': in every state, with or without a
    selected contact, the action becomes 'log_with_deal' and the skip
    flag is cleared, while the contact and the deal selection stay as
    they were (no deal is picked by it). *)
Theorem handleHubSpotActionChange_log_with_deal
    (dealsResponse : option (list Deal.t)) (s : State) :
  let s' := handleHubSpotActionChange log_with_deal dealsResponse s in
  hubspotAction s' = log_with_deal
  /\ hubspotActionRadio s' = Some log_with_deal
  /\ skipHubspot s' = false
  /\ selectedContactId s' = selectedContactId s
  /\ selectedContactName s' = selectedContactName s
  /\ selectedDealId s' = selectedDealId s
  /\ selectedDealData s' = selectedDealData s.
Proof.
  unfold handleHubSpotActionChange, fetchDealsForContact, updateExecutionSummary.
  destruct dealsResponse; cbn; repeat split; reflexivity.
Qed.

(** What keeps the radios away from the user while no contact is chosen
    is the card that holds them: [showHubSpotActionsCard] hides it unless
    both the contact id and the contact name are set. *)
Lemma showHubSpotActionsCard_without_contact (s : State) :
  JS.truthy (selectedContactId s) = false ->
  showHubSpotActionsCard s = s <| hubspotActionsCard_hidden := true |>.
Proof. intros H. unfold showHubSpotActionsCard. rewrite H. reflexivity. Qed.

(** C2, the sentence as written fails.  In the example session a contact
    is picked (which shows the card with the radios) and the dropdown is
    set back to its placeholder; no contact is selected then, the card is
    still shown, and choosing 'log_with_deal' changes the action. *)
Lemma log_with_deal_accepted_without_contact :
  let s := handleContactSelection 0 Session.contactPicked in
  contactMode s <> contact_selected
  /\ hubspotActionsCard_hidden s = false
  /\ hubspotAction s = log_only
  /\ hubspotAction (handleHubSpotActionChange log_with_deal None s) = log_with_deal
  /\ handleHubSpotActionChange log_with_deal None s <> s.
Proof.
  cbv zeta.
  split; [vm_compute; discriminate|].
  split; [reflexivity|].
  split; [reflexivity|].
  split; [reflexivity|].
  intros H. apply (f_equal hubspotAction) in H. vm_compute in H. discriminate.
Qed.

(** ** Cancel *)

(** What cancel does: [handleCancel] clears the preview, the contact id
    and name, both skip flags, the investor page id and the error banner,
    and leaves the deal id, the deal data, the investor id and name and
    the HubSpot action as they are. *)
Lemma handleCancel_spec (s : State) :
  let s' := handleCancel s in
  (processedData s' = None /\ selectedContactId s' = None /\ selectedContactName s' = None
   /\ skipHubspot s' = false /\ skipInvestorPrefs s' = false /\ investorPageId s' = None)
  /\ (selectedDealId s' = selectedDealId s /\ selectedDealData s' = selectedDealData s
      /\ selectedInvestorId s' = selectedInvestorId s
      /\ selectedInvestorName s' = selectedInvestorName s
      /\ hubspotAction s' = hubspotAction s).
Proof. unfold handleCancel, hidePreviewError; cbn. repeat split; reflexivity. Qed.

(** C3, at an input where the script falls short of it.  In the example
    session, cancelling after a deal was picked leaves the deal id, the
    deal data and the action 'log_with_deal' behind, so the selection is
    not back at its defaults; starting over with new notes does clear the
    deal id. *)
Theorem handleCancel_keeps_deal :
  selectedDealId (handleCancel Session.dealPicked) = Some "d1"
  /\ selectedDealData (handleCancel Session.dealPicked) = Some Session.seriesA
  /\ hubspotAction (handleCancel Session.dealPicked) = log_with_deal
  /\ ~ initialSelection (handleCancel Session.dealPicked)
  /\ selectedDealId (handleNewNotes Session.dealPicked) = None.
Proof.
  split; [reflexivity|]. split; [reflexivity|]. split; [reflexivity|].
  split; [|reflexivity].
  unfold initialSelection. intros H.
  destruct H as (_ & _ & _ & _ & _ & _ & _ & _ & H & _).
  vm_compute in H. discriminate.
Qed.

(** ** Rendering: what each step leaves alone *)

Lemma truthy_or_str (a : option string) (d : string) :
  d <> "" -> JS.truthy (Some (JS.or_str a d)) = true.
Proof.
  intros Hd. unfold JS.truthy, JS.or_str.
  destruct a as [v|].
  - destruct (String.eqb_spec v "") as [->|Hv].
    + apply String.eqb_neq in Hd. rewrite Hd. reflexivity.
    + apply String.eqb_neq in Hv. rewrite Hv. reflexivity.
  - apply String.eqb_neq in Hd. rewrite Hd. reflexivity.
Qed.

Lemma truthy_Some (v : string) : v <> "" -> JS.truthy (Some v) = true.
Proof. intros Hv. cbn. apply String.eqb_neq in Hv. rewrite Hv. reflexivity. Qed.

Lemma showDealCreationMode_views dates a b c (s : State) :
  contactView (showDealCreationMode dates a b c s) = contactView s
  /\ investorView (showDealCreationMode dates a b c s) = investorView s.
Proof. unfold showDealCreationMode. case_branches; split; reflexivity. Qed.

Lemma displayParsedDeals_views dates preview (s : State) :
  contactView (displayParsedDeals dates preview s) = contactView s
  /\ investorView (displayParsedDeals dates preview s) = investorView s.
Proof.
  unfold displayParsedDeals.
  destruct (Preview.deal_status preview) as [status|]; [|split; reflexivity].
  destruct (String.eqb status "found" && (0 <? length (Preview.hubspot_deals preview))%nat);
    [split; reflexivity|].
  destruct (String.eqb status "not_found"); [|split; reflexivity].
  match goal with |- context [if ?b then _ else _] => destruct b end;
    [|split; reflexivity].
  destruct (showDealCreationMode_views dates
              (JS.or_val
                 (ParsedDeal.deal_name
                    match Preview.parsed_deal preview with
                    | Some d => d
                    | None => ParsedDeal.mk None None None None
                    end)
                 (ParsedDeal.search_keywords
                    match Preview.parsed_deal preview with
                    | Some d => d
                    | None => ParsedDeal.mk None None None None
                    end))
              (Some (JS.or_str
                       (ParsedDeal.suggested_stage
                          match Preview.parsed_deal preview with
                          | Some d => d
                          | None => ParsedDeal.mk None None None None
                          end) "appointmentscheduled"))
              (Some (JS.or_str
                       (ParsedDeal.suggested_next_step
                          match Preview.parsed_deal preview with
                          | Some d => d
                          | None => ParsedDeal.mk None None None None
                          end) ""))
              (s <| dealSearchResults_hidden := true |> <| dealSearchDropdown := [] |>))
    as [Hc Hi].
  split; [rewrite Hc | rewrite Hi]; reflexivity.
Qed.

Lemma displayPreferences_contactView preview (s : State) :
  contactView (fst (displayPreferences preview s)) = contactView s.
Proof. unfold displayPreferences. case_branches; reflexivity. Qed.


(** Rendering a preview ends at the point where the preferences are
    examined when that throws, and after the to-dos otherwise. *)
Lemma displayPreview_unfold dates preview (s : State) :
  exists s0,
    contactView s0
    = (None, None, false, true, singleContactDiv_hidden s) /\
    fst (investorView s0) = (false, None,
                               SubmissionPageActions.enable_investor_prefs
                                 (submissionPageActions s),
                               investorFound_hidden s, multipleInvestorsDiv_hidden s) /\
    displayPreview dates preview s
    = match displayPreferences preview
              (displayParsedDeals dates preview (displayContactSection preview s0)) with
      | (s1, Thrown) => (s1, Thrown)
      | (s1, Normal) =>
          (showResults (updateExecutionSummary
                          (displayTodos dates (Preview.todos preview) s1)), Normal)
      end.
Proof.
  eexists. split; [|split]; [| |unfold displayPreview; reflexivity]; reflexivity.
Qed.

Lemma showHubSpotActionsCard_contactView (s : State) :
  JS.truthy (selectedContactId s) = true ->
  JS.truthy (selectedContactName s) = true ->
  contactView (showHubSpotActionsCard s)
  = (selectedContactId s, selectedContactName s, false, false, singleContactDiv_hidden s).
Proof.
  intros Hid Hname. unfold showHubSpotActionsCard, updateTaskTitle, updateExecutionSummary.
  rewrite Hid, Hname. destruct s; cbn in *.
  match goal with H : JS.truthy ?n = true |- context [match ?n with _ => _ end] =>
    destruct n as [name|]; [|discriminate H] end.
  destruct (String.eqb name ""); [reflexivity|].
  match goal with |- context [String.eqb ?t ""] => destruct (String.eqb t "") end;
    reflexivity.
Qed.

(** Shown or hidden, the card leaves the contact as it is and records no
    skip. *)
Lemma showHubSpotActionsCard_keeps_contact (s : State) :
  skipHubspot s = false ->
  selectedContactId (showHubSpotActionsCard s) = selectedContactId s
  /\ selectedContactName (showHubSpotActionsCard s) = selectedContactName s
  /\ skipHubspot (showHubSpotActionsCard s) = false
  /\ singleContactDiv_hidden (showHubSpotActionsCard s) = singleContactDiv_hidden s.
Proof.
  intros Hskip.
  destruct (JS.truthy (selectedContactId s)) eqn:Hid;
    [destruct (JS.truthy (selectedContactName s)) eqn:Hname|].
  - pose proof (showHubSpotActionsCard_contactView s Hid Hname) as H.
    unfold contactView in H. injection H as H1 H2 H3 _ H5. repeat split; assumption.
  - unfold showHubSpotActionsCard. rewrite Hid, Hname. cbn. repeat split; assumption.
  - unfold showHubSpotActionsCard. rewrite Hid. cbn. repeat split; assumption.
Qed.

Lemma displayContactSection_single preview contact (s : State) :
  Preview.hubspot_contacts preview = [contact] ->
  skipHubspot s = false ->
  let s' := displayContactSection preview s in
  selectedContactId s' = Some (Contact.id contact)
  /\ selectedContactName s' = Some (JS.or_str (Some (contactFullName contact)) "N/A")
  /\ skipHubspot s' = false
  /\ singleContactDiv_hidden s' = false
  /\ (Contact.id contact <> "" -> hubspotActionsCard_hidden s' = false).
Proof.
  intros Hcontacts Hskip. cbn zeta. unfold displayContactSection. rewrite Hcontacts.
  match goal with |- context [showHubSpotActionsCard ?t] => set (s1 := t) end.
  destruct (showHubSpotActionsCard_keeps_contact s1 Hskip) as (H1 & H2 & H3 & H4).
  rewrite H1, H2, H3, H4.
  repeat (split; [reflexivity|]).
  intros Hid.
  assert (Hview : contactView (showHubSpotActionsCard s1)
                  = (selectedContactId s1, selectedContactName s1, false, false,
                     singleContactDiv_hidden s1)).
  { apply showHubSpotActionsCard_contactView.
    - apply truthy_Some. exact Hid.
    - apply truthy_or_str. discriminate. }
  unfold contactView in Hview. injection Hview as _ _ _ Hcard _. exact Hcard.
Qed.

(** ** Rendering a preview with a single contact match *)

(** C4.  When the preview has exactly one contact match, rendering it
    puts the id of that match in [selectedContactId] and its full name
    (or 'N/A') in [selectedContactName], records no skip and shows the
    single-contact panel.  The id being a HubSpot id, hence not empty,
    this is a selected contact for every test the script makes, and the
    HubSpot actions card is shown. *)
Theorem displayPreview_selects_single_contact
    (dates : DateApi) (preview : Preview.t) (contact : Contact.t) (s : State) :
  Preview.hubspot_contacts preview = [contact] ->
  let s' := fst (displayPreview dates preview s) in
  selectedContactId s' = Some (Contact.id contact)
  /\ selectedContactName s' = Some (JS.or_str (Some (contactFullName contact)) "N/A")
  /\ skipHubspot s' = false
  /\ singleContactDiv_hidden s' = false
  /\ (Contact.id contact <> "" ->
      contactMode s' = contact_selected /\ hubspotActionsCard_hidden s' = false).
Proof.
  intros Hcontacts s'.
  destruct (displayPreview_unfold dates preview s) as (s0 & Hs0 & _ & Hunfold).
  assert (Hskip0 : skipHubspot s0 = false).
  { unfold contactView in Hs0. injection Hs0 as _ _ H _ _. exact H. }
  destruct (displayContactSection_single preview contact s0 Hcontacts Hskip0)
    as (Hid & Hname & Hskip & Hsingle & Hcard).
  assert (Hview : contactView s' = contactView (displayContactSection preview s0)).
  { subst s'. rewrite Hunfold.
    rewrite <- (proj1 (displayParsedDeals_views dates preview
                         (displayContactSection preview s0))).
    rewrite <- (displayPreferences_contactView preview
                  (displayParsedDeals dates preview (displayContactSection preview s0))).
    destruct (displayPreferences preview
                (displayParsedDeals dates preview (displayContactSection preview s0)))
      as [s1 [|]]; reflexivity. }
  unfold contactView in Hview.
  injection Hview as Hv1 Hv2 Hv3 Hv4 Hv5.
  rewrite Hv1, Hv2, Hv3, Hv5.
  repeat (split; [assumption|]).
  intros Hne. unfold contactMode. rewrite Hv3, Hskip, Hv1, Hid, Hv4.
  rewrite (truthy_Some _ Hne). split; [reflexivity | apply Hcard; exact Hne].
Qed.

Lemma displayPreview_selects_single_contact_witness :
  let s' := fst (displayPreview Session.dates Session.previewSingle Session.pageLoaded) in
  selectedContactId s' = Some "101"
  /\ selectedContactName s' = Some "Ann Lee"
  /\ skipHubspot s' = false
  /\ singleContactDiv_hidden s' = false
  /\ contactMode s' = contact_selected
  /\ hubspotActionsCard_hidden s' = false.
Proof.
  intros s'.
  destruct (displayPreview_selects_single_contact Session.dates Session.previewSingle
              Session.ann Session.pageLoaded) as (Hid & Hname & Hskip & Hsingle & Hmode).
  - reflexivity.
  - fold s' in Hid, Hname, Hskip, Hsingle, Hmode.
    repeat (split; [assumption|]).
    apply Hmode. discriminate.
Defined.

(** ** Rendering a preview without meaningful preferences *)

(** On a preferences object whose notes field is not an array, the test
    of the script is the test of the design. *)
Lemma hasPreferences_spec (preferences : Preferences) :
  notes_is_text preferences = true ->
  hasPreferences preferences = Some (spec_meaningful preferences).
Proof.
  unfold spec_meaningful, notes_is_text.
  induction preferences as [|[key value] rest IH];
    cbn [hasPreferences existsb forallb]; [reflexivity|].
  intros H. apply andb_true_iff in H as [Hhead Hrest].
  specialize (IH Hrest). unfold preferenceTest.
  destruct value as [|v|l].
  - rewrite orb_false_l. destruct (String.eqb key "Preference Notes"); exact IH.
  - destruct (String.eqb key "Preference Notes"); cbn [andb orb]; [|exact IH].
    destruct (String.eqb_spec v "") as [->|Hv]; cbn [negb andb]; [exact IH|].
    destruct (0 <? String.length (JS.trim v))%nat; cbn [orb]; [reflexivity|exact IH].
  - apply negb_true_iff in Hhead. rewrite Hhead.
    destruct (0 <? length l)%nat; cbn [orb]; [reflexivity|exact IH].
Qed.





(** ** The recent-contacts cache *)

Section RecentFacts.
Import Recent.
Local Open Scope list_scope.

Lemma strictEq_eq (a b : option string) : strictEq a b = true <-> a = b.
Proof.
  destruct a as [x|], b as [y|]; cbn; split; intros H;
    try discriminate; try reflexivity.
  - apply String.eqb_eq in H. congruence.
  - injection H as ->. apply String.eqb_refl.
Qed.

Lemma sameContact_refl (e : Entry.t) : sameContact e e = true.
Proof.
  unfold sameContact. rewrite (proj2 (strictEq_eq _ _) eq_refl). reflexivity.
Qed.

(** Two entries that the script does not take for the same contact
    differ in their email and in their id. *)
Lemma sameContact_false (item t : Entry.t) :
  sameContact item t = false ->
  Entry.email t <> Entry.email item /\ Entry.id t <> Entry.id item.
Proof.
  unfold sameContact. intros H. apply orb_false_iff in H as [He Hi].
  split; intros Heq; apply strictEq_eq in Heq; congruence.
Qed.

(** [findIndex] returns the first position that passes the test. *)
Lemma findIndex_first {A} (p : A -> bool) (self : list A) (k : nat) :
  findIndex p self = Some k ->
  forall j y, j < k -> self !! j = Some y -> p y = false.
Proof.
  revert k. induction self as [|t rest IH]; cbn; intros k H j y Hj Hy.
  - discriminate.
  - destruct (p t) eqn:Hpt.
    + injection H as <-. lia.
    + destruct (findIndex p rest) as [k'|]; cbn in H; [|discriminate].
      injection H as <-.
      destruct j as [|j]; cbn in Hy.
      * injection Hy as <-. exact Hpt.
      * apply (IH k' eq_refl j y); [lia | exact Hy].
Qed.

Lemma findIndex_hit {A} (p : A -> bool) (t : A) (rest : list A) :
  p t = true -> findIndex p (t :: rest) = Some 0.
Proof. intros H. cbn. rewrite H. reflexivity. Qed.

Lemma filterFrom_sublist {A} (p : A -> nat -> bool) (from : nat) (l : list A) :
  filterFrom p from l `sublist_of` l.
Proof.
  revert from. induction l as [|x rest IH]; intros from; cbn.
  - constructor.
  - destruct (p x from); [apply sublist_skip | apply sublist_cons]; apply IH.
Qed.

(** What [filter] keeps is met by nothing that comes before it in the
    list being filtered: neither by what was already passed over, nor
    by the entries kept before it. *)
Lemma filterFrom_fresh (l pre : list Entry.t) :
  let kept := filterFrom (isFirstOfItsKind (pre ++ l)) (length pre) l in
  Forall (fun b => Forall (fun a => sameContact b a = false) pre) kept
  /\ ForallOrdPairs (fun a b => sameContact b a = false) kept.
Proof.
  revert pre. induction l as [|x rest IH]; intros pre; cbn zeta.
  - split; constructor.
  - specialize (IH (pre ++ [x])).
    rewrite <- app_assoc in IH. cbn [app] in IH.
    rewrite length_app in IH. cbn [length] in IH.
    replace (length pre + 1) with (S (length pre)) in IH by lia.
    cbn zeta in IH. destruct IH as [IHpre IHpairs].
    cbn [filterFrom].
    assert (Hrest : Forall (fun b => Forall (fun a => sameContact b a = false) pre
                                     /\ sameContact b x = false)
                      (filterFrom (isFirstOfItsKind (pre ++ x :: rest))
                                  (S (length pre)) rest)).
    { eapply Forall_impl; [exact IHpre|]. intros b Hb.
      apply Forall_app in Hb as [Hb1 Hb2].
      split; [exact Hb1|]. apply Forall_inv in Hb2. exact Hb2. }
    destruct (isFirstOfItsKind (pre ++ x :: rest) x (length pre)) eqn:Hkeep.
    + split.
      * constructor.
        -- unfold isFirstOfItsKind in Hkeep.
           destruct (findIndex (sameContact x) (pre ++ x :: rest)) as [first|] eqn:Hfind;
             [|discriminate].
           apply Nat.eqb_eq in Hkeep. subst first.
           apply Forall_forall. intros a Ha.
           apply list_elem_of_lookup in Ha as [j Hj].
           apply (findIndex_first _ _ _ Hfind j a).
           ++ apply lookup_lt_Some in Hj. exact Hj.
           ++ rewrite lookup_app_l; [exact Hj|].
              apply lookup_lt_Some in Hj. exact Hj.
        -- eapply Forall_impl; [exact Hrest|]. intros b [Hb _]. exact Hb.
      * constructor; [|exact IHpairs].
        eapply Forall_impl; [exact Hrest|]. intros b [_ Hb]. exact Hb.
    + split; [|exact IHpairs].
      eapply Forall_impl; [exact Hrest|]. intros b [Hb _]. exact Hb.
Qed.

Lemma ForallOrdPairs_NoDup_map {A B} (f : A -> B) (l : list A) :
  ForallOrdPairs (fun a b => f a <> f b) l -> NoDup (map f l).
Proof.
  induction 1 as [|a l Ha _ IH]; cbn; constructor; [|exact IH].
  intros Hin. apply list_elem_of_In in Hin.
  apply in_map_iff in Hin as (b & Hb & Hinb).
  rewrite Forall_forall in Ha.
  apply (Ha b); [apply list_elem_of_In; exact Hinb | congruence].
Qed.

Lemma ForallOrdPairs_impl {A} (R S : A -> A -> Prop) (l : list A) :
  (forall a b, R a b -> S a b) -> ForallOrdPairs R l -> ForallOrdPairs S l.
Proof.
  intros H. induction 1 as [|a l Ha _ IH]; constructor; [|exact IH].
  eapply Forall_impl; [exact Ha|]. intros b. apply H.
Qed.

Lemma removeDuplicates_cons (contact : Entry.t) (cache : list Entry.t) :
  removeDuplicates (contact :: cache)
  = contact :: filterFrom (isFirstOfItsKind (contact :: cache)) 1 cache.
Proof.
  unfold removeDuplicates. cbn [filterFrom]. unfold isFirstOfItsKind at 1.
  rewrite (findIndex_hit _ _ _ (sameContact_refl contact)). reflexivity.
Qed.

Lemma removeDuplicates_distinct (self : list Entry.t) :
  NoDup (map Entry.email (removeDuplicates self))
  /\ NoDup (map Entry.id (removeDuplicates self)).
Proof.
  destruct (filterFrom_fresh self []) as [_ Hpairs]. cbn in Hpairs.
  split; apply ForallOrdPairs_NoDup_map;
    (eapply ForallOrdPairs_impl; [|exact Hpairs]);
    intros a b Hab; apply sameContact_false in Hab; tauto.
Qed.

Lemma NoDup_map_take {A B} (f : A -> B) (n : nat) (l : list A) :
  NoDup (map f l) -> NoDup (map f (take n l)).
Proof.
  intros H. rewrite <- firstn_map.
  eapply sublist_NoDup; [exact H | apply sublist_take].
Qed.

(** One upsert, into any list. *)
Lemma savePrepRecentContact_spec (contact : Entry.t) (cache : list Entry.t) :
  let cache' := savePrepRecentContact contact cache in
  length cache' <= 6
  /\ head cache' = Some contact
  /\ tail cache' `sublist_of` cache
  /\ NoDup (map Entry.email cache')
  /\ NoDup (map Entry.id cache').
Proof.
  cbn zeta. unfold savePrepRecentContact.
  split; [rewrite length_take; lia|].
  split; [rewrite removeDuplicates_cons; reflexivity|].
  split.
  { rewrite removeDuplicates_cons. cbn [take tail].
    etransitivity; [apply sublist_take | apply filterFrom_sublist]. }
  destruct (removeDuplicates_distinct (contact :: cache)) as [He Hi].
  split; apply NoDup_map_take; assumption.
Qed.

(** Every entry saved by a call preparation has an email (possibly the
    empty one), and an upsert keeps entries of the list and the new
    entry only. *)
Lemma Forall_sublist {A} (P : A -> Prop) (l k : list A) :
  l `sublist_of` k -> Forall P k -> Forall P l.
Proof.
  intros Hsub Hk. rewrite Forall_forall in *. intros x Hx.
  apply Hk. eapply elem_of_sublist; eassumption.
Qed.

Lemma savePrepRecentContact_hasEmail (contact : Entry.t) (cache : list Entry.t) :
  hasEmail contact -> Forall hasEmail cache ->
  Forall hasEmail (savePrepRecentContact contact cache).
Proof.
  intros Hc Hcache. unfold savePrepRecentContact, removeDuplicates.
  eapply Forall_sublist; [apply sublist_take|].
  eapply Forall_sublist; [apply filterFrom_sublist|].
  constructor; assumption.
Qed.

Lemma afterSearches_snoc searches query contact (cache : list Entry.t) :
  afterSearches (searches ++ [(query, contact)]) cache
  = savePrepRecentContact (entryOfBrief query contact) (afterSearches searches cache).
Proof. unfold afterSearches. rewrite fold_left_app. reflexivity. Qed.

Lemma afterSearches_hasEmail searches (cache : list Entry.t) :
  Forall hasEmail cache -> Forall hasEmail (afterSearches searches cache).
Proof.
  revert cache. induction searches as [|[query contact] rest IH]; intros cache H.
  - exact H.
  - cbn. apply IH. apply savePrepRecentContact_hasEmail; [discriminate | exact H].
Qed.

Lemma spec_key_email (l : list Entry.t) :
  Forall hasEmail l -> map spec_key l = map Entry.email l.
Proof.
  induction 1 as [|e l He _ IH]; cbn; [reflexivity|].
  rewrite IH. f_equal. unfold spec_key, JS.nullish_or, hasEmail in *.
  destruct (Entry.email e); [reflexivity | contradiction].
Qed.

End RecentFacts.

(** C8.  After an upsert into any list, the cache has at most 6 entries,
    the upserted entry is first and the others follow in their former
    order, and no two entries have the same email or the same id.  After
    any run of call preparations from the empty cache, the cache has at
    most 6 entries, the entry of the last preparation is first, and no
    two entries share the key (email, else id). *)
Theorem recent_contacts_cache :
  (forall (contact : Recent.Entry.t) (cache : list Recent.Entry.t),
      let cache' := Recent.savePrepRecentContact contact cache in
      length cache' <= 6
      /\ head cache' = Some contact
      /\ tail cache' `sublist_of` cache
      /\ NoDup (map Recent.Entry.email cache')
      /\ NoDup (map Recent.Entry.id cache'))
  /\ (forall (searches : list (string * Recent.BriefContact.t))
             (query : string) (contact : Recent.BriefContact.t),
         let cache' := Recent.afterSearches (searches ++ [(query, contact)])%list [] in
         length cache' <= 6
         /\ head cache' = Some (Recent.entryOfBrief query contact)
         /\ NoDup (map Recent.spec_key cache')).
Proof.
  split.
  - apply savePrepRecentContact_spec.
  - intros searches query contact. cbn zeta.
    rewrite spec_key_email
      by (apply afterSearches_hasEmail; constructor).
    rewrite afterSearches_snoc.
    destruct (savePrepRecentContact_spec (Recent.entryOfBrief query contact)
                (Recent.afterSearches searches [])) as (Hlen & Hhead & _ & Hemail & _).
    repeat split; assumption.
Qed.

(** ** The to-dos of the request *)

Section TodoFacts.
Local Open Scope list_scope.

Lemma flat_map_map {A B C} (g : B -> list C) (h : A -> B) (l : list A) :
  flat_map g (map h l) = flat_map (fun x => g (h x)) l.
Proof. induction l as [|x l IH]; cbn; [reflexivity|]. rewrite IH. reflexivity. Qed.

Lemma flat_map_ext_in {A B} (f g : A -> list B) (l : list A) :
  (forall x, In x l -> f x = g x) -> flat_map f l = flat_map g l.
Proof.
  induction l as [|x l IH]; cbn; intros H; [reflexivity|].
  rewrite (H x) by (left; reflexivity).
  rewrite IH by (intros y Hy; apply H; right; exact Hy). reflexivity.
Qed.

(** Going through a list is going through its positions. *)
Lemma flat_map_positions {A B} (f : A -> list B) (l : list A) :
  flat_map f l
  = flat_map (fun i => match l !! i with Some x => f x | None => [] end)
             (seq 0 (length l)).
Proof.
  induction l as [|x l IH]; cbn [flat_map length seq]; [reflexivity|].
  rewrite <- seq_shift, flat_map_map. cbn. rewrite IH. reflexivity.
Qed.

Lemma lookup_seq_index {A} (index : A -> nat) (l : list A) (k i : nat) (x : A) :
  map index l = seq k (length l) -> l !! i = Some x -> index x = k + i.
Proof.
  revert k i. induction l as [|y l IH]; intros k i Hmap Hx; [discriminate|].
  cbn in Hmap. injection Hmap as Hy Hrest.
  destruct i as [|i]; cbn in Hx.
  - injection Hx as <-. lia.
  - rewrite (IH (S k) i Hrest Hx). lia.
Qed.

(** [querySelector] by [data-index] finds the selector of that row. *)
Lemma find_by_index (sels : list DateSelector.t) (k j : nat) :
  map DateSelector.data_index sels = seq k (length sels) ->
  j < length sels ->
  List.find (fun sel => Nat.eqb (DateSelector.data_index sel) (k + j)) sels = sels !! j.
Proof.
  revert k j. induction sels as [|x r IH]; intros k j Hmap Hj; cbn in Hj; [lia|].
  cbn in Hmap. injection Hmap as Hx Hrest. cbn [List.find]. rewrite Hx.
  destruct j as [|j].
  - rewrite Nat.add_0_r, Nat.eqb_refl. reflexivity.
  - replace (k =? k + S j)%nat with false by (symmetry; apply Nat.eqb_neq; lia).
    replace (k + S j) with (S k + j) by lia.
    apply (IH (S k) j Hrest). lia.
Qed.

Lemma map_alter_same {A B} (g : A -> B) (f : A -> A) (i : nat) (l : list A) :
  (forall x, g (f x) = g x) -> map g (alter f i l) = map g l.
Proof.
  intros H. revert i. induction l as [|x l IH]; intros [|i]; cbn; try reflexivity.
  - rewrite H. reflexivity.
  - rewrite IH. reflexivity.
Qed.

Lemma imap_index {A B} (mk : nat -> B) (index : B -> nat) (l : list A) (k : nat) :
  (forall i, index (mk i) = i) ->
  map index (imap (fun i _ => mk (k + i)) l) = seq k (length l).
Proof.
  intros Hindex. revert k. induction l as [|x l IH]; intros k; cbn; [reflexivity|].
  rewrite Hindex, Nat.add_0_r. f_equal.
  rewrite <- (IH (S k)). f_equal. apply imap_ext. intros i y _. cbn.
  f_equal. lia.
Qed.

Variable getDateDaysFromNow : DateApi.

Lemma displayTodos_todoTable (todos : list Todo.t) (s : State) :
  todoTable getDateDaysFromNow (length todos) (displayTodos getDateDaysFromNow todos s)
  /\ Forall (fun sel => DateSelector.value sel = getDateDaysFromNow 1)
            (todoDateSelectors (displayTodos getDateDaysFromNow todos s)).
Proof.
  unfold todoTable, displayTodos. cbn -[imap todoDateOptions]. unfold constant.
  split; [split; [|split]|].
  - apply (imap_index (fun i => TodoCheckbox.mk i true) TodoCheckbox.data_index todos 0).
    reflexivity.
  - apply (imap_index
             (fun i => DateSelector.mk i (todoDateOptions getDateDaysFromNow)
                         (getDateDaysFromNow 1))
             DateSelector.data_index todos 0).
    reflexivity.
  - apply Forall_forall. intros sel Hsel.
    apply list_elem_of_lookup in Hsel as [i Hi].
    rewrite list_lookup_imap in Hi.
    destruct (todos !! i); cbn in Hi; [|discriminate].
    injection Hi as <-. cbn. split; [reflexivity|]. left. reflexivity.
  - apply Forall_forall. intros sel Hsel.
    apply list_elem_of_lookup in Hsel as [i Hi].
    rewrite list_lookup_imap in Hi.
    destruct (todos !! i); cbn in Hi; [|discriminate].
    injection Hi as <-. reflexivity.
Qed.

Lemma todoStep_todoTable (n : nat) (event : TodoEvent) (s : State) :
  todoTable getDateDaysFromNow n s -> todoTable getDateDaysFromNow n (todoStep event s).
Proof.
  intros (Hboxes & Hsels & Hdates). unfold todoTable.
  destruct event as [position|position choice|isChecked];
    cbn -[todoDateOptions alter In]; unfold constant.
  - split; [|split; assumption].
    rewrite map_alter_same; [exact Hboxes | reflexivity].
  - split; [exact Hboxes|]. split.
    + rewrite map_alter_same; [exact Hsels|].
      intros sel. destruct (DateSelector.options sel !! choice); reflexivity.
    + apply Forall_alter; [exact Hdates|].
      intros sel _ [Hoptions Hvalue].
      destruct (DateSelector.options sel !! choice) as [v|] eqn:Hchoice;
        cbn -[todoDateOptions In].
      * split; [exact Hoptions|].
        rewrite Hoptions in Hchoice. apply list_elem_of_In.
        apply list_elem_of_lookup. exists choice. exact Hchoice.
      * split; assumption.
  - split; [|split; assumption].
    rewrite map_map. cbn. exact Hboxes.
Qed.

Lemma todoRun_todoTable (n : nat) (events : list TodoEvent) (s : State) :
  todoTable getDateDaysFromNow n s -> todoTable getDateDaysFromNow n (todoRun events s).
Proof.
  revert s. induction events as [|event events IH]; intros s H; [exact H|].
  cbn. apply IH. apply todoStep_todoTable. exact H.
Qed.

Hypothesis dates_not_empty : forall days, getDateDaysFromNow days <> "".

Lemma todoDateOptions_truthy (v : string) :
  In v (todoDateOptions getDateDaysFromNow) -> JS.truthy (Some v) = true.
Proof.
  intros Hv. apply truthy_Some.
  destruct Hv as [<-|[<-|[<-|[<-|[]]]]]; apply dates_not_empty.
Qed.

(** On such a table, [getSelectedTodos] goes through the rows in order
    and takes from each checked row its to-do with the date of its
    selector. *)
Lemma getSelectedTodos_rows (data : Preview.t) (s : State) :
  todoTable getDateDaysFromNow (length (Preview.todos data)) s ->
  getSelectedTodos data s
  = flat_map (spec_rowTodo (Preview.todos data) (todoCheckboxes s) (todoDateSelectors s))
             (seq 0 (length (Preview.todos data))).
Proof.
  intros (Hboxes & Hsels & Hdates).
  assert (Hlen1 : length (todoCheckboxes s) = length (Preview.todos data)).
  { rewrite <- (length_map TodoCheckbox.data_index), Hboxes. apply length_seq. }
  assert (Hlen2 : length (todoDateSelectors s) = length (Preview.todos data)).
  { rewrite <- (length_map DateSelector.data_index), Hsels. apply length_seq. }
  unfold getSelectedTodos. rewrite flat_map_positions, Hlen1.
  apply flat_map_ext_in. intros i Hi. apply in_seq in Hi as [_ Hi]. cbn in Hi.
  unfold spec_rowTodo.
  destruct (lookup_lt_is_Some_2 (todoCheckboxes s) i ltac:(lia)) as [checkbox Hbox].
  destruct (lookup_lt_is_Some_2 (todoDateSelectors s) i ltac:(lia)) as [sel Hsel].
  destruct (lookup_lt_is_Some_2 (Preview.todos data) i ltac:(lia)) as [todo Htodo].
  rewrite Hbox.
  rewrite <- Hlen1 in Hboxes.
  rewrite (lookup_seq_index TodoCheckbox.data_index _ 0 i checkbox Hboxes Hbox).
  cbn [Nat.add]. rewrite Htodo, Hsel.
  destruct (TodoCheckbox.checked checkbox); [|reflexivity].
  rewrite <- Hlen2 in Hsels.
  pose proof (find_by_index _ 0 i Hsels ltac:(lia)) as Hfind.
  cbn [Nat.add] in Hfind. rewrite Hfind, Hsel. cbn [option_map].
  unfold JS.or_val.
  rewrite todoDateOptions_truthy; [reflexivity|].
  rewrite Forall_forall in Hdates.
  apply (Hdates sel). apply list_elem_of_lookup. exists i. exact Hsel.
Qed.

End TodoFacts.

(** A check box whose index has no to-do in the preview adds nothing and
    stops nothing. *)
Lemma getSelectedTodos_ignores_out_of_range (data : Preview.t) (s : State) :
  getSelectedTodos data s
  = getSelectedTodos data (s <| todoCheckboxes ::= List.filter (inRange data) |>).
Proof.
  unfold getSelectedTodos.
  set (s' := s <| todoCheckboxes ::= List.filter (inRange data) |>).
  assert (Hsels : todoDateSelectors s' = todoDateSelectors s) by reflexivity.
  assert (Hboxes : todoCheckboxes s' = List.filter (inRange data) (todoCheckboxes s))
    by reflexivity.
  rewrite Hsels, Hboxes. clear Hsels Hboxes s'.
  induction (todoCheckboxes s) as [|checkbox rest IH];
    cbn [flat_map List.filter]; [reflexivity|].
  unfold inRange at 1.
  destruct (Nat.ltb_spec (TodoCheckbox.data_index checkbox) (length (Preview.todos data)))
    as [Hin|Hout]; cbn [flat_map].
  - rewrite IH. reflexivity.
  - rewrite <- IH.
    destruct (TodoCheckbox.checked checkbox); [|reflexivity].
    rewrite (lookup_ge_None_2 (Preview.todos data) _ Hout). reflexivity.
Qed.

(** C10.  Let the to-do table be rendered for a preview and then changed
    by the user in any way (boxes toggled, dates chosen, select-all).
    Rendering puts tomorrow in every date selector, and afterwards every
    selector still holds one of the four offered dates (1, 7, 30 or 90
    days ahead).  The to-dos collected for the request are, row by row in
    order, the parsed to-do of each checked row with its due date replaced
    by the date of that row's selector; unchecked rows give nothing, and
    the parsed due date is never used.  These are the to-dos of the
    payload when to-dos are enabled.  On any page whatsoever, check boxes
    whose index has no to-do in the preview can be removed without
    changing what is collected. *)
Theorem payload_todos_carry_selector_dates
    (dates : DateApi) (preview : Preview.t) (events : list TodoEvent) (s : State) :
  (forall days, dates days <> "") ->
  let todos := Preview.todos preview in
  let rendered := displayTodos dates todos s in
  let s' := todoRun events rendered in
  Forall (fun sel => DateSelector.value sel = dates 1) (todoDateSelectors rendered)
  /\ length (todoCheckboxes s') = length todos
  /\ length (todoDateSelectors s') = length todos
  /\ Forall (fun sel => In (DateSelector.value sel) [dates 1; dates 7; dates 30; dates 90])
            (todoDateSelectors s')
  /\ getSelectedTodos preview s'
     = flat_map (spec_rowTodo todos (todoCheckboxes s') (todoDateSelectors s'))
                (seq 0 (length todos))
  /\ NotionPayload.todos (Payload.notion (buildPayload preview s'))
     = (if shouldCreateTodos s' then getSelectedTodos preview s' else [])
  /\ (forall (data : Preview.t) (page : State),
         getSelectedTodos data page
         = getSelectedTodos data (page <| todoCheckboxes ::= List.filter (inRange data) |>)).
Proof.
  intros Hdates todos rendered s'.
  destruct (displayTodos_todoTable dates todos s) as [Hrendered Htomorrow].
  fold rendered in Hrendered, Htomorrow.
  pose proof (todoRun_todoTable dates _ events _ Hrendered) as Htable.
  fold s' in Htable.
  split; [exact Htomorrow|].
  destruct Htable as (Hboxes & Hsels & Hvalues).
  split; [rewrite <- (length_map TodoCheckbox.data_index), Hboxes; apply length_seq|].
  split; [rewrite <- (length_map DateSelector.data_index), Hsels; apply length_seq|].
  split; [eapply Forall_impl; [exact Hvalues|]; intros sel [_ H]; exact H|].
  split; [apply (getSelectedTodos_rows dates Hdates); repeat split; assumption|].
  split; [reflexivity|].
  apply getSelectedTodos_ignores_out_of_range.
Qed.

Lemma payload_todos_carry_selector_dates_witness :
  let s' := todoRun [ChooseDate 0 1; ToggleTodo 1]
              (displayTodos Session.dates (Preview.todos Session.preview)
                 (handleProcessNotes Session.dates "Call with Ann and Bob"
                    (Some Session.preview) Session.pageLoaded)) in
  Forall (fun sel => In (DateSelector.value sel)
                        ["2025-03-02"; "2025-03-08"; "2025-03-31"; "2025-05-30"])
         (todoDateSelectors s')
  /\ getSelectedTodos Session.preview s'
     = [Todo.mk (Some "Send deck") (Some "2025-03-08") (Some "Email")]
  /\ NotionPayload.todos (Payload.notion (buildPayload Session.preview s'))
     = [Todo.mk (Some "Send deck") (Some "2025-03-08") (Some "Email")].
Proof.
  intros s'.
  destruct (payload_todos_carry_selector_dates Session.dates Session.preview
              [ChooseDate 0 1; ToggleTodo 1]
              (handleProcessNotes Session.dates "Call with Ann and Bob"
                 (Some Session.preview) Session.pageLoaded))
    as (_ & _ & _ & Hvalues & Hrows & Hpayload & _).
  - intros days. discriminate.
  - fold s' in Hvalues, Hrows, Hpayload.
    split; [exact Hvalues|].
    split; [rewrite Hrows | rewrite Hpayload, Hrows]; reflexivity.
Defined.

(** * Properties of the whole tab *)

(** ** The chosen action is kept in one piece *)

Lemma actionKept_sync (s s' : State) :
  actionKept s s' -> actionInSync s -> actionInSync s'.
Proof.
  unfold actionKept, actionView, actionInSync.
  intros [[= H1 H2 H3]|[= H1 H2 H3]] [Hradio Hdeal]; rewrite H1, H2, H3.
  - split; assumption.
  - split; reflexivity.
Qed.

(** Apart from a new preview and a change of the radio, an event leaves
    the action alone or puts the default back. *)
Lemma step_actionKept dates (event : Event) (s : State) :
  match event with
  | ProcessNotes _ _ | HubSpotActionChange _ _ => True
  | _ => actionKept s (step dates event s)
  end.
Proof.
  destruct event; try exact I.
  all: same_view.
Qed.

Lemma displayPreview_steps dates preview (s : State) :
  displayPreview dates preview s
  = match displayPreferences preview
            (displayParsedDeals dates preview
               (displayContactSection preview (resetForPreview s))) with
    | (s1, Thrown) => (s1, Thrown)
    | (s1, Normal) =>
        (showResults (updateExecutionSummary
                        (displayTodos dates (Preview.todos preview) s1)), Normal)
    end.
Proof. reflexivity. Qed.

Lemma displayPreview_actionView dates preview (s : State) :
  actionView (fst (displayPreview dates preview s)) = (Some log_only, log_only, true).
Proof.
  rewrite displayPreview_steps.
  assert (H0 : actionView (resetForPreview s) = (Some log_only, log_only, true))
    by reflexivity.
  assert (H1 : actionView (displayContactSection preview (resetForPreview s))
               = (Some log_only, log_only, true)).
  { revert H0. generalize (resetForPreview s). intros s0 H0.
    assert (Hkept : actionKept s0 (displayContactSection preview s0)).
    { unfold displayContactSection. same_view. }
    destruct Hkept as [Hkept|Hkept]; rewrite Hkept; [exact H0 | reflexivity]. }
  assert (H2 : actionView (displayParsedDeals dates preview
                             (displayContactSection preview (resetForPreview s)))
               = (Some log_only, log_only, true)).
  { rewrite <- H1. generalize (displayContactSection preview (resetForPreview s)).
    intros s1. unfold displayParsedDeals. same_view. }
  rewrite <- H2.
  generalize (displayParsedDeals dates preview
                (displayContactSection preview (resetForPreview s))).
  intros s2. unfold displayPreferences, displayTodos.
  same_view.
Qed.

Lemma handleProcessNotes_actionInSync dates notes response (s : State) :
  actionInSync s -> actionInSync (handleProcessNotes dates notes response s).
Proof.
  intros H. unfold handleProcessNotes.
  destruct (String.eqb (JS.trim notes) ""); [exact H|].
  destruct (enableHubspotNoteCheckbox s) as [b1|]; [|exact H].
  destruct (enableInvestorPrefsCheckbox s) as [b2|]; [|exact H].
  destruct (enableTodosCheckbox s) as [b3|]; [|exact H].
  destruct response as [preview|].
  - match goal with |- actionInSync (fst (displayPreview _ _ ?t)) =>
      pose proof (displayPreview_actionView dates preview t) as Hview;
      generalize dependent (fst (displayPreview dates preview t)) end.
    intros s' Hview. unfold actionView in Hview. injection Hview as H1 H2 H3.
    unfold actionInSync. rewrite H1, H2, H3. split; reflexivity.
  - apply (actionKept_sync s); [left; reflexivity | exact H].
Qed.

Lemma step_actionInSync dates (event : Event) (s : State) :
  actionInSync s -> actionInSync (step dates event s).
Proof.
  intros H.
  pose proof (step_actionKept dates event s) as Hkept.
  destruct event; try (apply (actionKept_sync _ _ Hkept H)).
  - apply handleProcessNotes_actionInSync. exact H.
  - cbn [step]. unfold handleHubSpotActionChange, fetchDealsForContact, updateExecutionSummary,
      actionInSync.
    destruct value, dealsResponse; split; reflexivity.
Qed.

(** X1.  After a preview has been rendered, and whatever happens on the
    tab afterwards, the checked radio is the value of [hubspotAction],
    the deal selection is open exactly when that value is
    'log_with_deal', and the action that confirm-and-execute reads is
    that value, or 'skip' when the HubSpot master box is off. *)
Theorem action_stays_in_sync
    (dates : DateApi) (preview : Preview.t) (events : list Event) (s : State) :
  let s' := run dates events (fst (displayPreview dates preview s)) in
  hubspotActionRadio s' = Some (hubspotAction s')
  /\ dealSelection_hidden s' = negb (HubspotAction_eqb (hubspotAction s') log_with_deal)
  /\ confirmHubspotAction s'
     = (if negb (default true (enableHubspotNoteCheckbox s')) then skip
        else hubspotAction s').
Proof.
  cbn zeta.
  assert (Hsync : actionInSync (run dates events (fst (displayPreview dates preview s)))).
  { assert (H0 : actionInSync (fst (displayPreview dates preview s))).
    { pose proof (displayPreview_actionView dates preview s) as Hview.
      unfold actionView in Hview. injection Hview as H1 H2 H3.
      unfold actionInSync. rewrite H1, H2, H3. split; reflexivity. }
    revert H0. generalize (fst (displayPreview dates preview s)).
    induction events as [|event events IH]; intros s0 H0; [exact H0|].
    cbn. apply IH. apply step_actionInSync. exact H0. }
  destruct Hsync as [Hradio Hdeal].
  split; [exact Hradio|]. split; [exact Hdeal|].
  unfold confirmHubspotAction. rewrite Hradio. reflexivity.
Qed.

(** ** The to-do table follows the preview *)

Lemma todoTable_view dates n (s s' : State) :
  todoView s' = todoView s -> todoTable dates n s -> todoTable dates n s'.
Proof.
  unfold todoView, todoTable. intros [= _ H1 H2]. rewrite H1, H2. exact (fun H => H).
Qed.

(** Apart from a new preview, leaving the preview, and the to-do table
    itself, no event touches the preview held or the to-do table. *)
Lemma step_todoView dates (event : Event) (s : State) :
  match event with
  | ProcessNotes _ _ | TodoTableEvent _ | Cancel | NewNotes => True
  | _ => todoView (step dates event s) = todoView s
  end.
Proof.
  destruct event; try exact I.
  all: same_view.
Qed.

Lemma todoView_processedData (s s' : State) :
  todoView s' = todoView s -> processedData s' = processedData s.
Proof. unfold todoView. intros [= H _ _]. exact H. Qed.

Lemma displayContactSection_todoView preview (s : State) :
  todoView (displayContactSection preview s) = todoView s.
Proof. unfold displayContactSection. same_view. Qed.

Lemma displayParsedDeals_todoView dates preview (s : State) :
  todoView (displayParsedDeals dates preview s) = todoView s.
Proof. unfold displayParsedDeals. same_view. Qed.

Lemma displayPreferences_processedData preview (s : State) :
  processedData (fst (displayPreferences preview s)) = processedData s.
Proof. unfold displayPreferences. same_view. Qed.

Lemma displayPreview_todos dates preview (s : State) :
  notes_is_text (Preview.preferences preview) = true ->
  processedData (fst (displayPreview dates preview s)) = processedData s
  /\ todoTable dates (length (Preview.todos preview)) (fst (displayPreview dates preview s)).
Proof.
  intros Htext. rewrite displayPreview_steps.
  pose proof (hasPreferences_spec _ Htext) as Hhas.
  set (s2 := displayParsedDeals dates preview
               (displayContactSection preview (resetForPreview s))).
  assert (Hdata : processedData s2 = processedData s).
  { pose proof (displayParsedDeals_todoView dates preview
                  (displayContactSection preview (resetForPreview s))) as H2.
    pose proof (displayContactSection_todoView preview (resetForPreview s)) as H1.
    fold s2 in H2. unfold todoView in H1, H2.
    injection H1 as H1 _ _. injection H2 as H2 _ _. rewrite H2, H1. reflexivity. }
  pose proof (displayPreferences_processedData preview s2) as Hprefs.
  assert (Hnormal : snd (displayPreferences preview s2) = Normal).
  { unfold displayPreferences. rewrite Hhas. case_atoms; reflexivity. }
  destruct (displayPreferences preview s2) as [s3 c]. cbn [fst snd] in *. subst c.
  cbn [fst]. split.
  - rewrite <- Hdata, <- Hprefs. reflexivity.
  - eapply todoTable_view; [|apply displayTodos_todoTable]. reflexivity.
Qed.

Lemma step_todosMatchPreview dates (event : Event) (s : State) :
  renderable event ->
  todosMatchPreview dates s -> todosMatchPreview dates (step dates event s).
Proof.
  intros Hrender Hinv.
  pose proof (step_todoView dates event s) as Hview.
  destruct event; cbn [step] in *;
    try (intros data Hdata; eapply todoTable_view; [exact Hview|];
         apply Hinv; rewrite <- (todoView_processedData _ _ Hview); exact Hdata).
  - (* ProcessNotes *)
    cbn [step]. unfold handleProcessNotes.
    destruct (String.eqb (JS.trim notes) ""); [exact Hinv|].
    destruct (enableHubspotNoteCheckbox s) as [b1|]; [|exact Hinv].
    destruct (enableInvestorPrefsCheckbox s) as [b2|]; [|exact Hinv].
    destruct (enableTodosCheckbox s) as [b3|]; [|exact Hinv].
    destruct response as [preview|].
    + cbn in Hrender. intros data Hdata.
      match type of Hdata with processedData (fst (displayPreview _ _ ?t)) = _ =>
        destruct (displayPreview_todos dates preview t Hrender) as [Hp Htable] end.
      rewrite Hp in Hdata. cbn in Hdata. injection Hdata as <-. exact Htable.
    + intros data Hdata. eapply todoTable_view; [|apply (Hinv data Hdata)]. reflexivity.
  - (* TodoTableEvent *)
    cbn [step]. intros data Hdata.
    apply todoStep_todoTable. apply Hinv.
    destruct event; exact Hdata.
  - (* Cancel *)
    intros data Hdata. discriminate Hdata.
  - (* NewNotes *)
    intros data Hdata. discriminate Hdata.
Qed.

Lemma run_todosMatchPreview dates (events : list Event) (s : State) :
  Forall renderable events ->
  todosMatchPreview dates s -> todosMatchPreview dates (run dates events s).
Proof.
  revert s. induction events as [|event events IH]; intros s Hall Hinv; [exact Hinv|].
  apply Forall_cons in Hall as [Hevent Hall].
  cbn. apply IH; [exact Hall|]. apply step_todosMatchPreview; assumption.
Qed.

(** X2.  Start from a page that holds no preview and let anything happen
    on the tab, every preview that arrives being renderable.  If
    confirm-and-execute then sends a request, its to-dos are, when to-dos
    are enabled, the to-dos of the checked rows of the preview held, in
    order, each with the date of its row's selector, and that date is one
    of the four dates offered; otherwise there are none. *)
Theorem session_todos_follow_the_table
    (dates : DateApi) (events : list Event) (s0 s' : State) (payload : Payload.t) :
  (forall days, dates days <> "") ->
  processedData s0 = None ->
  Forall renderable events ->
  let s := run dates events s0 in
  handleConfirmAndExecute s = (s', Dispatched payload) ->
  exists data,
    processedData s = Some data
    /\ NotionPayload.todos (Payload.notion payload)
       = (if shouldCreateTodos s
          then flat_map (spec_rowTodo (Preview.todos data) (todoCheckboxes s)
                                      (todoDateSelectors s))
                        (seq 0 (length (Preview.todos data)))
          else [])
    /\ Forall (fun selector =>
                 In (DateSelector.value selector)
                    [dates 1; dates 7; dates 30; dates 90])
              (todoDateSelectors s).
Proof.
  intros Hdates Hnone Hall s Hconfirm.
  assert (Hinv : todosMatchPreview dates s).
  { apply run_todosMatchPreview; [exact Hall|].
    intros data Hdata. rewrite Hnone in Hdata. discriminate. }
  destruct (handleConfirmAndExecute_dispatched _ _ _ Hconfirm) as (data & Hdata & ->).
  exists data. split; [exact Hdata|].
  specialize (Hinv data Hdata).
  split.
  - change (NotionPayload.todos (Payload.notion (buildPayload data s)))
      with (if shouldCreateTodos s then getSelectedTodos data s else []).
    rewrite (getSelectedTodos_rows dates Hdates data s Hinv). reflexivity.
  - destruct Hinv as (_ & _ & Hvalues).
    eapply Forall_impl; [exact Hvalues|]. intros selector [_ H]. exact H.
Qed.

Lemma session_todos_follow_the_table_witness :
  let s := run Session.dates
             [ProcessNotes "Call with Ann and Bob" (Some Session.preview);
              ContactSelection 1;
              TodoTableEvent (ChooseDate 0 1);
              TodoTableEvent (ToggleTodo 1)]
             Session.pageLoaded in
  NotionPayload.todos (Payload.notion (buildPayload Session.preview s))
  = [Todo.mk (Some "Send deck") (Some "2025-03-08") (Some "Email")].
Proof.
  intros s.
  destruct (session_todos_follow_the_table Session.dates
              [ProcessNotes "Call with Ann and Bob" (Some Session.preview);
               ContactSelection 1;
               TodoTableEvent (ChooseDate 0 1);
               TodoTableEvent (ToggleTodo 1)]
              Session.pageLoaded (fst (handleConfirmAndExecute s))
              (buildPayload Session.preview s))
    as (data & Hdata & Htodos & _).
  - intros days. discriminate.
  - reflexivity.
  - repeat constructor.
  - vm_compute. reflexivity.
  - rewrite Htodos.
    assert (Hpreview : Some data = Some Session.preview).
    { rewrite <- Hdata. reflexivity. }
    injection Hpreview as ->. reflexivity.
Defined.

(** ** Confirming without a contact *)

Lemma confirm_blocked_no_contact_no_deal (s : State) :
  confirmHubspotAction s <> skip ->
  JS.truthy (selectedContactId s) = false ->
  JS.truthy (selectedDealId s) = false ->
  handleConfirmAndExecute s
  = (showPreviewError msg_select_contact_or_deal s, Blocked msg_select_contact_or_deal).
Proof.
  intros Haction Hcontact Hdeal.
  apply HubspotAction_eqb_neq in Haction.
  unfold handleConfirmAndExecute.
  rewrite Haction, Hcontact, Hdeal. reflexivity.
Qed.

(** X3.  The skip card records the skip flag and clears the contact, and
    the summary then announces that HubSpot will be skipped; but
    confirm-and-execute does not look at the flag: as long as the action
    it reads is not 'skip' and no deal is selected, confirming right
    after the skip card stops with the message asking for a contact or a
    deal. *)
Theorem skip_card_leaves_confirm_blocked
    (selectedDeal : option (string * string)) (s : State) :
  confirmHubspotAction s <> skip ->
  JS.truthy (selectedDealId s) = false ->
  let s' := handleContactOptionClick "skip" s in
  skipHubspot s' = true
  /\ selectedContactId s' = None
  /\ head (executionSummary selectedDeal s') = Some summary_hubspot_skipped
  /\ handleConfirmAndExecute s'
     = (showPreviewError msg_select_contact_or_deal s', Blocked msg_select_contact_or_deal).
Proof.
  intros Haction Hdeal s'.
  split; [reflexivity|]. split; [reflexivity|]. split.
  { unfold executionSummary. change (skipHubspot s') with true.
    rewrite orb_true_r. reflexivity. }
  apply confirm_blocked_no_contact_no_deal.
  - exact Haction.
  - reflexivity.
  - exact Hdeal.
Qed.

Lemma skip_card_leaves_confirm_blocked_witness :
  let s' := handleContactOptionClick "skip"
              (fst (displayPreview Session.dates Session.preview Session.pageLoaded)) in
  skipHubspot s' = true
  /\ selectedContactId s' = None
  /\ head (executionSummary None s') = Some summary_hubspot_skipped
  /\ handleConfirmAndExecute s'
     = (showPreviewError msg_select_contact_or_deal s', Blocked msg_select_contact_or_deal).
Proof.
  apply (skip_card_leaves_confirm_blocked None
           (fst (displayPreview Session.dates Session.preview Session.pageLoaded))).
  - vm_compute. discriminate.
  - reflexivity.
Defined.

Lemma displayParsedDeals_confirmView dates preview (s : State) :
  confirmView (displayParsedDeals dates preview s) = confirmView s.
Proof. unfold displayParsedDeals. same_view. Qed.

Lemma displayPreferences_confirmView preview (s : State) :
  confirmView (fst (displayPreferences preview s)) = confirmView s.
Proof. unfold displayPreferences. same_view. Qed.

Lemma displayPreview_confirmView dates preview (s : State) :
  confirmView (fst (displayPreview dates preview s))
  = confirmView (displayContactSection preview (resetForPreview s)).
Proof.
  rewrite displayPreview_steps.
  rewrite <- (displayParsedDeals_confirmView dates preview
                (displayContactSection preview (resetForPreview s))).
  rewrite <- (displayPreferences_confirmView preview
                (displayParsedDeals dates preview
                   (displayContactSection preview (resetForPreview s)))).
  destruct (displayPreferences preview
              (displayParsedDeals dates preview
                 (displayContactSection preview (resetForPreview s)))) as [s3 [|]];
    reflexivity.
Qed.

Lemma handleSearchAgain_fruitless query response (s : State) :
  fruitless response -> handleSearchAgain query response s = s.
Proof.
  intros H. unfold handleSearchAgain.
  destruct (String.eqb (JS.trim query) ""); [reflexivity|].
  destruct response as [data|]; [|reflexivity].
  cbn in H. rewrite H. reflexivity.
Qed.

(** X4.  A preview without a contact match leaves no contact and no deal
    selected, and searches that find nothing change nothing: after any
    number of them confirm-and-execute stops with the message asking for
    a contact or a deal, unless the HubSpot master box is off. *)
Theorem fruitless_searches_leave_confirm_blocked
    (dates : DateApi) (preview : Preview.t)
    (searches : list (string * option SearchContactResponse.t)) (s : State) :
  Preview.hubspot_contacts preview = [] ->
  enableHubspotNoteCheckbox s <> Some false ->
  Forall (fun search => fruitless (snd search)) searches ->
  let s' := fold_left (fun s search => handleSearchAgain (fst search) (snd search) s)
                      searches (fst (displayPreview dates preview s)) in
  selectedContactId s' = None
  /\ noContactDiv_hidden s' = false
  /\ handleConfirmAndExecute s'
     = (showPreviewError msg_select_contact_or_deal s', Blocked msg_select_contact_or_deal).
Proof.
  intros Hcontacts Hmaster Hall. cbn zeta.
  assert (Hfold : fold_left (fun s search => handleSearchAgain (fst search) (snd search) s)
                    searches (fst (displayPreview dates preview s))
                  = fst (displayPreview dates preview s)).
  { generalize (fst (displayPreview dates preview s)).
    induction Hall as [|search searches Hsearch _ IH]; intros s0; [reflexivity|].
    cbn. rewrite (handleSearchAgain_fruitless _ _ _ Hsearch). apply IH. }
  rewrite Hfold.
  pose proof (displayPreview_confirmView dates preview s) as Hview.
  pose proof (displayPreview_actionView dates preview s) as Haction.
  assert (Hnone : noContactDiv_hidden (fst (displayPreview dates preview s)) = false).
  { rewrite displayPreview_steps.
    assert (H1 : noContactDiv_hidden (displayContactSection preview (resetForPreview s))
                 = false).
    { unfold displayContactSection. rewrite Hcontacts. reflexivity. }
    rewrite <- H1.
    generalize (displayContactSection preview (resetForPreview s)). intros s1.
    transitivity (noContactDiv_hidden (displayParsedDeals dates preview s1)).
    - generalize (displayParsedDeals dates preview s1). intros s2.
      unfold displayPreferences, displayTodos. same_view.
    - unfold displayParsedDeals. same_view. }
  assert (Hreset : confirmView (displayContactSection preview (resetForPreview s))
                   = (None, None, enableHubspotNoteCheckbox s)).
  { unfold displayContactSection. rewrite Hcontacts. reflexivity. }
  rewrite Hreset in Hview. clear Hreset.
  revert Hview Haction Hnone.
  generalize (fst (displayPreview dates preview s)). intros s' Hview Haction Hnone.
  unfold confirmView in Hview. injection Hview as Hid Hdeal Hbox.
  unfold actionView in Haction. injection Haction as Hradio _ _.
  split; [exact Hid|]. split; [exact Hnone|].
  apply confirm_blocked_no_contact_no_deal.
  - unfold confirmHubspotAction. rewrite Hradio, Hbox.
    destruct (enableHubspotNoteCheckbox s) as [[|]|]; cbn; try discriminate.
    contradiction Hmaster. reflexivity.
  - rewrite Hid. reflexivity.
  - rewrite Hdeal. reflexivity.
Qed.

Lemma fruitless_searches_leave_confirm_blocked_witness :
  let s' := fold_left (fun s search => handleSearchAgain (fst search) (snd search) s)
                      [("Ann", None); ("Lee", Some (SearchContactResponse.mk 0 []))]
                      (fst (displayPreview Session.dates
                              (Preview.mk None [] None None [] [] None [] None [])
                              Session.pageLoaded)) in
  selectedContactId s' = None
  /\ noContactDiv_hidden s' = false
  /\ handleConfirmAndExecute s'
     = (showPreviewError msg_select_contact_or_deal s', Blocked msg_select_contact_or_deal).
Proof.
  apply (fruitless_searches_leave_confirm_blocked Session.dates
           (Preview.mk None [] None None [] [] None [] None [])
           [("Ann", None); ("Lee", Some (SearchContactResponse.mk 0 []))]
           Session.pageLoaded).
  - reflexivity.
  - discriminate.
  - repeat constructor.
Defined.

(** ** Without a preview nothing is sent *)

(** X5.  Confirm-and-execute sends nothing while no preview is held: it
    stops with one of its four messages.  This is the case after cancel
    and after starting over with new notes. *)
Theorem no_preview_no_request (s : State) :
  processedData s = None ->
  exists message,
    In message [msg_select_at_least_one_action; msg_select_contact_or_deal;
                msg_select_deal; msg_no_data]
    /\ handleConfirmAndExecute s = (showPreviewError message s, Blocked message).
Proof.
  intros Hnone. unfold handleConfirmAndExecute. rewrite Hnone.
  case_atoms; eexists; (split; [|reflexivity]); cbn; auto 6.
Qed.

Lemma no_preview_no_request_witness :
  (exists message,
      In message [msg_select_at_least_one_action; msg_select_contact_or_deal;
                  msg_select_deal; msg_no_data]
      /\ handleConfirmAndExecute (handleCancel Session.dealPicked)
         = (showPreviewError message (handleCancel Session.dealPicked), Blocked message))
  /\ (exists message,
         In message [msg_select_at_least_one_action; msg_select_contact_or_deal;
                     msg_select_deal; msg_no_data]
         /\ handleConfirmAndExecute (handleNewNotes Session.dealPicked)
            = (showPreviewError message (handleNewNotes Session.dealPicked),
               Blocked message)).
Proof.
  split; apply no_preview_no_request; reflexivity.
Defined.


(** ** Choosing a contact *)

Lemma append_space_not_empty (a b : string) : a ++ " " ++ b <> "".
Proof. destruct a; discriminate. Qed.

Lemma showHubSpotActionsCard_shown (s : State) :
  JS.truthy (selectedContactId s) = true ->
  JS.truthy (selectedContactName s) = true ->
  let s' := showHubSpotActionsCard s in
  contactView s' = (selectedContactId s, selectedContactName s, false, false,
                    singleContactDiv_hidden s)
  /\ actionView s' = (Some log_only, log_only, true)
  /\ selectedDealId s' = None
  /\ previewErrorMessage s' = previewErrorMessage s.
Proof.
  intros Hid Hname. cbn zeta. unfold showHubSpotActionsCard.
  rewrite Hid, Hname. cbn [negb orb].
  unfold updateTaskTitle, updateExecutionSummary. cbv beta zeta.
  case_atoms; repeat split.
Qed.

(** X7.  A contact that the create endpoint returns with an id becomes
    the selected contact: the skip flag is off, the actions card is shown
    with 'log_only' checked and no deal selected, and the error banner is
    hidden.  For a contact that did not exist the name is the trimmed
    first and last name of the form. *)
Theorem created_contact_is_selected
    (newEmail newFirstname newLastname newCompany : string)
    (data : CreateContactResponse.t) (id : string) (s : State) :
  JS.trim newEmail <> "" ->
  JS.trim newFirstname <> "" ->
  JS.trim newLastname <> "" ->
  CreateContactResponse.contact_id data = Some id ->
  id <> "" ->
  let s' := handleCreateContact newEmail newFirstname newLastname newCompany
              (Answered data) s in
  selectedContactId s' = Some id
  /\ contactMode s' = contact_selected
  /\ hubspotActionsCard_hidden s' = false
  /\ actionView s' = (Some log_only, log_only, true)
  /\ selectedDealId s' = None
  /\ previewErrorMessage s' = None
  /\ (CreateContactResponse.already_exists data = false ->
      selectedContactName s' = Some (JS.trim newFirstname ++ " " ++ JS.trim newLastname)).
Proof.
  intros Hemail Hfirst Hlast Hid Hne. cbn zeta.
  apply String.eqb_neq in Hemail, Hfirst, Hlast.
  unfold handleCreateContact. rewrite Hemail, Hfirst, Hlast. cbn [orb].
  assert (Htruthy : JS.truthy (Some id) = true) by (apply truthy_Some; exact Hne).
  destruct (CreateContactResponse.already_exists data);
    match goal with
    | |- context [showHubSpotActionsCard ?s1] =>
        destruct (showHubSpotActionsCard_shown s1) as (Hcontact & Haction & Hdeal & Hbanner);
        [ change (JS.truthy (CreateContactResponse.contact_id data) = true);
          rewrite Hid; exact Htruthy
        | apply truthy_Some, append_space_not_empty
        | generalize dependent (showHubSpotActionsCard s1) ]
    end;
    intros s' Hcontact Haction Hdeal Hbanner;
    unfold contactView in Hcontact; injection Hcontact as H1 H2 H3 H4 _;
    change (selectedContactId s' = CreateContactResponse.contact_id data) in H1;
    unfold contactMode; rewrite H1, H3, Hid, Htruthy;
    repeat split; try assumption; try discriminate.
  intros _. exact H2.
Qed.

Lemma created_contact_is_selected_witness :
  let s' := handleCreateContact " ann@acme.example " "Ann" "Archer " ""
              (Answered (CreateContactResponse.mk (Some "9001") false None))
              Session.pageLoaded in
  selectedContactId s' = Some "9001"
  /\ contactMode s' = contact_selected
  /\ hubspotActionsCard_hidden s' = false
  /\ actionView s' = (Some log_only, log_only, true)
  /\ selectedDealId s' = None
  /\ previewErrorMessage s' = None
  /\ (false = false -> selectedContactName s' = Some "Ann Archer").
Proof.
  apply (created_contact_is_selected " ann@acme.example " "Ann" "Archer " ""
           (CreateContactResponse.mk (Some "9001") false None) "9001" Session.pageLoaded);
    first [discriminate | reflexivity].
Defined.

Lemma before_empty (sep text : string) : JS.before sep text <> "" -> text <> "".
Proof. intros H ->. apply H. reflexivity. Qed.

(** X8.  Choosing a contact in the dropdown selects it under the name
    that stands before ' - ' in the option text, shows the actions card,
    and puts the action back to 'log_only' with no deal selected. *)
Theorem selecting_a_contact_resets_the_deal
    (selectedIndex : nat) (value textContent : string) (s : State) :
  contactSelect s !! selectedIndex = Some (value, textContent) ->
  value <> "" ->
  JS.before " - " textContent <> "" ->
  let s' := handleContactSelection selectedIndex s in
  selectedContactId s' = Some value
  /\ selectedContactName s' = Some (JS.before " - " textContent)
  /\ contactMode s' = contact_selected
  /\ hubspotActionsCard_hidden s' = false
  /\ actionView s' = (Some log_only, log_only, true)
  /\ selectedDealId s' = None.
Proof.
  intros Hoption Hvalue Hname. cbn zeta.
  pose proof (before_empty _ _ Hname) as Htext. apply String.eqb_neq in Htext.
  assert (Htruthy : JS.truthy (Some value) = true) by (apply truthy_Some; exact Hvalue).
  unfold handleContactSelection. rewrite Hoption, Htext. cbv beta zeta.
  change (JS.truthy (selectedContactId _)) with (JS.truthy (Some value)).
  rewrite Htruthy.
  match goal with
  | |- context [showHubSpotActionsCard ?s1] =>
      destruct (showHubSpotActionsCard_shown s1) as (Hcontact & Haction & Hdeal & _);
      [ exact Htruthy | apply truthy_Some; exact Hname
      | generalize dependent (showHubSpotActionsCard s1) ]
  end.
  intros s' Hcontact Haction Hdeal.
  unfold contactView in Hcontact. injection Hcontact as H1 H2 H3 H4 _.
  change (selectedContactId s' = Some value) in H1.
  change (selectedContactName s' = Some (JS.before " - " textContent)) in H2.
  unfold contactMode. rewrite H1, H3, Htruthy.
  repeat split; assumption.
Qed.

Lemma selecting_a_contact_resets_the_deal_witness :
  let s' := handleContactSelection 2 Session.dealPicked in
  selectedContactId s' = Some "102"
  /\ selectedContactName s' = Some "Bob Ray"
  /\ contactMode s' = contact_selected
  /\ hubspotActionsCard_hidden s' = false
  /\ actionView s' = (Some log_only, log_only, true)
  /\ selectedDealId s' = None.
Proof.
  apply (selecting_a_contact_resets_the_deal 2 "102"
           "Bob Ray - bob@acme.com (Acme)" Session.dealPicked).
  - reflexivity.
  - discriminate.
  - discriminate.
Defined.

(** X9.  Going back to the placeholder of the contact dropdown leaves no
    contact selected (the id is the empty string), but changes neither the actions card nor the
    action, nor the selected deal: the branch that would refresh the card
    is not taken. *)
Theorem placeholder_unselects_contact_only
    (selectedIndex : nat) (textContent : string) (s : State) :
  contactSelect s !! selectedIndex = Some ("", textContent) ->
  let s' := handleContactSelection selectedIndex s in
  selectedContactId s' = Some ""
  /\ hubspotActionsCard_hidden s' = hubspotActionsCard_hidden s
  /\ actionView s' = actionView s
  /\ selectedDealId s' = selectedDealId s
  /\ skipHubspot s' = skipHubspot s.
Proof.
  intros Hoption. cbn zeta. unfold handleContactSelection. rewrite Hoption.
  cbv beta zeta. destruct (String.eqb textContent ""); repeat split.
Qed.

Lemma placeholder_unselects_contact_only_witness :
  let s' := handleContactSelection 0 Session.dealPicked in
  selectedContactId s' = Some ""
  /\ hubspotActionsCard_hidden s' = hubspotActionsCard_hidden Session.dealPicked
  /\ actionView s' = actionView Session.dealPicked
  /\ selectedDealId s' = selectedDealId Session.dealPicked
  /\ skipHubspot s' = skipHubspot Session.dealPicked.
Proof.
  apply (placeholder_unselects_contact_only 0 "Select a contact..." Session.dealPicked).
  reflexivity.
Defined.

(** ** The to-do table: select all, toggling and counting *)

Section TodoSelection.
Local Open Scope list_scope.

Variable getDateDaysFromNow : DateApi.
Hypothesis dates_not_empty : forall days, getDateDaysFromNow days <> "".

Lemma flat_map_nil {A B} (f : A -> list B) (l : list A) :
  (forall x, In x l -> f x = []) -> flat_map f l = [].
Proof.
  induction l as [|x l IH]; cbn; intros H; [reflexivity|].
  rewrite (H x) by (left; reflexivity).
  apply IH. intros y Hy. apply H. right. exact Hy.
Qed.

Lemma flat_map_zip_with {A B C} (f : A -> B -> C) (l : list A) (k : list B) :
  flat_map (fun i => match l !! i, k !! i with
                     | Some x, Some y => [f x y]
                     | _, _ => []
                     end) (seq 0 (length l))
  = zip_with f l k.
Proof.
  revert k. induction l as [|x l IH]; intros k; [reflexivity|].
  cbn [length seq flat_map]. rewrite <- seq_shift, flat_map_map.
  destruct k as [|y k].
  - cbn. apply flat_map_nil. intros i _. destruct (l !! i); reflexivity.
  - cbn. f_equal. apply IH.
Qed.

Lemma todoTable_lengths (n : nat) (s : State) :
  todoTable getDateDaysFromNow n s ->
  length (todoCheckboxes s) = n /\ length (todoDateSelectors s) = n.
Proof.
  intros (Hboxes & Hsels & _). split.
  - rewrite <- (length_map TodoCheckbox.data_index), Hboxes. apply length_seq.
  - rewrite <- (length_map DateSelector.data_index), Hsels. apply length_seq.
Qed.

(** X10.  On the to-do table of a preview, after select-all is checked
    every to-do of the preview is collected, in order, each with the date
    of its selector; after it is unchecked none is. *)
Theorem select_all_collects_all_or_none
    (data : Preview.t) (isChecked : bool) (s : State) :
  todoTable getDateDaysFromNow (length (Preview.todos data)) s ->
  getSelectedTodos data (handleSelectAllTodos isChecked s)
  = if isChecked
    then zip_with (fun todo sel => todo <| Todo.due_date := Some (DateSelector.value sel) |>)
                  (Preview.todos data) (todoDateSelectors s)
    else [].
Proof.
  intros Htable.
  pose proof (todoStep_todoTable getDateDaysFromNow _ (SelectAll isChecked) s Htable)
    as Htable'.
  cbn [todoStep] in Htable'.
  rewrite (getSelectedTodos_rows getDateDaysFromNow dates_not_empty data _ Htable').
  destruct (todoTable_lengths _ _ Htable) as [Hboxes _].
  change (todoDateSelectors (handleSelectAllTodos isChecked s)) with (todoDateSelectors s).
  change (todoCheckboxes (handleSelectAllTodos isChecked s))
    with (map (fun cb => cb <| TodoCheckbox.checked := isChecked |>) (todoCheckboxes s)).
  destruct isChecked.
  - rewrite <- flat_map_zip_with. apply flat_map_ext_in.
    intros i Hi. apply in_seq in Hi. unfold spec_rowTodo.
    rewrite list_lookup_fmap.
    destruct (lookup_lt_is_Some_2 (todoCheckboxes s) i) as [cb Hcb]; [lia|].
    rewrite Hcb. cbn.
    destruct (Preview.todos data !! i); [|reflexivity].
    destruct (todoDateSelectors s !! i); reflexivity.
  - apply flat_map_nil. intros i _. unfold spec_rowTodo.
    rewrite list_lookup_fmap.
    destruct (Preview.todos data !! i); [|reflexivity].
    destruct (todoCheckboxes s !! i); [|reflexivity]. cbn.
    destruct (todoDateSelectors s !! i); reflexivity.
Qed.

Lemma length_flat_map_filter {A B} (f : A -> list B) (p : A -> bool) (l : list A) :
  (forall x, In x l -> length (f x) = if p x then 1 else 0) ->
  length (flat_map f l) = length (List.filter p l).
Proof.
  induction l as [|x l IH]; cbn; intros H; [reflexivity|].
  rewrite length_app, (H x) by (left; reflexivity).
  rewrite IH by (intros y Hy; apply H; right; exact Hy).
  destruct (p x); reflexivity.
Qed.

Lemma getSelectedTodos_count (data : Preview.t) (s : State) :
  todoTable getDateDaysFromNow (length (Preview.todos data)) s ->
  length (getSelectedTodos data s) = selectedTodosCount s.
Proof.
  intros (Hboxes & _ & _). unfold getSelectedTodos, selectedTodosCount.
  apply length_flat_map_filter. intros cb Hcb.
  destruct (TodoCheckbox.checked cb); [|reflexivity].
  assert (Hindex : TodoCheckbox.data_index cb < length (Preview.todos data)).
  { apply (in_map TodoCheckbox.data_index) in Hcb. rewrite Hboxes in Hcb.
    apply in_seq in Hcb. lia. }
  destruct (lookup_lt_is_Some_2 (Preview.todos data) _ Hindex) as [todo Htodo].
  rewrite Htodo. reflexivity.
Qed.

(** X11.  On the to-do table of a preview the number shown beside the
    heading is the number of to-dos that would be collected, and it is
    the number of to-dos in the request unless to-dos are switched off,
    when the request carries none. *)
Theorem shown_count_is_sent_count (data : Preview.t) (s : State) :
  todoTable getDateDaysFromNow (length (Preview.todos data)) s ->
  length (getSelectedTodos data s) = selectedTodosCount s
  /\ length (NotionPayload.todos (Payload.notion (buildPayload data s)))
     = if shouldCreateTodos s then selectedTodosCount s else 0.
Proof.
  intros Htable. pose proof (getSelectedTodos_count data s Htable) as Hcount.
  split; [exact Hcount|].
  cbn. destruct (shouldCreateTodos s); [exact Hcount | reflexivity].
Qed.

(** X12.  The summary announces the to-dos by the page's own check box
    alone: with a preview held, that box checked and at least one row
    checked, its last entry promises as many to-dos as are checked, also
    when the master box for to-dos is off; the request then has none and
    says that none are to be created. *)
Theorem summary_promises_checked_todos
    (data : Preview.t) (selectedDeal : option (string * string)) (s : State) :
  todoTable getDateDaysFromNow (length (Preview.todos data)) s ->
  processedData s = Some data ->
  createTodosCheckbox s = true ->
  0 < selectedTodosCount s ->
  (exists entries,
      executionSummary selectedDeal s = entries ++ [summary_todos (selectedTodosCount s)])
  /\ (enableTodosCheckbox s = Some false ->
      NotionPayload.todos (Payload.notion (buildPayload data s)) = []
      /\ NotionPayload.create_todos (Payload.notion (buildPayload data s)) = false)
  /\ (enableTodosCheckbox s <> Some false ->
      length (NotionPayload.todos (Payload.notion (buildPayload data s)))
      = selectedTodosCount s).
Proof.
  intros Htable Hdata Hbox Hpositive.
  pose proof (getSelectedTodos_count data s Htable) as Hcount.
  assert (Htodos : (0 <? length (Preview.todos data))%nat = true).
  { apply Nat.ltb_lt. destruct (todoTable_lengths _ _ Htable) as [Hlen _].
    rewrite <- Hlen. unfold selectedTodosCount in Hpositive.
    destruct (todoCheckboxes s); cbn in *; lia. }
  split; [|split].
  - unfold executionSummary. rewrite Hdata, Hbox, Htodos, Hcount. cbn [andb].
    apply Nat.ltb_lt in Hpositive. rewrite Hpositive.
    eexists. rewrite app_assoc. reflexivity.
  - intros Hoff. cbn. unfold shouldCreateTodos. rewrite Hoff. split; reflexivity.
  - intros Hon. cbn. unfold shouldCreateTodos. rewrite Hbox.
    destruct (enableTodosCheckbox s) as [[|]|]; cbn; try exact Hcount.
    contradiction Hon. reflexivity.
Qed.

End TodoSelection.

Lemma select_all_collects_all_or_none_witness :
  getSelectedTodos Session.preview (handleSelectAllTodos true Session.contactUnpicked)
  = [Todo.mk (Some "Send deck") (Some "2025-03-02") (Some "Email");
     Todo.mk (Some "Book call") (Some "2025-03-02") (Some "Calendar")].
Proof.
  rewrite (select_all_collects_all_or_none Session.dates
             (fun days => ltac:(discriminate)) Session.preview true Session.contactUnpicked).
  - reflexivity.
  - vm_compute. repeat split; repeat constructor; auto.
Defined.

Lemma shown_count_is_sent_count_witness :
  length (getSelectedTodos Session.preview
            (handleTodoCheckboxChange 0 Session.contactUnpicked))
  = selectedTodosCount (handleTodoCheckboxChange 0 Session.contactUnpicked)
  /\ length (NotionPayload.todos
               (Payload.notion
                  (buildPayload Session.preview
                     (handleTodoCheckboxChange 0 Session.contactUnpicked))))
     = 1.
Proof.
  apply (shown_count_is_sent_count Session.dates
           Session.preview (handleTodoCheckboxChange 0 Session.contactUnpicked)).
  vm_compute. repeat split; repeat constructor; auto.
Defined.

Lemma summary_promises_checked_todos_witness :
  let s := handleEnableTodosChange false Session.contactUnpicked in
  (exists entries, executionSummary None s = (entries ++ [summary_todos 2])%list)
  /\ (enableTodosCheckbox s = Some false ->
      NotionPayload.todos (Payload.notion (buildPayload Session.preview s)) = []
      /\ NotionPayload.create_todos (Payload.notion (buildPayload Session.preview s)) = false)
  /\ (enableTodosCheckbox s <> Some false ->
      length (NotionPayload.todos (Payload.notion (buildPayload Session.preview s))) = 2).
Proof.
  apply (summary_promises_checked_todos Session.dates
           Session.preview None (handleEnableTodosChange false Session.contactUnpicked)).
  - vm_compute. repeat split; repeat constructor; auto.
  - reflexivity.
  - reflexivity.
  - vm_compute. lia.
Defined.

Lemma alter_twice {A} (f : A -> A) (i : nat) (l : list A) :
  (forall x, f (f x) = x) -> alter f i (alter f i l) = l.
Proof.
  intros Hf. revert i. induction l as [|x l IH]; intros [|i]; cbn; try reflexivity.
  - rewrite Hf. reflexivity.
  - f_equal. apply IH.
Qed.

(** X13.  Flipping the check box of a row twice gives back the state,
    and select-all overrides whatever the boxes were, an earlier
    select-all included. *)
Theorem todo_boxes_round_trip (position : nat) (isChecked earlier : bool) (s : State) :
  handleTodoCheckboxChange position (handleTodoCheckboxChange position s) = s
  /\ handleSelectAllTodos isChecked (handleSelectAllTodos earlier s)
     = handleSelectAllTodos isChecked s
  /\ Forall (fun cb => TodoCheckbox.checked cb = isChecked)
            (todoCheckboxes (handleSelectAllTodos isChecked s)).
Proof.
  split; [|split].
  - unfold handleTodoCheckboxChange, updateExecutionSummary. destruct s. cbn.
    f_equal. apply alter_twice. intros [index checked]. cbn.
    rewrite negb_involutive. reflexivity.
  - unfold handleSelectAllTodos, updateExecutionSummary. destruct s. cbn.
    f_equal. rewrite List.map_map. reflexivity.
  - change (todoCheckboxes (handleSelectAllTodos isChecked s))
      with (map (fun cb => cb <| TodoCheckbox.checked := isChecked |>) (todoCheckboxes s)).
    apply Forall_forall. intros cb Hcb. apply list_elem_of_In in Hcb.
    apply in_map_iff in Hcb. destruct Hcb as (cb0 & <- & _). reflexivity.
Qed.

(** ** The progress list *)

Lemma progressSteps_updateProgressStep stepId status (s : State) :
  progressSteps (updateProgressStep stepId status s)
  = map (fun step => if StepId_eqb (fst step) stepId then (stepId, status) else step)
        (progressSteps s).
Proof. reflexivity. Qed.

Lemma updateProgressStep_reads stepId status (s : State) :
  confirmHubspotAction (updateProgressStep stepId status s) = confirmHubspotAction s
  /\ shouldUpdateInvestorPrefs (updateProgressStep stepId status s)
     = shouldUpdateInvestorPrefs s
  /\ skipInvestorPrefs (updateProgressStep stepId status s) = skipInvestorPrefs s
  /\ shouldCreateTodos (updateProgressStep stepId status s) = shouldCreateTodos s.
Proof. repeat split. Qed.

(** The steps after the answer: each one wanted by the request has the
    status that the answer gives it. *)
Lemma handleConfirmResponse_progress (results : ExecuteResults.t) (s : State) :
  exists hubspotStatus investorStatus todosStatus,
    (hubspotStatus = completed \/ hubspotStatus = error)
    /\ (investorStatus = completed \/ investorStatus = error)
    /\ (todosStatus = completed \/ todosStatus = error)
    /\ progressSteps (handleConfirmResponse (Answered results) s)
       = map (fun step =>
                match fst step with
                | step_hubspot =>
                    if HubspotAction_eqb (confirmHubspotAction s) skip then step
                    else (step_hubspot, hubspotStatus)
                | step_investor =>
                    if shouldUpdateInvestorPrefs s && negb (skipInvestorPrefs s)
                    then (step_investor, investorStatus) else step
                | step_todos =>
                    if shouldCreateTodos s then (step_todos, todosStatus) else step
                end)
             (progressSteps s).
Proof.
  unfold handleConfirmResponse. cbv zeta.
  match goal with
  | |- context [updateProgressStep step_hubspot ?h] => exists h
  end.
  match goal with
  | |- context [updateProgressStep step_investor ?i] => exists i
  end.
  match goal with
  | |- context [updateProgressStep step_todos ?t] => exists t
  end.
  split; [case_atoms; auto|]. split; [case_atoms; auto|]. split; [case_atoms; auto|].
  destruct (HubspotAction_eqb (confirmHubspotAction s) skip); cbn [negb];
    repeat match goal with
           | |- context [shouldUpdateInvestorPrefs (updateProgressStep ?i ?st ?s0)] =>
               destruct (updateProgressStep_reads i st s0) as (_ & -> & _ & _)
           | |- context [skipInvestorPrefs (updateProgressStep ?i ?st ?s0)] =>
               destruct (updateProgressStep_reads i st s0) as (_ & _ & -> & _)
           | |- context [shouldCreateTodos (updateProgressStep ?i ?st ?s0)] =>
               destruct (updateProgressStep_reads i st s0) as (_ & _ & _ & ->)
           end;
    destruct (shouldUpdateInvestorPrefs s && negb (skipInvestorPrefs s));
    repeat match goal with
           | |- context [shouldUpdateInvestorPrefs (updateProgressStep ?i ?st ?s0)] =>
               destruct (updateProgressStep_reads i st s0) as (_ & -> & _ & _)
           | |- context [skipInvestorPrefs (updateProgressStep ?i ?st ?s0)] =>
               destruct (updateProgressStep_reads i st s0) as (_ & _ & -> & _)
           | |- context [shouldCreateTodos (updateProgressStep ?i ?st ?s0)] =>
               destruct (updateProgressStep_reads i st s0) as (_ & _ & _ & ->)
           end;
    destruct (shouldCreateTodos s);
    rewrite ?progressSteps_updateProgressStep, ?List.map_map;
    first [ apply List.map_ext
          | etransitivity; [symmetry; apply List.map_id|]; apply List.map_ext ];
    intros [[ | | ] status]; reflexivity.
Qed.

(** The state in which the request leaves: the values read at the top
    of the handler are as before, and the steps are in progress. *)
Lemma handleConfirmAndExecute_progress (s s1 : State) (payload : Payload.t) :
  handleConfirmAndExecute s = (s1, Dispatched payload) ->
  (confirmHubspotAction s1 = confirmHubspotAction s
   /\ shouldUpdateInvestorPrefs s1 = shouldUpdateInvestorPrefs s
   /\ skipInvestorPrefs s1 = skipInvestorPrefs s
   /\ shouldCreateTodos s1 = shouldCreateTodos s)
  /\ HubspotPayload.action (Payload.hubspot payload) = confirmHubspotAction s
  /\ NotionPayload.update_investor_prefs (Payload.notion payload)
     = shouldUpdateInvestorPrefs s && negb (skipInvestorPrefs s)
  /\ (shouldCreateTodos s = false -> NotionPayload.todos (Payload.notion payload) = [])
  /\ progressSteps s1
     = ((if HubspotAction_eqb (confirmHubspotAction s) skip
         then [] else [(step_hubspot, in_progress)])
        ++ (if shouldUpdateInvestorPrefs s && negb (skipInvestorPrefs s)
            then [(step_investor, in_progress)] else [])
        ++ (match NotionPayload.todos (Payload.notion payload) with
            | [] => []
            | _ :: _ => [(step_todos, in_progress)]
            end))%list.
Proof.
  intros Hconfirm. unfold handleConfirmAndExecute in Hconfirm.
  repeat match type of Hconfirm with
         | (if ?c then _ else _) = _ => destruct c; [discriminate|]
         end.
  destruct (processedData s) as [data|]; [|discriminate].
  injection Hconfirm as <- <-. unfold initializeProgressSteps. cbv zeta.
  change (HubspotPayload.action (Payload.hubspot (buildPayload data s)))
    with (confirmHubspotAction s).
  change (NotionPayload.update_investor_prefs (Payload.notion (buildPayload data s)))
    with (shouldUpdateInvestorPrefs s && negb (skipInvestorPrefs s)).
  change (NotionPayload.todos (Payload.notion (buildPayload data s)))
    with (if shouldCreateTodos s then getSelectedTodos data s else []).
  split.
  { destruct (negb (HubspotAction_eqb (confirmHubspotAction s) skip));
      destruct (shouldUpdateInvestorPrefs s && negb (skipInvestorPrefs s));
      destruct (shouldCreateTodos s) eqn:Hcreate; repeat split; exact Hcreate. }
  destruct (HubspotAction_eqb (confirmHubspotAction s) skip);
    destruct (shouldUpdateInvestorPrefs s && negb (skipInvestorPrefs s));
    destruct (shouldCreateTodos s);
    destruct (getSelectedTodos data s) as [|todo todos];
    repeat split;
    try (intros Hoff; first [reflexivity | discriminate Hoff]).
Qed.

(** X17.  When the request is sent the progress list has a step for
    HubSpot unless the action is 'skip', one for the investor when the
    request asks for the preferences to be updated, and one for the
    to-dos when the request carries any; all are in progress.  Whatever
    the server answers, the same steps are then each completed or in
    error. *)
Theorem progress_steps_follow_the_request
    (s s1 : State) (payload : Payload.t) (results : ExecuteResults.t) :
  handleConfirmAndExecute s = (s1, Dispatched payload) ->
  map fst (progressSteps s1)
  = ((if HubspotAction_eqb (HubspotPayload.action (Payload.hubspot payload)) skip
      then [] else [step_hubspot])
     ++ (if NotionPayload.update_investor_prefs (Payload.notion payload)
         then [step_investor] else [])
     ++ (match NotionPayload.todos (Payload.notion payload) with
         | [] => []
         | _ :: _ => [step_todos]
         end))%list
  /\ Forall (fun step => snd step = in_progress) (progressSteps s1)
  /\ map fst (progressSteps (handleConfirmResponse (Answered results) s1))
     = map fst (progressSteps s1)
  /\ Forall (fun step => snd step = completed \/ snd step = error)
            (progressSteps (handleConfirmResponse (Answered results) s1)).
Proof.
  intros Hconfirm.
  destruct (handleConfirmResponse_progress results s1)
    as (h & i & t & Hh & Hi & Ht & ->).
  destruct (handleConfirmAndExecute_progress s s1 payload Hconfirm)
    as ((-> & -> & -> & ->) & -> & -> & Hnone & ->).
  destruct (HubspotAction_eqb (confirmHubspotAction s) skip);
    destruct (shouldUpdateInvestorPrefs s && negb (skipInvestorPrefs s));
    destruct (shouldCreateTodos s);
    try rewrite (Hnone eq_refl);
    destruct (NotionPayload.todos (Payload.notion payload));
    cbn [app map fst snd];
    (split; [reflexivity|]);
    (split; [repeat (apply List.Forall_cons; [reflexivity|]); apply List.Forall_nil|]);
    (split; [reflexivity|]);
    repeat (apply List.Forall_cons; [assumption|]); apply List.Forall_nil.
Qed.

Lemma progress_steps_follow_the_request_witness :
  let s1 := fst (handleConfirmAndExecute Session.contactPicked) in
  map fst (progressSteps s1) = [step_hubspot; step_investor; step_todos]
  /\ Forall (fun step => snd step = completed \/ snd step = error)
            (progressSteps
               (handleConfirmResponse (Answered (ExecuteResults.mk None None)) s1)).
Proof.
  destruct (progress_steps_follow_the_request Session.contactPicked
              (fst (handleConfirmAndExecute Session.contactPicked))
              (buildPayload Session.preview Session.contactPicked)
              (ExecuteResults.mk None None))
    as (Hsteps & _ & _ & Hdone).
  - vm_compute. reflexivity.
  - split; [exact Hsteps | exact Hdone].
Defined.

(** ** What the request carries *)

Lemma or_val_not_empty (v : option string) : JS.or_val v None <> Some "".
Proof.
  unfold JS.or_val, JS.truthy. destruct v as [v|]; [|discriminate].
  destruct (String.eqb_spec v "") as [->|Hv]; cbn; [discriminate|].
  intros [= H]. contradiction.
Qed.

Lemma or_str_not_empty (a : option string) (d : string) :
  d <> "" -> JS.or_str a d <> "".
Proof.
  intros Hd. unfold JS.or_str. destruct a as [v|]; [|exact Hd].
  destruct (String.eqb_spec v ""); assumption.
Qed.

Lemma nonEmpty_not_empty (v : string) : nonEmpty v <> Some "".
Proof.
  unfold nonEmpty. destruct (String.eqb_spec v "") as [->|Hv]; [discriminate|].
  intros [= H]. contradiction.
Qed.

(** X14.  No field of the request is an empty string where the script
    sends null or leaves the field out: the contact id, the deal id and
    the three deal updates are absent or not empty, there are no deal
    updates without a deal id, the title of a follow-up task is not
    empty and its delay is not 0, and there are no to-dos when the
    request says not to create any. *)
Theorem request_has_no_empty_values (data : Preview.t) (s : State) :
  let payload := buildPayload data s in
  let hubspot := Payload.hubspot payload in
  let updates := HubspotPayload.deal_updates hubspot in
  let task := HubspotPayload.future_task hubspot in
  HubspotPayload.contact_id hubspot <> Some ""
  /\ HubspotPayload.deal_id hubspot <> Some ""
  /\ DealUpdates.dealstage updates <> Some ""
  /\ DealUpdates.hs_next_step updates <> Some ""
  /\ DealUpdates.next_steps_date updates <> Some ""
  /\ (HubspotPayload.deal_id hubspot = None -> updates = DealUpdates.mk None None None)
  /\ FutureTask.task_title task <> Some ""
  /\ FutureTask.due_days task <> Some 0%Z
  /\ (NotionPayload.create_todos (Payload.notion payload) = false ->
      NotionPayload.todos (Payload.notion payload) = []).
Proof.
  cbn zeta. unfold buildPayload. cbn [Payload.hubspot Payload.notion
    HubspotPayload.contact_id HubspotPayload.deal_id HubspotPayload.deal_updates
    HubspotPayload.future_task NotionPayload.create_todos NotionPayload.todos].
  split; [apply or_val_not_empty|]. split; [apply or_val_not_empty|].
  assert (Hdeal : JS.or_val (selectedDealId s) None = None ->
                  JS.truthy (selectedDealId s) = false).
  { unfold JS.or_val. destruct (JS.truthy (selectedDealId s)) eqn:Htruthy; [|reflexivity].
    intros Hnone. rewrite Hnone in Htruthy. discriminate. }
  destruct (JS.truthy (selectedDealId s)); cbn [DealUpdates.dealstage
    DealUpdates.hs_next_step DealUpdates.next_steps_date].
  all: repeat (split; [first [apply nonEmpty_not_empty | discriminate]|]).
  all: split; [intros Hnone; first [reflexivity | discriminate (Hdeal Hnone)]|].
  all: destruct (createFutureTaskCheckbox s); cbn [FutureTask.task_title FutureTask.due_days].
  all: split; [|split].
  all: try discriminate.
  all: try (intros ->; reflexivity).
  - intros Htitle. injection Htitle as Htitle.
    apply (or_str_not_empty (Some (taskTitleInput s))
             ("Check in with " ++ default "null" (selectedContactName s)));
      [discriminate | exact Htitle].
  - destruct (taskDueDaysSelect s) as [n|]; [|discriminate].
    destruct (Z.eqb_spec n 0); [discriminate|]. intros [= Hn]. contradiction.
  - intros Htitle. injection Htitle as Htitle.
    apply (or_str_not_empty (Some (taskTitleInput s))
             ("Check in with " ++ default "null" (selectedContactName s)));
      [discriminate | exact Htitle].
  - destruct (taskDueDaysSelect s) as [n|]; [|discriminate].
    destruct (Z.eqb_spec n 0); [discriminate|]. intros [= Hn]. contradiction.
Qed.

(** ** Choosing a deal *)

(** X15.  A deal chosen in the dropdown becomes the selected deal and its
    id is the deal id of the request; going back to the placeholder
    withdraws it: the request then has no deal id and no deal updates,
    whatever the deal form still holds. *)
Theorem chosen_deal_reaches_the_request
    (k : nat) (deal : Deal.t) (data : Preview.t) (s : State) :
  dealDropdown s !! k = Some deal ->
  Deal.id deal <> "" ->
  (let s' := handleDealSelection (S k) s in
   selectedDealId s' = Some (Deal.id deal)
   /\ selectedDealData s' = Some deal
   /\ dealDetails_hidden s' = false
   /\ HubspotPayload.deal_id (Payload.hubspot (buildPayload data s')) = Some (Deal.id deal))
  /\ (let s0 := handleDealSelection 0 (handleDealSelection (S k) s) in
      selectedDealData s0 = None
      /\ dealDetails_hidden s0 = true
      /\ HubspotPayload.deal_id (Payload.hubspot (buildPayload data s0)) = None
      /\ HubspotPayload.deal_updates (Payload.hubspot (buildPayload data s0))
         = DealUpdates.mk None None None).
Proof.
  intros Hdeal Hid.
  assert (Htruthy : JS.truthy (Some (Deal.id deal)) = true) by (apply truthy_Some; exact Hid).
  split.
  - cbn zeta. unfold handleDealSelection, dealOptionAt. rewrite Hdeal.
    unfold selectDealOption, updateExecutionSummary, populateDealFields. cbv beta zeta.
    change (JS.truthy (selectedDealId _)) with (JS.truthy (Some (Deal.id deal))).
    rewrite Htruthy. repeat split.
    unfold buildPayload. cbn [Payload.hubspot HubspotPayload.deal_id].
    change (JS.or_val (selectedDealId _) None) with (JS.or_val (Some (Deal.id deal)) None).
    unfold JS.or_val. rewrite Htruthy. reflexivity.
  - cbn zeta. generalize (handleDealSelection (S k) s). intros s1.
    unfold handleDealSelection, dealOptionAt, selectDealOption, updateExecutionSummary.
    repeat split.
Qed.

Lemma chosen_deal_reaches_the_request_witness :
  HubspotPayload.deal_id
    (Payload.hubspot (buildPayload Session.preview (handleDealSelection 1 Session.dealPicked)))
  = Some "d1"
  /\ HubspotPayload.deal_id
       (Payload.hubspot
          (buildPayload Session.preview
             (handleDealSelection 0 (handleDealSelection 1 Session.dealPicked))))
     = None.
Proof.
  destruct (chosen_deal_reaches_the_request 0 Session.seriesA Session.preview
              Session.dealPicked) as ((_ & _ & _ & Hchosen) & (_ & _ & Hplaceholder & _)).
  - reflexivity.
  - discriminate.
  - split; [exact Hchosen | exact Hplaceholder].
Defined.

(** ** Resolving the investor *)

(** X16.  Which investor page is found, chosen or to be created never
    reaches the request: each of the handlers that resolve the investor
    changes the request only through the skip flag. *)
Theorem investor_choice_reaches_request_as_flag_only
    (data : Preview.t) (searchInput value card : string)
    (response : option SearchInvestorResponse.t) (s : State) :
  let onlyFlag s' := buildPayload data s'
                     = buildPayload data (s <| skipInvestorPrefs := skipInvestorPrefs s' |>) in
  onlyFlag (handleSearchInvestor searchInput response s)
  /\ onlyFlag (handleInvestorSelection value s)
  /\ onlyFlag (handleInvestorOptionClick card s)
  /\ onlyFlag (handleCreateInvestor s)
  /\ onlyFlag (handleSkipInvestorPrefs s)
  /\ onlyFlag (showSearchDifferentInvestor s)
  /\ onlyFlag (showSearchInvestorAgainFromMultiple s).
Proof.
  cbn zeta.
  repeat split; unfold_handlers; cbv beta zeta; case_atoms; reflexivity.
Qed.

(** ** The recent contacts, entry by entry *)

Section RecentOrder.
Import Recent.
Local Open Scope list_scope.

Lemma findIndex_app_hit {A} (p : A -> bool) (done : list A) (x : A) (rest : list A) :
  Forall (fun a => p a = false) done -> p x = true ->
  findIndex p (done ++ x :: rest) = Some (length done).
Proof.
  intros Hdone Hx. induction Hdone as [|a done Ha _ IH]; cbn.
  - rewrite Hx. reflexivity.
  - rewrite Ha, IH. reflexivity.
Qed.

Lemma ForallOrdPairs_before {A} (R : A -> A -> Prop) (done : list A) (x : A) (rest : list A) :
  ForallOrdPairs R (done ++ x :: rest) -> Forall (fun a => R a x) done.
Proof.
  induction done as [|a done IH]; cbn; intros H; [constructor|].
  inversion H as [|a' l Ha Hl]; subst. constructor.
  - rewrite Forall_forall in Ha. apply Ha. apply list_elem_of_In.
    apply in_or_app. right. left. reflexivity.
  - apply IH. exact Hl.
Qed.

Lemma filterFrom_distinct (contact : Entry.t) (done rest : list Entry.t) :
  distinctContacts (done ++ rest) ->
  filterFrom (isFirstOfItsKind (contact :: done ++ rest)) (S (length done)) rest
  = List.filter (fun x => negb (sameContact x contact)) rest.
Proof.
  revert done. induction rest as [|x rest IH]; intros done Hdistinct; [reflexivity|].
  assert (Hnext : filterFrom (isFirstOfItsKind (contact :: done ++ x :: rest))
                    (S (S (length done))) rest
                  = List.filter (fun x => negb (sameContact x contact)) rest).
  { specialize (IH (done ++ [x])). rewrite <- app_assoc, length_app in IH.
    cbn [app length] in IH. replace (length done + 1) with (S (length done)) in IH by lia.
    apply IH. exact Hdistinct. }
  cbn [filterFrom List.filter]. rewrite Hnext.
  unfold isFirstOfItsKind. cbn [findIndex].
  destruct (sameContact x contact) eqn:Hsame; cbn [negb]; [reflexivity|].
  rewrite findIndex_app_hit.
  - cbn [option_map]. rewrite Nat.eqb_refl. reflexivity.
  - apply (ForallOrdPairs_before _ _ _ _ Hdistinct).
  - apply sameContact_refl.
Qed.

Lemma filter_take_all {A} (p : A -> bool) (n : nat) (l : list A) :
  List.filter p (take n (List.filter p l)) = take n (List.filter p l).
Proof.
  apply forallb_filter_id. apply forallb_forall. intros x Hx.
  assert (Hin : In x (List.filter p l)).
  { apply list_elem_of_In. eapply elem_of_sublist; [|apply sublist_take].
    apply list_elem_of_In. exact Hx. }
  apply filter_In in Hin. tauto.
Qed.

Lemma savePrepRecentContact_distinct (contact : Entry.t) (cache : list Entry.t) :
  distinctContacts (savePrepRecentContact contact cache).
Proof.
  unfold savePrepRecentContact, removeDuplicates.
  destruct (filterFrom_fresh (contact :: cache) []) as [_ Hpairs]. cbn zeta in Hpairs.
  cbn [app length] in Hpairs.
  generalize dependent (filterFrom (isFirstOfItsKind (contact :: cache)) 0 (contact :: cache)).
  intros kept Hpairs. unfold distinctContacts.
  generalize 6. induction Hpairs as [|a l Ha _ IH]; intros [|n]; cbn; try constructor.
  - eapply Forall_sublist; [apply sublist_take | exact Ha].
  - apply IH.
Qed.

(** X18.  On a cache without two entries for the same contact, saving a
    contact puts it in front, removes the entry of the same contact (by
    email or by id) if there is one, leaves the others in place and
    keeps the first six; the new cache is again without such a pair,
    whatever the old one was; and saving the same contact once more
    changes nothing. *)
Theorem saving_moves_contact_to_front (contact : Entry.t) (cache : list Entry.t) :
  distinctContacts cache ->
  savePrepRecentContact contact cache
  = take 6 (contact :: List.filter (fun x => negb (sameContact x contact)) cache)
  /\ distinctContacts (savePrepRecentContact contact cache)
  /\ savePrepRecentContact contact (savePrepRecentContact contact cache)
     = savePrepRecentContact contact cache.
Proof.
  intros Hdistinct.
  assert (Hsave : forall l, distinctContacts l ->
            savePrepRecentContact contact l
            = take 6 (contact :: List.filter (fun x => negb (sameContact x contact)) l)).
  { intros l Hl. unfold savePrepRecentContact. rewrite removeDuplicates_cons.
    pose proof (filterFrom_distinct contact [] l Hl) as Hkept.
    cbn [app length] in Hkept. rewrite Hkept. reflexivity. }
  split; [apply Hsave; exact Hdistinct|].
  split; [apply savePrepRecentContact_distinct|].
  rewrite (Hsave (savePrepRecentContact contact cache))
    by apply savePrepRecentContact_distinct.
  rewrite (Hsave cache Hdistinct). cbn [take List.filter].
  rewrite sameContact_refl. cbn [negb]. rewrite filter_take_all.
  cbn [take]. rewrite take_take. reflexivity.
Qed.

End RecentOrder.

Lemma saving_moves_contact_to_front_witness :
  let ann := Recent.Entry.mk (Some "1") (Some "Ann") (Some "ann@acme.com") (Some "Acme") in
  let bob := Recent.Entry.mk (Some "2") (Some "Bob") (Some "bob@acme.com") (Some "Acme") in
  let ann' := Recent.Entry.mk (Some "7") (Some "Ann Lee") (Some "ann@acme.com") (Some "") in
  Recent.savePrepRecentContact ann' [bob; ann] = [ann'; bob].
Proof.
  intros ann bob ann'.
  destruct (saving_moves_contact_to_front ann' [bob; ann]) as (Hsave & _ & _).
  - repeat constructor.
  - rewrite Hsave. reflexivity.
Defined.

(** ** Escaping text for HTML *)

Lemma markupFree_append (a b : string) :
  markupFree (a ++ b) = markupFree a && markupFree b.
Proof.
  induction a as [|c a IH]; cbn; [reflexivity|].
  rewrite IH. apply andb_assoc.
Qed.

Lemma escapeHtml_append (a b : string) :
  escapeHtml (a ++ b) = (escapeHtml a ++ escapeHtml b)%string.
Proof.
  induction a as [|c a IH]; cbn; [reflexivity|]. rewrite IH.
  destruct (htmlEntity c) as [entity|]; [|reflexivity].
  clear. induction entity as [|e entity IH]; cbn; [reflexivity|]. rewrite IH. reflexivity.
Qed.

(** X19.  Escaped text has none of the characters '<', '>', the double
    quote and the apostrophe, and escaping a text piece by piece, as the
    templates do, is escaping the whole. *)
Theorem escapeHtml_leaves_no_markup (text rest : string) :
  markupFree (escapeHtml text) = true
  /\ escapeHtml (text ++ rest) = (escapeHtml text ++ escapeHtml rest)%string.
Proof.
  split; [|apply escapeHtml_append].
  induction text as [|c text IH]; [reflexivity|].
  cbn [escapeHtml]. unfold htmlEntity. ascii_cases;
    rewrite ?markupFree_append; cbn [markupFree]; rewrite IH; try reflexivity.
  ascii_cases; try contradiction. reflexivity.
Qed.

Lemma escapeHtml_empty (text : string) : escapeHtml text = "" -> text = "".
Proof.
  destruct text as [|c text]; [reflexivity|].
  cbn [escapeHtml]. unfold htmlEntity. ascii_cases; discriminate.
Qed.

(** X20.  Escaping loses nothing: two texts with the same escaped form
    are the same text. *)
Theorem escapeHtml_injective (a b : string) :
  escapeHtml a = escapeHtml b -> a = b.
Proof.
  revert b. induction a as [|c a IH]; intros b H.
  - symmetry. apply escapeHtml_empty. symmetry. exact H.
  - destruct b as [|d b]; [apply escapeHtml_empty in H; discriminate H|].
    cbn [escapeHtml] in H. unfold htmlEntity in H.
    ascii_cases; cbn [append] in H; try discriminate H;
      try (injection H as H; f_equal; apply IH; exact H);
      try (injection H as Hc H; congruence).
  injection H as -> H. f_equal. apply IH. exact H.
Qed.

Lemma escapeHtml_injective_witness :
  escapeHtml "<b>Ann & Bob</b>" = "&lt;b&gt;Ann &amp; Bob&lt;/b&gt;"
  /\ "<b>Ann & Bob</b>" = "<b>Ann & Bob</b>".
Proof.
  split; [reflexivity|].
  apply (escapeHtml_injective "<b>Ann & Bob</b>" "<b>Ann & Bob</b>"). reflexivity.
Defined.

(** ** The summary and the investor *)

Lemma step_selectedInvestorId dates (event : Event) (s : State) :
  selectedInvestorId s = None ->
  match event with
  | ProcessNotes _ _ => True
  | _ => selectedInvestorId (step dates event s) = None
  end.
Proof.
  intros Hnone. destruct event; try exact I.
  all: unfold_handlers; cbv beta zeta; case_atoms; first [exact Hnone | reflexivity].
Qed.

Lemma displayPreview_selectedInvestorId dates preview (s : State) :
  selectedInvestorId (fst (displayPreview dates preview s)) = selectedInvestorId s.
Proof.
  rewrite displayPreview_steps.
  transitivity (selectedInvestorId
                  (displayParsedDeals dates preview
                     (displayContactSection preview (resetForPreview s)))).
  - generalize (displayParsedDeals dates preview
                  (displayContactSection preview (resetForPreview s))).
    intros s2. unfold displayPreferences, displayTodos. same_view.
  - transitivity (selectedInvestorId (displayContactSection preview (resetForPreview s))).
    + generalize (displayContactSection preview (resetForPreview s)). intros s1.
      unfold displayParsedDeals. same_view.
    + transitivity (selectedInvestorId (resetForPreview s)); [|reflexivity].
      generalize (resetForPreview s). intros s0.
      unfold displayContactSection. same_view.
Qed.

Lemma run_selectedInvestorId dates (events : list Event) (s : State) :
  selectedInvestorId s = None -> selectedInvestorId (run dates events s) = None.
Proof.
  revert s. induction events as [|event events IH]; intros s Hnone; [exact Hnone|].
  cbn [run fold_left]. apply IH.
  pose proof (step_selectedInvestorId dates event s Hnone) as Hstep.
  destruct event; try exact Hstep.
  cbn [step]. unfold handleProcessNotes. case_atoms; try exact Hnone.
  rewrite displayPreview_selectedInvestorId. exact Hnone.
Qed.

(** X21.  No handler ever gives [selectedInvestorId] a value: from a page
    on which it is null, whatever happens, the summary never names the
    investor whose preferences will be updated. *)
Theorem summary_never_names_the_investor
    (dates : DateApi) (events : list Event)
    (selectedDeal : option (string * string)) (s : State) :
  selectedInvestorId s = None ->
  selectedInvestorId (run dates events s) = None
  /\ Forall (fun item => forall name, item <> summary_investor_named name)
            (executionSummary selectedDeal (run dates events s)).
Proof.
  intros Hnone. pose proof (run_selectedInvestorId dates events s Hnone) as Hrun.
  split; [exact Hrun|].
  generalize dependent (run dates events s). intros s' Hrun.
  unfold executionSummary. rewrite Hrun. cbn [JS.truthy andb].
  repeat (apply Forall_app; split); case_atoms;
    repeat (apply List.Forall_cons; [intros name; discriminate|]); apply List.Forall_nil.
Qed.

Lemma summary_never_names_the_investor_witness :
  let s := run Session.dates
             [ProcessNotes "Call with Ann and Bob" (Some Session.preview);
              ContactSelection 1; SearchInvestor "Acme" None; CreateInvestor]
             Session.pageLoaded in
  selectedInvestorId s = None
  /\ Forall (fun item => forall name, item <> summary_investor_named name)
            (executionSummary None s).
Proof.
  apply (summary_never_names_the_investor Session.dates
           [ProcessNotes "Call with Ann and Bob" (Some Session.preview);
            ContactSelection 1; SearchInvestor "Acme" None; CreateInvestor]
           None Session.pageLoaded).
  reflexivity.
Defined.

(** ** Choosing among several contacts found *)

Lemma handleSearchAgain_several (query : string) (data : SearchContactResponse.t)
    (s : State) :
  JS.trim query <> "" ->
  2 <= SearchContactResponse.count data ->
  let s1 := handleSearchAgain query (Some data) s in
  selectedContactId s1 = None
  /\ multipleContactsDiv_hidden s1 = false
  /\ contactSelect s1
     = contactSelectPlaceholder :: map contactOption (SearchContactResponse.contacts data).
Proof.
  intros Hquery Hcount. cbn zeta. apply String.eqb_neq in Hquery.
  unfold handleSearchAgain. rewrite Hquery.
  destruct (SearchContactResponse.count data) as [|[|n]]; [lia | lia |].
  repeat split.
Qed.

(** X22.  A search that finds several contacts selects none and fills the
    dropdown, placeholder first, so that the entry after the placeholder
    and [k] further on stands for the [k]-th contact found: choosing it
    selects that contact's id, shows the actions card and puts the
    action back to 'log_only'. *)
Theorem found_contacts_can_be_chosen
    (query : string) (data : SearchContactResponse.t)
    (k : nat) (contact : Contact.t) (s : State) :
  JS.trim query <> "" ->
  2 <= SearchContactResponse.count data ->
  SearchContactResponse.contacts data !! k = Some contact ->
  Contact.id contact <> "" ->
  JS.before " - " (snd (contactOption contact)) <> "" ->
  let s1 := handleSearchAgain query (Some data) s in
  let s2 := handleContactSelection (S k) s1 in
  (selectedContactId s1 = None /\ multipleContactsDiv_hidden s1 = false)
  /\ selectedContactId s2 = Some (Contact.id contact)
  /\ selectedContactName s2 = Some (JS.before " - " (snd (contactOption contact)))
  /\ hubspotActionsCard_hidden s2 = false
  /\ actionView s2 = (Some log_only, log_only, true)
  /\ selectedDealId s2 = None.
Proof.
  intros Hquery Hcount Hcontact Hid Hname. cbn zeta.
  destruct (handleSearchAgain_several query data s Hquery Hcount)
    as (Hnone & Hshown & Hoptions).
  split; [split; assumption|].
  assert (Hoption : contactSelect (handleSearchAgain query (Some data) s) !! S k
                    = Some (Contact.id contact, snd (contactOption contact))).
  { rewrite Hoptions.
    change (map contactOption (SearchContactResponse.contacts data) !! k
            = Some (Contact.id contact, snd (contactOption contact))).
    rewrite list_lookup_fmap, Hcontact. reflexivity. }
  clear Hnone Hshown Hoptions.
  generalize dependent (handleSearchAgain query (Some data) s). intros s1 Hoption.
  assert (Htruthy : JS.truthy (Some (Contact.id contact)) = true)
    by (apply truthy_Some; exact Hid).
  pose proof (before_empty _ _ Hname) as Htext. apply String.eqb_neq in Htext.
  unfold handleContactSelection. rewrite Hoption, Htext. cbv beta zeta.
  change (JS.truthy (selectedContactId _)) with (JS.truthy (Some (Contact.id contact))).
  rewrite Htruthy.
  match goal with
  | |- context [showHubSpotActionsCard ?s0] =>
      destruct (showHubSpotActionsCard_shown s0) as (Hview & Haction & Hdeal & _);
      [ exact Htruthy | apply truthy_Some; exact Hname
      | revert Hview Haction Hdeal; generalize (showHubSpotActionsCard s0) ]
  end.
  intros s2 Hview Haction Hdeal.
  unfold contactView in Hview. injection Hview as H1 H2 _ H4 _.
  repeat split; assumption.
Qed.

Lemma found_contacts_can_be_chosen_witness :
  let s1 := handleSearchAgain "acme"
              (Some (SearchContactResponse.mk 2 [Session.ann; Session.bob]))
              Session.pageLoaded in
  let s2 := handleContactSelection 2 s1 in
  (selectedContactId s1 = None /\ multipleContactsDiv_hidden s1 = false)
  /\ selectedContactId s2 = Some "102"
  /\ selectedContactName s2 = Some "Bob Ray"
  /\ hubspotActionsCard_hidden s2 = false
  /\ actionView s2 = (Some log_only, log_only, true)
  /\ selectedDealId s2 = None.
Proof.
  apply (found_contacts_can_be_chosen "acme"
           (SearchContactResponse.mk 2 [Session.ann; Session.bob]) 1 Session.bob
           Session.pageLoaded).
  - discriminate.
  - cbn. lia.
  - reflexivity.
  - discriminate.
  - discriminate.
Defined.

(** ** Creating a deal *)

Lemma trim_not_empty (text : string) : JS.trim text <> "" -> text <> "".
Proof. intros H ->. apply H. reflexivity. Qed.

(** X23.  A deal created from the deal form becomes the selected deal;
    with a preview held and an action other than 'skip', confirming then
    passes validation whether or not a contact is selected, and the
    request names the new deal and carries the stage, the next step and
    the date of the form as deal updates. *)
Theorem created_deal_is_sent (deal_id : string) (data : Preview.t) (s : State) :
  JS.trim (dealNameInput s) <> "" ->
  dealStageInput s <> "" ->
  JS.trim (dealNextStepInput s) <> "" ->
  deal_id <> "" ->
  processedData s = Some data ->
  confirmHubspotAction s <> skip ->
  let s' := handleCreateDeal (Some deal_id) s in
  let hubspot := Payload.hubspot (buildPayload data s') in
  selectedDealId s' = Some deal_id
  /\ snd (handleConfirmAndExecute s') = Dispatched (buildPayload data s')
  /\ HubspotPayload.deal_id hubspot = Some deal_id
  /\ HubspotPayload.deal_updates hubspot
     = DealUpdates.mk (Some (dealStageInput s)) (Some (dealNextStepInput s))
                      (nonEmpty (dealNextStepDateInput s))
  /\ HubspotPayload.contact_id hubspot = JS.or_val (selectedContactId s) None.
Proof.
  intros Hname Hstage Hstep Hid Hdata Haction. cbn zeta.
  pose proof (trim_not_empty _ Hstep) as Hstep'.
  apply String.eqb_neq in Hname, Hstage, Hstep, Hstep'.
  apply HubspotAction_eqb_neq in Haction.
  assert (Htruthy : JS.truthy (Some deal_id) = true) by (apply truthy_Some; exact Hid).
  unfold handleCreateDeal. rewrite Hname, Hstage, Hstep.
  unfold updateExecutionSummary.
  split; [reflexivity|].
  split.
  - unfold handleConfirmAndExecute.
    change (confirmHubspotAction (_ <| selectedDealData := _ |>))
      with (confirmHubspotAction s).
    change (JS.truthy (selectedDealId (_ <| selectedDealData := _ |>)))
      with (JS.truthy (Some deal_id)).
    change (processedData (_ <| selectedDealData := _ |>)) with (processedData s).
    rewrite Haction, Htruthy, Hdata. cbn [andb negb].
    rewrite !andb_false_r. reflexivity.
  - unfold buildPayload. cbn [Payload.hubspot HubspotPayload.deal_id
      HubspotPayload.deal_updates HubspotPayload.contact_id].
    change (JS.truthy (selectedDealId (_ <| selectedDealData := _ |>)))
      with (JS.truthy (Some deal_id)).
    change (JS.or_val (selectedDealId (_ <| selectedDealData := _ |>)) None)
      with (JS.or_val (Some deal_id) None).
    unfold JS.or_val at 1. rewrite Htruthy.
    split; [reflexivity|]. split; [|reflexivity].
    change (dealStageInput (_ <| selectedDealData := _ |>)) with (dealStageInput s).
    change (dealNextStepInput (_ <| selectedDealData := _ |>)) with (dealNextStepInput s).
    change (dealNextStepDateInput (_ <| selectedDealData := _ |>))
      with (dealNextStepDateInput s).
    unfold nonEmpty. rewrite Hstage, Hstep'. reflexivity.
Qed.

Lemma created_deal_is_sent_witness :
  let s' := handleCreateDeal (Some "d9") Session.contactUnpicked in
  let hubspot := Payload.hubspot (buildPayload Session.preview s') in
  selectedDealId s' = Some "d9"
  /\ snd (handleConfirmAndExecute s') = Dispatched (buildPayload Session.preview s')
  /\ HubspotPayload.deal_id hubspot = Some "d9"
  /\ HubspotPayload.deal_updates hubspot
     = DealUpdates.mk (Some "qualifiedtobuy") (Some "Send deck") (Some "2025-03-10")
  /\ HubspotPayload.contact_id hubspot = None.
Proof.
  apply (created_deal_is_sent "d9" Session.preview Session.contactUnpicked);
    first [discriminate | reflexivity].
Defined.

(** ** Initials *)

Section Initials.
Local Open Scope list_scope.

Lemma substring_none (s : string) : String.substring 0 0 s = "".
Proof. destruct s; reflexivity. Qed.

(** What [JS.tokens] cuts off as white space is found again in front of
    any text. *)
Lemma spaceWidth_genuine (s : string) (k : nat) :
  JS.spaceWidth s = S k -> genuine (String.substring 0 (S k) s).
Proof.
  destruct s as [|c r]; [discriminate|]. unfold JS.spaceWidth.
  destruct (JS.space1 c) eqn:H1.
  { intros [= <-]. cbn [String.substring]. rewrite substring_none.
    split; [discriminate|]. intros rest. unfold JS.tokens.
    cbn [append JS.tokensAfter JS.spaceWidth]. rewrite H1.
    cbn [String.substring]. rewrite substring_none. reflexivity. }
  destruct r as [|d r]; [discriminate|].
  destruct (JS.space2 c d) eqn:H2.
  { intros [= <-]. cbn [String.substring]. rewrite substring_none.
    split; [discriminate|]. intros rest. unfold JS.tokens.
    cbn [append JS.tokensAfter JS.spaceWidth]. rewrite H1, H2.
    cbn [String.substring]. rewrite substring_none. reflexivity. }
  destruct r as [|e r]; [discriminate|].
  destruct (JS.space3 c d e) eqn:H3; [|discriminate].
  intros [= <-]. cbn [String.substring]. rewrite substring_none.
  split; [discriminate|]. intros rest. unfold JS.tokens.
  cbn [append JS.tokensAfter JS.spaceWidth]. rewrite H1, H2, H3.
  cbn [String.substring]. rewrite substring_none. reflexivity.
Qed.

Lemma tokensAfter_genuine (pending : nat) (s : string) :
  Forall (fun t => match t with JS.white bytes => genuine bytes | JS.other _ => True end)
         (JS.tokensAfter pending s).
Proof.
  revert pending. induction s as [|c r IH]; intros pending; [apply List.Forall_nil|].
  cbn [JS.tokensAfter]. destruct pending as [|k]; [|apply IH].
  destruct (JS.spaceWidth (String c r)) as [|k] eqn:Hwidth.
  - apply List.Forall_cons; [exact I | apply IH].
  - apply List.Forall_cons; [apply spaceWidth_genuine; exact Hwidth | apply IH].
Qed.

(** A letter starts no white-space character. *)
Lemma letter_token (c : ascii) (rest : string) :
  isLetter c = true -> JS.tokens (String c rest) = JS.other c :: JS.tokens rest.
Proof.
  intros Hc. unfold JS.tokens. cbn [JS.tokensAfter].
  assert (Hwidth : JS.spaceWidth (String c rest) = 0).
  { destruct c as [[|] [|] [|] [|] [|] [|] [|] [|]]; try discriminate Hc;
      destruct rest as [|d [|e rest]]; reflexivity. }
  rewrite Hwidth. reflexivity.
Qed.

(** A text written from letters and white space is cut into these
    again. *)
Lemma tokens_text (l : list JS.Token) :
  Forall letterOrSpace l -> JS.tokens (JS.text l) = l.
Proof.
  induction 1 as [|t l Ht _ IH]; [reflexivity|].
  destruct t as [bytes|c]; cbn [JS.text JS.tokenText].
  - destruct Ht as [_ Hfound]. rewrite Hfound, IH. reflexivity.
  - cbn [append]. rewrite (letter_token c _ Ht), IH. reflexivity.
Qed.

Lemma text_empty (l : list JS.Token) :
  Forall letterOrSpace l -> JS.text l = "" -> l = [].
Proof.
  destruct 1 as [|t l Ht _]; [reflexivity|].
  destruct t as [bytes|c]; cbn [JS.text JS.tokenText]; [|discriminate].
  destruct Ht as [Hbytes _]. destruct bytes; [contradiction | discriminate].
Qed.

Lemma lettersAndSpaces_tokens (name : string) :
  Forall letterOrSpace
         (List.filter (fun t => isLetterToken t || JS.isWhite t) (JS.tokens name)).
Proof.
  apply Forall_forall. intros t Ht. apply list_elem_of_In, filter_In in Ht as [Hin Hkeep].
  pose proof (tokensAfter_genuine 0 name) as Hall. rewrite Forall_forall in Hall.
  specialize (Hall t (proj2 (list_elem_of_In _ _) Hin)).
  destruct t as [bytes|c]; [exact Hall|].
  cbn in Hkeep. rewrite orb_false_r in Hkeep. exact Hkeep.
Qed.

Lemma dropWhite_Forall (P : JS.Token -> Prop) (l : list JS.Token) :
  Forall P l -> Forall P (JS.dropWhite l).
Proof.
  induction 1 as [|t l Ht Hl IH]; [apply List.Forall_nil|].
  destruct t; cbn; [exact IH | apply List.Forall_cons; assumption].
Qed.

Lemma dropWhiteEnd_Forall (P : JS.Token -> Prop) (l : list JS.Token) :
  Forall P l -> Forall P (JS.dropWhiteEnd l).
Proof.
  induction 1 as [|t l Ht Hl IH]; [apply List.Forall_nil|]. cbn.
  destruct (JS.dropWhiteEnd l) as [|k kept].
  - destruct (JS.isWhite t); [apply List.Forall_nil|].
    apply List.Forall_cons; [exact Ht | apply List.Forall_nil].
  - apply List.Forall_cons; assumption.
Qed.

(** What is left after trimming starts with a token that is not white
    space. *)
Lemma dropWhite_head (l : list JS.Token) (t : JS.Token) (rest : list JS.Token) :
  JS.dropWhite l = t :: rest -> JS.isWhite t = false.
Proof.
  induction l as [|x l IH]; [discriminate|].
  destruct x; cbn; [exact IH|]. intros [= <- _]. reflexivity.
Qed.

Lemma dropWhiteEnd_head (l : list JS.Token) (t : JS.Token) (kept : list JS.Token) :
  JS.dropWhiteEnd l = t :: kept -> exists rest, l = t :: rest.
Proof.
  destruct l as [|x l]; [discriminate|]. cbn.
  destruct (JS.dropWhiteEnd l).
  - destruct (JS.isWhite x); [discriminate|]. intros [= <- _]. eexists. reflexivity.
  - intros [= <- _]. eexists. reflexivity.
Qed.

(** What [dropWhiteEnd] returns is not changed by [dropWhiteEnd]. *)
Lemma dropWhiteEnd_fixed (l : list JS.Token) :
  JS.dropWhiteEnd (JS.dropWhiteEnd l) = JS.dropWhiteEnd l.
Proof.
  induction l as [|t l IH]; [reflexivity|]. cbn.
  destruct (JS.dropWhiteEnd l) as [|k kept] eqn:Hkept.
  - destruct (JS.isWhite t) eqn:Ht; [reflexivity|]. cbn. rewrite Ht. reflexivity.
  - cbn [JS.dropWhiteEnd]. cbn [JS.dropWhiteEnd] in IH. rewrite IH. reflexivity.
Qed.

Lemma fixed_tail (t : JS.Token) (rest : list JS.Token) :
  JS.dropWhiteEnd (t :: rest) = t :: rest ->
  JS.dropWhiteEnd rest = rest /\ (JS.isWhite t = true -> rest <> []).
Proof.
  cbn. destruct (JS.dropWhiteEnd rest) as [|k kept] eqn:Hkept.
  - destruct (JS.isWhite t); [discriminate|].
    intros [= <-]. split; [reflexivity | discriminate].
  - intros [= <-]. split; [reflexivity|]. intros _. discriminate.
Qed.

Lemma splitTokens_some (inRun : bool) (l : list JS.Token) : splitTokens inRun l <> [].
Proof.
  revert inRun. induction l as [|t l IH]; intros inRun; cbn; [discriminate|].
  destruct t.
  - destruct inRun; [apply IH | discriminate].
  - destruct (splitTokens false l); discriminate.
Qed.

(** The words of a text that starts with a letter: one more than the
    parts after the first found in the rest. *)
Lemma words_other (inRun : bool) (c : ascii) (rest : list JS.Token) :
  exists part parts,
    splitTokens false rest = part :: parts
    /\ words inRun (JS.other c :: rest) = String c part :: List.filter notEmpty parts.
Proof.
  unfold words. cbn [splitTokens].
  destruct (splitTokens false rest) as [|part parts] eqn:Hsplit.
  - exfalso. exact (splitTokens_some _ _ Hsplit).
  - exists part, parts. split; reflexivity.
Qed.

Lemma words_white (inRun : bool) (bytes : string) (rest : list JS.Token) :
  words inRun (JS.white bytes :: rest) = words true rest.
Proof. unfold words. cbn [splitTokens]. destruct inRun; reflexivity. Qed.

(** A text that does not end in white space and is not empty has a
    word. *)
Lemma words_some (inRun : bool) (l : list JS.Token) :
  JS.dropWhiteEnd l = l -> l <> [] -> 1 <= length (words inRun l).
Proof.
  revert inRun. induction l as [|t l IH]; intros inRun Hfixed Hne; [contradiction|].
  destruct (fixed_tail _ _ Hfixed) as [Htail Hrest].
  destruct t as [bytes|c].
  - rewrite words_white. apply IH; [exact Htail | apply Hrest; reflexivity].
  - destruct (words_other inRun c l) as (part & parts & _ & ->). cbn. lia.
Qed.

(** If it has fewer than two words, it has no white space at all. *)
Lemma one_word_no_space (inRun : bool) (c : ascii) (rest : list JS.Token) :
  JS.dropWhiteEnd (JS.other c :: rest) = JS.other c :: rest ->
  length (words inRun (JS.other c :: rest)) < 2 ->
  Forall (fun t => JS.isWhite t = false) rest.
Proof.
  revert inRun c. induction rest as [|t rest IH]; intros inRun c Hfixed Hwords;
    [apply List.Forall_nil|].
  destruct (fixed_tail _ _ Hfixed) as [Htail _].
  destruct (words_other inRun c (t :: rest)) as (part & parts & Hsplit & Hw).
  rewrite Hw in Hwords. cbn [length] in Hwords.
  destruct t as [bytes|d].
  - exfalso. destruct (fixed_tail _ _ Htail) as [Htail' Hrest].
    pose proof (words_some true rest Htail' (Hrest eq_refl)) as Hsome.
    cbn [splitTokens] in Hsplit. injection Hsplit as _ <-.
    fold (words true rest) in Hwords. lia.
  - apply List.Forall_cons; [reflexivity|].
    apply (IH false d Htail).
    destruct (words_other false d rest) as (part' & parts' & Hsplit' & ->).
    cbn [splitTokens] in Hsplit. rewrite Hsplit' in Hsplit.
    injection Hsplit as _ <-. cbn [length]. lia.
Qed.

(** The parts are made of the letters of the text. *)
Lemma splitTokens_letters (inRun : bool) (l : list JS.Token) :
  Forall letterOrSpace l ->
  Forall (fun part => allChars isLetter part = true) (splitTokens inRun l).
Proof.
  intros Hl. revert inRun. induction Hl as [|t l Ht _ IH]; intros inRun; cbn.
  - apply List.Forall_cons; [reflexivity | apply List.Forall_nil].
  - destruct t as [bytes|c].
    + destruct inRun; [apply IH|]. apply List.Forall_cons; [reflexivity | apply IH].
    + specialize (IH false). destruct (splitTokens false l) as [|part parts].
      * apply List.Forall_cons; [|apply List.Forall_nil]. cbn. cbn in Ht. rewrite Ht.
        reflexivity.
      * inversion IH as [|? ? Hpart Hparts]; subst.
        apply List.Forall_cons; [|exact Hparts]. cbn. cbn in Ht. rewrite Ht, Hpart.
        reflexivity.
Qed.

Lemma toUpperCaseChar_letter (c : ascii) :
  isLetter c = true -> isUpperLetter (toUpperCaseChar c) = true.
Proof.
  destruct c as [[|] [|] [|] [|] [|] [|] [|] [|]]; intros H;
    first [discriminate H | reflexivity].
Qed.

Lemma firstChar_word (part : string) :
  allChars isLetter part = true -> notEmpty part = true ->
  exists c, firstChar part = String c "" /\ isLetter c = true.
Proof.
  destruct part as [|c part]; [discriminate|]. cbn. intros H _.
  apply andb_true_iff in H as [Hc _]. exists c. split; [reflexivity | exact Hc].
Qed.

Lemma last_In {A} (l : list A) (d : A) : l <> [] -> In (List.last l d) l.
Proof.
  induction l as [|x l IH]; [contradiction|]. intros _.
  destruct l as [|y l]; [left; reflexivity|].
  right. apply IH. discriminate.
Qed.

(** X24.  [getInitials] returns the two question marks or one or two
    capital letters, whatever the name. *)
Theorem getInitials_shape (name : option string) :
  getInitials name = "??" \/ capitals (getInitials name) = true.
Proof.
  unfold getInitials. destruct name as [name|]; [|left; reflexivity].
  destruct (String.eqb name ""); [left; reflexivity|].
  generalize (if includes "@" name then JS.before "@" name else name). clear name.
  intros name. cbv zeta.
  pose proof (lettersAndSpaces_tokens name) as Hkept.
  unfold JS.trim, lettersAndSpaces. rewrite (tokens_text _ Hkept).
  pose proof (dropWhiteEnd_Forall _ _ (dropWhite_Forall _ _ Hkept)) as Htrimmed.
  pose proof (dropWhiteEnd_fixed
                (JS.dropWhite
                   (List.filter (fun t => isLetterToken t || JS.isWhite t)
                                (JS.tokens name)))) as Hfixed.
  assert (Hhead : forall t kept,
             JS.dropWhiteEnd
               (JS.dropWhite
                  (List.filter (fun t => isLetterToken t || JS.isWhite t)
                               (JS.tokens name))) = t :: kept ->
             JS.isWhite t = false).
  { intros t kept Hcut. apply dropWhiteEnd_head in Hcut as [rest Hcut].
    exact (dropWhite_head _ _ _ Hcut). }
  revert Htrimmed Hfixed Hhead.
  generalize (JS.dropWhiteEnd
                (JS.dropWhite
                   (List.filter (fun t => isLetterToken t || JS.isWhite t)
                                (JS.tokens name)))).
  clear name Hkept. intros l Hl Hfixed Hhead.
  unfold splitSpaces. rewrite (tokens_text l Hl).
  destruct l as [|t rest]; [left; reflexivity|].
  specialize (Hhead t rest eq_refl).
  destruct t as [bytes|c]; [discriminate Hhead|]. clear Hhead.
  replace (String.eqb (JS.text (JS.other c :: rest)) "") with false by reflexivity.
  right. fold notEmpty. fold (words false (JS.other c :: rest)).
  assert (Hwords : Forall (fun part => allChars isLetter part = true
                                       /\ notEmpty part = true)
                          (words false (JS.other c :: rest))).
  { apply Forall_forall. intros part Hpart.
    apply list_elem_of_In, filter_In in Hpart as [Hin Hne].
    split; [|exact Hne].
    pose proof (splitTokens_letters false _ Hl) as Hparts.
    rewrite Forall_forall in Hparts. apply Hparts, list_elem_of_In. exact Hin. }
  destruct (2 <=? length (words false (JS.other c :: rest)))%nat eqn:Hcount.
  - apply Nat.leb_le in Hcount.
    destruct (words false (JS.other c :: rest)) as [|first others] eqn:Hw;
      [cbn in Hcount; lia|].
    rewrite Forall_forall in Hwords.
    destruct (Hwords first) as [H1 H1']; [apply list_elem_of_In; left; reflexivity|].
    destruct (Hwords (List.last (first :: others) ""))
      as [H2 H2']; [apply list_elem_of_In, last_In; discriminate|].
    cbn [List.hd].
    destruct (firstChar_word _ H1 H1') as (a & -> & Ha).
    destruct (firstChar_word _ H2 H2') as (b & -> & Hb).
    unfold capitals. cbn.
    rewrite (toUpperCaseChar_letter a Ha), (toUpperCaseChar_letter b Hb). reflexivity.
  - apply Nat.leb_gt in Hcount.
    pose proof (one_word_no_space false c rest Hfixed Hcount) as Hnospace.
    inversion Hl as [|? ? Hc Hrest]; subst. cbn in Hc.
    unfold capitals. destruct rest as [|t rest].
    + cbn. rewrite (toUpperCaseChar_letter c Hc). reflexivity.
    + inversion Hnospace as [|? ? Ht _]; subst.
      inversion Hrest as [|? ? Hd _]; subst.
      destruct t as [bytes|d]; [discriminate Ht|]. cbn in Hd. cbn.
      rewrite (toUpperCaseChar_letter c Hc), (toUpperCaseChar_letter d Hd). reflexivity.
Qed.

Lemma prefix_at (c : ascii) (a b : string) :
  String.prefix "@" (String c a) = String.prefix "@" (String c b).
Proof.
  change (String.prefix "@" (String c a))
    with (if ascii_dec "@" c then String.prefix "" a else false).
  change (String.prefix "@" (String c b))
    with (if ascii_dec "@" c then String.prefix "" b else false).
  destruct (ascii_dec "@" c); [|reflexivity]. destruct a, b; reflexivity.
Qed.

Lemma includes_at (local domain : string) :
  includes "@" (local ++ "@" ++ domain)%string = true.
Proof.
  induction local as [|c local IH]; [destruct domain; reflexivity|].
  cbn [append includes]. cbn [append] in IH. rewrite IH. apply orb_true_r.
Qed.

Lemma before_at (local domain : string) :
  includes "@" local = false ->
  JS.before "@" (local ++ "@" ++ domain)%string = local.
Proof.
  induction local as [|c local IH]; [destruct domain; reflexivity|].
  cbn [includes]. intros H. apply orb_false_iff in H as [Hc Hrest].
  cbn [append JS.before]. cbn [append] in IH.
  rewrite (prefix_at c _ local), Hc, (IH Hrest). reflexivity.
Qed.

(** X25.  Of an email address only the part before the '@' counts: the
    initials of an address are those of its local part. *)
Theorem getInitials_ignores_domain (local domain : string) :
  includes "@" local = false ->
  getInitials (Some (local ++ "@" ++ domain)%string) = getInitials (Some local).
Proof.
  intros Hlocal. unfold getInitials.
  rewrite includes_at, (before_at local domain Hlocal), Hlocal.
  destruct local as [|c local]; reflexivity.
Qed.

End Initials.

Lemma getInitials_ignores_domain_witness :
  getInitials (Some "ann lee@acme.com") = "AL"
  /\ getInitials (Some "ann lee@acme.com") = getInitials (Some "ann lee").
Proof.
  split; [reflexivity|].
  apply (getInitials_ignores_domain "ann lee" "acme.com"). reflexivity.
Defined.

(** ** White space *)

(** Each of the 25 white-space characters is trimmed away at either end
    and is blank by itself. *)
Lemma trim_white_space :
  length JS.whiteSpaceCharacters = 25
  /\ Forall (fun w => JS.trim w = "" /\ JS.trim (w ++ "a b" ++ w) = "a b")
            JS.whiteSpaceCharacters.
Proof. split; [reflexivity|]. repeat constructor. Qed.

(** Cutting a text into tokens loses nothing: [trim] returns a piece of
    the text. *)
Lemma text_tokens (s : string) : JS.text (JS.tokens s) = s.
Proof.
  assert (H : forall n s, String.length s <= n -> JS.text (JS.tokens s) = s).
  { clear s. induction n as [|n IH]; intros s Hn.
    - destruct s; [reflexivity | cbn in Hn; lia].
    - destruct s as [|c r]; [reflexivity|]. cbn in Hn.
      unfold JS.tokens. cbn [JS.tokensAfter]. unfold JS.spaceWidth.
      destruct (JS.space1 c).
      { cbn [JS.text JS.tokenText String.substring]. rewrite substring_none.
        cbn [append]. f_equal. apply IH. cbn [String.length] in *. lia. }
      destruct r as [|d r].
      { reflexivity. }
      destruct (JS.space2 c d).
      { cbn [JS.text JS.tokenText String.substring JS.tokensAfter].
        rewrite substring_none. cbn [append]. do 2 f_equal. apply IH.
        cbn [String.length] in *. lia. }
      destruct r as [|e r].
      { cbn [JS.text JS.tokenText append]. f_equal. apply (IH (String d "")).
        cbn [String.length] in *. lia. }
      destruct (JS.space3 c d e).
      { cbn [JS.text JS.tokenText String.substring JS.tokensAfter].
        rewrite substring_none. cbn [append]. do 3 f_equal. apply IH.
        cbn [String.length] in *. lia. }
      cbn [JS.text JS.tokenText append]. f_equal.
      apply (IH (String d (String e r))). cbn [String.length] in *. lia. }
  apply (H (String.length s)). lia.
Qed.

(** Fields that hold nothing but no-break spaces are blank to the
    handlers: no contact or deal is created from them, no search and no
    processing is started, and notes of that kind are not meaningful. *)
Remark no_break_space_is_blank (s : State) :
  let blank := (JS.nbsp ++ " " ++ JS.nbsp)%string in
  handleCreateContact blank blank blank ""
    (Answered (CreateContactResponse.mk (Some "9001") false None)) s
  = showPreviewError
      (msg_other "Please fill in all required fields (email, first name, last name).") s
  /\ handleSearchAgain blank (Some (SearchContactResponse.mk 1 [Session.ann])) s = s
  /\ handleSearchInvestor blank None s = s
  /\ handleProcessNotes Session.dates blank (Some Session.preview) s = s
  /\ handleCreateDeal (Some "d9") (s <| dealNameInput := blank |>)
     = s <| dealNameInput := blank |>
  /\ hasPreferences [("Preference Notes", PText blank)] = Some false
  /\ getInitials (Some ("ann" ++ JS.nbsp ++ "lee")%string) = "AL".
Proof. cbv zeta. repeat split. Qed.

(** ** The title of the follow-up task *)

Lemma showHubSpotActionsCard_taskTitle (s : State) :
  taskTitleInput s <> "" ->
  taskTitleInput (showHubSpotActionsCard s) = taskTitleInput s.
Proof.
  intros Htitle. apply String.eqb_neq in Htitle.
  unfold showHubSpotActionsCard, updateTaskTitle, updateExecutionSummary.
  cbv beta zeta.
  change (taskTitleInput (_ <| selectedDealId := None |>)) with (taskTitleInput s).
  rewrite Htitle. case_atoms; reflexivity.
Qed.

Lemma step_taskTitle dates (event : Event) (s : State) :
  taskTitleInput s <> "" ->
  match event with
  | ProcessNotes _ _ | TypeTaskTitle _ => True
  | _ => taskTitleInput (step dates event s) = taskTitleInput s
  end.
Proof.
  intros Htitle. destruct event; try exact I.
  all: unfold step, handleContactSelection, handleContactOptionClick, handleSkipHubspot,
    handleSearchAgain, showSearchAgainFromMultiple, handleCreateContact,
    handleHubSpotActionChange, fetchDealsForContact,
    handleDealSelection, handleDealSearchSelection, selectDealOption, dealOptionAt,
    populateDealFields, handleSearchDeals, showDealCreationMode, handleCreateDeal,
    handleInvestorOptionClick, handleInvestorSelection, handleSearchInvestor,
    handleSkipInvestorPrefs, showSearchInvestorAgainFromMultiple,
    showSearchDifferentInvestor, handleCreateInvestor,
    handleInvestorPrefsCheckboxChange, handleTodosCheckboxChange,
    handleFutureTaskCheckboxChange, handleEnableHubspotNoteChange,
    handleEnableInvestorPrefsChange, handleEnableTodosChange,
    todoStep, handleTodoCheckboxChange, handleTodoDateChange, handleSelectAllTodos,
    handleConfirmAndExecute, handleConfirmResponse, handleCancel, handleNewNotes,
    initializeProgressSteps, updateProgressStep,
    updateExecutionSummary, showPreviewError, hidePreviewError, showResults.
  all: kept_through showHubSpotActionsCard_taskTitle Htitle.
Qed.

Lemma displayPreview_taskTitle dates preview (s : State) :
  taskTitleInput s <> "" ->
  taskTitleInput (fst (displayPreview dates preview s)) = taskTitleInput s.
Proof.
  intros Htitle. rewrite displayPreview_steps.
  transitivity (taskTitleInput
                  (displayParsedDeals dates preview
                     (displayContactSection preview (resetForPreview s)))).
  - generalize (displayParsedDeals dates preview
                  (displayContactSection preview (resetForPreview s))).
    intros s2. unfold displayPreferences, displayTodos. same_view.
  - transitivity (taskTitleInput (displayContactSection preview (resetForPreview s))).
    + generalize (displayContactSection preview (resetForPreview s)). intros s1.
      unfold displayParsedDeals. same_view.
    + transitivity (taskTitleInput (resetForPreview s)); [|reflexivity].
      assert (Hreset : taskTitleInput (resetForPreview s) <> "") by exact Htitle.
      revert Hreset. generalize (resetForPreview s). intros s0 Hreset.
      unfold displayContactSection. kept_through showHubSpotActionsCard_taskTitle Hreset.
Qed.

(** X26.  The title of the follow-up task is filled in from the contact
    name only while it is empty.  Once it holds a text, nothing but
    typing into it changes it: not choosing another contact, not a new
    preview, not cancel or new notes; and a request with a follow-up
    task carries that text. *)
Theorem task_title_sticks
    (dates : DateApi) (events : list Event) (data : Preview.t) (s : State) :
  taskTitleInput s <> "" ->
  Forall (fun event => typesTaskTitle event = false) events ->
  let s' := run dates events s in
  taskTitleInput s' = taskTitleInput s
  /\ (createFutureTaskCheckbox s' = true ->
      FutureTask.task_title
        (HubspotPayload.future_task (Payload.hubspot (buildPayload data s')))
      = Some (taskTitleInput s)).
Proof.
  intros Htitle Hevents. cbn zeta.
  assert (Hrun : taskTitleInput (run dates events s) = taskTitleInput s).
  { revert s Htitle. induction Hevents as [|event events Hevent _ IH]; intros s Htitle;
      [reflexivity|].
    cbn [run fold_left].
    assert (Hstep : taskTitleInput (step dates event s) = taskTitleInput s).
    { pose proof (step_taskTitle dates event s Htitle) as Hstep.
      destruct event; try exact Hstep; try discriminate Hevent.
      cbn [step]. unfold handleProcessNotes. case_atoms; try reflexivity.
      match goal with
      | |- taskTitleInput (fst (displayPreview dates ?p ?s0)) = _ =>
          rewrite (displayPreview_taskTitle dates p s0) by exact Htitle
      end.
      reflexivity. }
    fold (run dates events (step dates event s)).
    rewrite IH; [exact Hstep | rewrite Hstep; exact Htitle]. }
  split; [exact Hrun|].
  intros Hbox. unfold buildPayload.
  cbn [Payload.hubspot HubspotPayload.future_task].
  rewrite Hbox, Hrun. cbn [FutureTask.task_title]. f_equal.
  unfold JS.or_str. apply String.eqb_neq in Htitle. rewrite Htitle. reflexivity.
Qed.

Lemma task_title_sticks_witness :
  let s' := run Session.dates
              [FutureTaskCheckboxChange true; NewNotes;
               ProcessNotes "Call with Bob" (Some Session.previewSingle)]
              (step Session.dates (TypeTaskTitle "Check in with Ann Lee") Session.contactPicked) in
  taskTitleInput s' = "Check in with Ann Lee"
  /\ (createFutureTaskCheckbox s' = true ->
      FutureTask.task_title
        (HubspotPayload.future_task
           (Payload.hubspot (buildPayload Session.previewSingle s')))
      = Some "Check in with Ann Lee").
Proof.
  apply (task_title_sticks Session.dates
           [FutureTaskCheckboxChange true; NewNotes;
            ProcessNotes "Call with Bob" (Some Session.previewSingle)]
           Session.previewSingle
           (step Session.dates (TypeTaskTitle "Check in with Ann Lee") Session.contactPicked)).
  - discriminate.
  - repeat constructor.
Defined.

(** ** Trying again after a failure *)

Lemma handleConfirmAndExecute_display (display s : State) :
  snd (handleConfirmAndExecute (withDisplayOf display s)) = snd (handleConfirmAndExecute s).
Proof.
  unfold handleConfirmAndExecute. cbv zeta.
  change (confirmHubspotAction (withDisplayOf display s)) with (confirmHubspotAction s).
  change (shouldUpdateInvestorPrefs (withDisplayOf display s))
    with (shouldUpdateInvestorPrefs s).
  change (shouldCreateTodos (withDisplayOf display s)) with (shouldCreateTodos s).
  change (selectedContactId (withDisplayOf display s)) with (selectedContactId s).
  change (selectedDealId (withDisplayOf display s)) with (selectedDealId s).
  change (processedData (withDisplayOf display s)) with (processedData s).
  repeat match goal with
         | |- snd (if ?c then _ else _) = snd (if ?c then _ else _) =>
             destruct c; [reflexivity|]
         end.
  destruct (processedData s) as [data|]; reflexivity.
Qed.

Lemma handleConfirmAndExecute_keeps (s : State) :
  fst (handleConfirmAndExecute s) = withDisplayOf (fst (handleConfirmAndExecute s)) s.
Proof.
  unfold handleConfirmAndExecute, withDisplayOf, showPreviewError, initializeProgressSteps,
    updateProgressStep.
  cbv beta zeta. case_atoms; destruct s; reflexivity.
Qed.

Lemma handleConfirmResponse_failed_keeps (message : option string) (s : State) :
  handleConfirmResponse (Failed message) s
  = withDisplayOf (handleConfirmResponse (Failed message) s) s.
Proof. destruct s. reflexivity. Qed.

Lemma withDisplayOf_twice (display display' s : State) :
  withDisplayOf display (withDisplayOf display' s) = withDisplayOf display s.
Proof. destruct s. reflexivity. Qed.

(** X27.  When the request fails, the error is shown, both buttons work
    again, and confirming once more sends the same request. *)
Theorem failed_request_can_be_sent_again
    (s s1 : State) (payload : Payload.t) (message : option string) :
  handleConfirmAndExecute s = (s1, Dispatched payload) ->
  let s2 := handleConfirmResponse (Failed message) s1 in
  previewErrorMessage s2 = Some (msg_other (JS.or_str message "Failed to execute updates"))
  /\ confirmBtn_disabled s2 = false
  /\ cancelBtn_disabled s2 = false
  /\ snd (handleConfirmAndExecute s2) = Dispatched payload.
Proof.
  intros Hconfirm. cbn zeta.
  split; [reflexivity|]. split; [reflexivity|]. split; [reflexivity|].
  assert (Hs1 : s1 = withDisplayOf s1 s).
  { pose proof (handleConfirmAndExecute_keeps s) as Hkeeps.
    rewrite Hconfirm in Hkeeps. exact Hkeeps. }
  assert (Hs2 : handleConfirmResponse (Failed message) s1
                = withDisplayOf (handleConfirmResponse (Failed message) s1) s).
  { etransitivity; [apply handleConfirmResponse_failed_keeps|].
    generalize (handleConfirmResponse (Failed message) s1). intros display.
    rewrite Hs1. apply withDisplayOf_twice. }
  rewrite Hs2, handleConfirmAndExecute_display, Hconfirm. reflexivity.
Qed.

Lemma failed_request_can_be_sent_again_witness :
  let s1 := fst (handleConfirmAndExecute Session.contactPicked) in
  let s2 := handleConfirmResponse (Failed (Some "HubSpot is down")) s1 in
  previewErrorMessage s2 = Some (msg_other "HubSpot is down")
  /\ confirmBtn_disabled s2 = false
  /\ cancelBtn_disabled s2 = false
  /\ snd (handleConfirmAndExecute s2)
     = Dispatched (buildPayload Session.preview Session.contactPicked).
Proof.
  apply (failed_request_can_be_sent_again Session.contactPicked
           (fst (handleConfirmAndExecute Session.contactPicked))
           (buildPayload Session.preview Session.contactPicked)
           (Some "HubSpot is down")).
  vm_compute. reflexivity.
Defined.
